(** * ClientHandl: the request orchestrator of the handl GraphQL client

    A shallow embedding of the class [ClientHandl]: [create], the
    constructor, [request], [_request], [_resolveRequestOperation],
    [_query], [_mutation], [_subscription], [_resolveSubscriber], [_fetch],
    [_checkResponseCache], [_resolve], [_resolvePendingRequests],
    [_setPendingRequest] and the response-cache getters.  The decorators of
    [_fetch], [_request] and [_resolveSubscriber] (logging, timing) pass
    arguments and results through and are left out.

    An [async] method is a [Task]: a tree of actions, one per interaction
    with the state around the method (the request registries, promises, the
    stores, the cache manager, the executor, the subscriber, the parser).
    [run] gives the actions their meaning in a [World]; a task that waits
    for a promise nobody settled yet, or for a transport that has not
    answered, stays suspended at that action. *)

From stdpp Require Import gmap strings list.

Set Default Proof Using "Type".
Local Open Scope string_scope.

(** ** Errors and promise outcomes *)

(** A JavaScript [Error] object: constructor name and message. *)
Record ErrorObject := MkError { error_name : string; error_message : string }.

Definition TypeError (message : string) : ErrorObject := MkError "TypeError" message.
Definition Error (message : string) : ErrorObject := MkError "Error" message.

(** What a promise is rejected with: [Error | Error[]].  Both an object and
    an array (the empty one included) are truthy. *)
Inductive Rejection :=
| One (e : ErrorObject)
| Many (es : list ErrorObject).

Inductive Outcome (A : Type) :=
| Fulfilled (a : A)
| Rejected (e : Rejection).
Arguments Fulfilled {A} a.
Arguments Rejected {A} e.

(** A JavaScript string is truthy unless it is empty. *)
Definition truthy (s : string) : bool :=
  match s with EmptyString => false | String _ _ => true end.

(** ** What the orchestrator imports *)

(** An operation definition node, as far as [_request] reads it: its
    [operation] and its [name.value]. *)
Record OperationDefinition := {
  od_operation : string;
  od_name : option string;
}.

(** The payload types the orchestrator only passes along, and the pure
    helpers it imports (helpers/*, the graphql and cacheability packages). *)
Class Foreign := {
  ObjectMap : Type;
  DocumentNode : Type;
  Headers : Type;
  GraphQLSchema : Type;
  Introspection : Type;
  AsyncIterator : Type;
  FieldTypeMap : Type;
  Tag : Type;
  CachemapOptions : Type;
  Cacheability : Type;
  DehydratedCacheMetadata : Type;
  (* cacheability *)
  parseCacheControl : string -> Cacheability;
  printCacheControl : Cacheability -> string;
  (* helpers *)
  hashRequest : string -> string;
  getOperationDefinitions : DocumentNode -> list OperationDefinition;
  createCacheMetadata :
    option DehydratedCacheMetadata -> option Headers -> gmap string Cacheability;
  dehydrateCacheMetadata : gmap string Cacheability -> DehydratedCacheMetadata;
  rehydrateCacheMetadata : DehydratedCacheMetadata -> gmap string Cacheability;
  (* graphql *)
  buildClientSchema : Introspection -> Outcome GraphQLSchema;
  validate : GraphQLSchema -> DocumentNode -> list ErrorObject;
  (* lodash *)
  merge : CachemapOptions -> CachemapOptions -> CachemapOptions;
  emptyFieldTypeMap : FieldTypeMap;
  (* the literal defaults of [_cachemapOptions] *)
  dataEntitiesOptions : CachemapOptions;
  queryPathsOptions : CachemapOptions;
  responsesOptions : CachemapOptions;
  (* the process: [process.env.WEB_ENV] is set, [socketsSupported()] *)
  WEB_ENV : bool;
  socketsSupported : bool;
}.

Abbreviation CacheMetadata := (gmap string Cacheability).

Section Client.
Context `{F : Foreign}.

(** ** Data *)

Inductive Operation := query | mutation | subscription.

Record DefaultCacheControls := {
  dcc_mutation : string;
  dcc_query : string;
  dcc_subscription : string;
}.

(** [this._defaultCacheControls[operation]] *)
Definition directive_for (d : DefaultCacheControls) (o : Operation) : string :=
  match o with
  | query => dcc_query d
  | mutation => dcc_mutation d
  | subscription => dcc_subscription d
  end.

Record CachemapArgsGroup := {
  cg_dataEntities : CachemapOptions;
  cg_queryPaths : CachemapOptions;
  cg_responses : CachemapOptions;
}.

Inductive Mode := mode_default | mode_server.

Inductive RequestExecutor :=
| FetchManager (url : string)
| GraphQLExecute (schema : GraphQLSchema).

Inductive RequestSubscriber :=
| SocketManager (address : string)
| GraphQLSubscribe (schema : GraphQLSchema).

Record ClientHandl := {
  _cachemapOptions : CachemapArgsGroup;
  _defaultCacheControls : DefaultCacheControls;
  _mode : Mode;
  _requestExecutor : RequestExecutor;
  _requestSubscriber : option RequestSubscriber;
  _resourceKey : string;
  _schema : GraphQLSchema;
  _subscriptionsEnabled : bool;
  _typeCacheControls : option (gmap string string);
}.

(** [opts.fragments] as [_request] inspects it. *)
Inductive FragmentItem := StringItem (s : string) | OtherItem.
Inductive FragmentsArg :=
| NoFragments
| NotAnArray
| FragmentArray (items : list FragmentItem).

Record RequestOptions := {
  awaitDataCached : bool;
  fragments : FragmentsArg;
  tag : option Tag;
}.

Inductive QueryArg := QueryString (s : string) | QueryOther.
Inductive OptsArg := PlainOpts (o : RequestOptions) | OptsOther.

Record RequestContext := {
  fieldTypeMap : FieldTypeMap;
  handlID : string;
  operation : string;
  operationName : string;
}.

Record UpdatedRequest := {
  up_ast : DocumentNode;
  up_query : string;
  up_fieldTypeMap : FieldTypeMap;
}.

Record AnalyzeResult := {
  cachedData : option ObjectMap;
  ar_cacheMetadata : option CacheMetadata;
  filtered : bool;
  updatedAST : option DocumentNode;
  updatedQuery : option string;
}.

(** What [this._requestExecutor.resolve] answers. *)
Record ExecutorResult := {
  er_cacheMetadata : option DehydratedCacheMetadata;
  er_data : option ObjectMap;
  er_errors : option Rejection;
  er_headers : option Headers;
}.

Record FetchResult := {
  fr_cacheMetadata : option DehydratedCacheMetadata;
  fr_data : option ObjectMap;
  fr_headers : option Headers;
}.

(** What the subscriber hands to [_resolveSubscriber]. *)
Record ExecutionResult := {
  xr_cacheMetadata : option DehydratedCacheMetadata;
  xr_data : option ObjectMap;
  xr_errors : option Rejection;
}.

Inductive SubscriberPayload :=
| NotPlainObject
| PlainResult (r : ExecutionResult).

Inductive SubscribeResult :=
| AsyncIterable (it : AsyncIterator)
| Execution (r : ExecutionResult).

(** The value of a response-store entry. *)
Record ResponseRecord := {
  rec_cacheMetadata : DehydratedCacheMetadata;
  rec_data : ObjectMap;
}.

Record ResponseEntry := {
  entry_value : ResponseRecord;
  entry_cacheControl : string;
  entry_tag : option Tag;
}.

(** What the cache manager's resolve methods answer. *)
Record CacheResolveResult := {
  crr_cacheMetadata : CacheMetadata;
  crr_data : ObjectMap;
}.

(** A deferred is named by a number; so is the promise of a pending caller,
    whose [{ reject, resolve }] pair the pending registry keeps. *)
Record ResolveResult := {
  rr_cacheMetadata : option CacheMetadata;
  rr_data : option ObjectMap;
  rr_cachePromise : option nat;
  rr_queryHash : option string;
}.

Record ResolveArgs := {
  ra_cacheMetadata : option CacheMetadata;
  ra_cachePromise : option nat;
  ra_data : option ObjectMap;
  ra_error : option Rejection;
  ra_operation : Operation;
  ra_queryHash : option string;
  ra_resolvePending : bool;
}.

Record ResponseCacheEntryResult := {
  rce_cacheMetadata : CacheMetadata;
  rce_data : ObjectMap;
}.

Inductive RequestResult :=
| ResultObject (r : ResolveResult)
| ResultIterator (it : AsyncIterator).

(** Constructor arguments, each field as the constructor tests it. *)
Inductive CachemapArg :=
| ArgGroup (dataEntities queryPaths responses : option CachemapOptions)
| ArgOptions (o : CachemapOptions).

Record DefaultCacheControlsArg := {
  arg_mutation : option string;
  arg_query : option string;
  arg_subscription : option string;
}.

Record ClientArgs := {
  args_cachemapOptions : option CachemapArg;
  args_defaultCacheControls : option DefaultCacheControlsArg;
  args_introspection : option Introspection;
  args_mode : string;
  args_newInstance : bool;
  args_resourceKey : option string;
  args_schema : option GraphQLSchema;
  args_subscriptions : option string;
  args_typeCacheControls : option (gmap string string);
  args_url : option string;
}.

Inductive ArgsValue := PlainArgs (a : ClientArgs) | ArgsOther.

(** ** Actions and tasks *)

Inductive action :=
(* this._cache.requests.active and .pending *)
| ActiveHas (queryHash : string)
| ActiveSet (queryHash request : string)
| ActiveDelete (queryHash : string)
| PendingGet (queryHash : string)
| PendingSet (queryHash : string) (callers : list nat)
| PendingDelete (queryHash : string)
(* promises of pending callers, deferreds *)
| NewPromise
| PromiseResolve (p : nat) (r : ResolveResult)
| PromiseReject (p : nat) (e : Rejection)
| AwaitPromise (p : nat)
| DeferredPromise
| DeferredResolve (d : nat)
| AwaitDeferred (d : nat)
(* the module variable [instance] *)
| ReadInstance
| WriteInstance (c : ClientHandl)
(* this._cache.responses *)
| ResponsesHas (key : string)
| ResponsesGet (key : string)
| ResponsesSet (key : string) (value : ResponseRecord) (cacheControl : string)
    (t : option Tag)
| ResponsesSize
(* this._cache *)
| CacheIsValid (c : option Cacheability)
| CacheAnalyze (queryHash : string) (ast : DocumentNode) (ctx : RequestContext)
| CacheResolveQuery (request : option string) (ast : option DocumentNode)
    (queryHash : string) (data : option ObjectMap) (cm : CacheMetadata)
    (cacheResolve : nat) (isFiltered : bool) (t : option Tag) (ctx : RequestContext)
| CacheResolveMutation (ast : DocumentNode) (data : option ObjectMap)
    (cm : CacheMetadata) (cacheResolve : nat) (t : option Tag) (ctx : RequestContext)
| CacheResolveSubscription (ast : DocumentNode) (data : option ObjectMap)
    (cm : CacheMetadata) (cacheResolve : nat) (t : option Tag) (ctx : RequestContext)
| CacheManagerCreate (c : ClientHandl)
(* this._requestExecutor, this._requestSubscriber, this._requestParser *)
| ExecutorResolve (request : option string) (ast : option DocumentNode)
    (opts : RequestOptions)
| SubscriberResolve (request hash : string) (ast : DocumentNode)
    (opts : RequestOptions)
| UpdateRequest (request : string) (opts : RequestOptions) (ctx : RequestContext).

Definition result (a : action) : Type :=
  match a with
  | ActiveHas _ => bool
  | ActiveSet _ _ | ActiveDelete _ => unit
  | PendingGet _ => option (list nat)
  | PendingSet _ _ | PendingDelete _ => unit
  | NewPromise | DeferredPromise => nat
  | PromiseResolve _ _ | PromiseReject _ _ | DeferredResolve _ => unit
  | AwaitPromise _ => Outcome ResolveResult
  | AwaitDeferred _ => Outcome unit
  | ReadInstance => option ClientHandl
  | WriteInstance _ => unit
  | ResponsesHas _ => Outcome (option Cacheability)
  | ResponsesGet _ => Outcome (option ResponseRecord)
  | ResponsesSet _ _ _ _ => Outcome unit
  | ResponsesSize => Outcome nat
  | CacheIsValid _ => bool
  | CacheAnalyze _ _ _ => Outcome AnalyzeResult
  | CacheResolveQuery _ _ _ _ _ _ _ _ _ => Outcome CacheResolveResult
  | CacheResolveMutation _ _ _ _ _ _ => Outcome CacheResolveResult
  | CacheResolveSubscription _ _ _ _ _ _ => Outcome CacheResolveResult
  | CacheManagerCreate _ => Outcome unit
  | ExecutorResolve _ _ _ => Outcome ExecutorResult
  | SubscriberResolve _ _ _ _ => Outcome SubscribeResult
  | UpdateRequest _ _ _ => Outcome UpdatedRequest
  end.

Inductive Task (R : Type) : Type :=
| Done (r : R)
| Act (a : action) (k : result a -> Task R).
Arguments Done {R} r.
Arguments Act {R} a k.

Fixpoint bind {A B : Type} (t : Task A) (f : A -> Task B) : Task B :=
  match t with
  | Done r => f r
  | Act a k => Act a (fun x => bind (k x) f)
  end.

#[global] Instance Task_ret : MRet Task := @Done.
#[global] Instance Task_bind : MBind Task := fun A B f t => bind t f.
#[global] Instance Task_fmap : FMap Task := fun A B f t => bind t (fun x => Done (f x)).

Definition call (a : action) : Task (result a) := Act a Done.

(** [array.forEach(f)] *)
Fixpoint forEach {A : Type} (l : list A) (f : A -> Task unit) : Task unit :=
  match l with
  | [] => mret tt
  | x :: l => f x;; forEach l f
  end.

Definition outcome_map {A B : Type} (f : A -> B) (o : Outcome A) : Outcome B :=
  match o with
  | Fulfilled a => Fulfilled (f a)
  | Rejected e => Rejected e
  end.

(** ** The world around a task *)

(** [this._cache.requests] *)
Record Requests := {
  active : gmap string string;
  pending : gmap string (list nat);
}.

(** The three stores behind [this._cache]. *)
Record Stores := {
  responses : gmap string ResponseEntry;
  dataEntities : gmap string ObjectMap;
  queryPaths : gmap string ObjectMap;
}.

(** What a resolve method of the cache manager derives from a response:
    the entity and query-path writes, the shaped data and its metadata, and
    the top-level cache-control of the response record. *)
Record Normalised := {
  n_entities : list (string * ObjectMap);
  n_paths : list (string * ObjectMap);
  n_cacheMetadata : CacheMetadata;
  n_data : ObjectMap;
  n_cacheControl : string;
}.

(** The collaborators whose code is not the orchestrator's.  A transport
    that answers [None] has not answered yet. *)
Record Env := {
  read_fault : string -> option Rejection;
  write_fault : string -> option Rejection;
  isValid : option Cacheability -> bool;
  analyze : string -> DocumentNode -> Stores -> Outcome AnalyzeResult;
  normalise : Operation -> option ObjectMap -> CacheMetadata -> Stores -> Outcome Normalised;
  acknowledged : bool;
  createCache : ClientHandl -> Outcome unit;
  executor : option string -> option DocumentNode -> option (Outcome ExecutorResult);
  subscriber : string -> DocumentNode -> option (Outcome SubscribeResult);
  updateRequest : string -> RequestOptions -> Outcome UpdatedRequest;
}.

(** [promises] and [deferreds] hold the settled ones. *)
Record World := {
  instance : option ClientHandl;
  requests : Requests;
  promises : gmap nat (Outcome ResolveResult);
  promiseCount : nat;
  deferreds : gmap nat (Outcome unit);
  deferredCount : nat;
  stores : Stores;
  env : Env;
  log : list action;
}.

Definition set_instance (c : ClientHandl) (w : World) : World :=
  {| instance := Some c; requests := requests w; promises := promises w;
     promiseCount := promiseCount w; deferreds := deferreds w;
     deferredCount := deferredCount w; stores := stores w; env := env w;
     log := log w |}.

Definition set_requests (r : Requests) (w : World) : World :=
  {| instance := instance w; requests := r; promises := promises w;
     promiseCount := promiseCount w; deferreds := deferreds w;
     deferredCount := deferredCount w; stores := stores w; env := env w;
     log := log w |}.

Definition set_active (a : gmap string string) (w : World) : World :=
  set_requests {| active := a; pending := pending (requests w) |} w.

Definition set_pending (p : gmap string (list nat)) (w : World) : World :=
  set_requests {| active := active (requests w); pending := p |} w.

Definition set_promises (p : gmap nat (Outcome ResolveResult)) (w : World) : World :=
  {| instance := instance w; requests := requests w; promises := p;
     promiseCount := promiseCount w; deferreds := deferreds w;
     deferredCount := deferredCount w; stores := stores w; env := env w;
     log := log w |}.

(** A new promise, and a new deferred, is unsettled. *)
Definition next_promise (w : World) : World :=
  {| instance := instance w; requests := requests w;
     promises := delete (promiseCount w) (promises w);
     promiseCount := S (promiseCount w); deferreds := deferreds w;
     deferredCount := deferredCount w; stores := stores w; env := env w;
     log := log w |}.

Definition set_deferreds (d : gmap nat (Outcome unit)) (w : World) : World :=
  {| instance := instance w; requests := requests w; promises := promises w;
     promiseCount := promiseCount w; deferreds := d;
     deferredCount := deferredCount w; stores := stores w; env := env w;
     log := log w |}.

Definition next_deferred (w : World) : World :=
  {| instance := instance w; requests := requests w; promises := promises w;
     promiseCount := promiseCount w;
     deferreds := delete (deferredCount w) (deferreds w);
     deferredCount := S (deferredCount w); stores := stores w; env := env w;
     log := log w |}.

Definition set_stores (s : Stores) (w : World) : World :=
  {| instance := instance w; requests := requests w; promises := promises w;
     promiseCount := promiseCount w; deferreds := deferreds w;
     deferredCount := deferredCount w; stores := s; env := env w;
     log := log w |}.

Definition set_env (e : Env) (w : World) : World :=
  {| instance := instance w; requests := requests w; promises := promises w;
     promiseCount := promiseCount w; deferreds := deferreds w;
     deferredCount := deferredCount w; stores := stores w; env := e;
     log := log w |}.

Definition set_log (l : list action) (w : World) : World :=
  {| instance := instance w; requests := requests w; promises := promises w;
     promiseCount := promiseCount w; deferreds := deferreds w;
     deferredCount := deferredCount w; stores := stores w; env := env w;
     log := l |}.

(** Every call to a collaborator is recorded, the latest first. *)
Definition logged (a : action) (w : World) : World := set_log (a :: log w) w.

(** A promise or a deferred settles once: later calls change nothing. *)
Definition settle {A : Type} (i : nat) (o : Outcome A) (m : gmap nat (Outcome A))
  : gmap nat (Outcome A) :=
  match m !! i with
  | Some _ => m
  | None => <[i := o]> m
  end.

Definition write_all (l : list (string * ObjectMap)) (m : gmap string ObjectMap)
  : gmap string ObjectMap :=
  foldr (fun kv m => <[kv.1 := kv.2]> m) m l.

(** Modelled from the spec: the stores' [has], [get], [set] and [size]
    (the store package is not part of the sources).  A store is a mapping;
    [has] answers the entry's Cacheability or [false], [get] its value,
    [set] writes the value under the key with the given cache-control and
    tag, and a read or a write may fail. *)
Definition responses_has (key : string) (w : World) : Outcome (option Cacheability) :=
  match read_fault (env w) key with
  | Some e => Rejected e
  | None =>
      Fulfilled ((fun e => parseCacheControl (entry_cacheControl e))
                   <$> responses (stores w) !! key)
  end.

Definition responses_get (key : string) (w : World) : Outcome (option ResponseRecord) :=
  match read_fault (env w) key with
  | Some e => Rejected e
  | None => Fulfilled (entry_value <$> responses (stores w) !! key)
  end.

Definition responses_set (key : string) (value : ResponseRecord)
    (cacheControl : string) (t : option Tag) (w : World) : Outcome unit * World :=
  match write_fault (env w) key with
  | Some e => (Rejected e, w)
  | None =>
      (Fulfilled tt,
       set_stores
         {| responses :=
              <[key := {| entry_value := value; entry_cacheControl := cacheControl;
                          entry_tag := t |}]> (responses (stores w));
            dataEntities := dataEntities (stores w);
            queryPaths := queryPaths (stores w) |} w)
  end.

(** Modelled from the spec: the cache manager's [resolveMutation] and
    [resolveSubscription] (cache-manager is not part of the sources).  They
    write data entities and query paths, never the response cache; the
    cachePromise resolves once the tiers have acknowledged the writes. *)
Definition resolve_entities (o : Operation) (data : option ObjectMap)
    (cm : CacheMetadata) (cacheResolve : nat) (w : World)
  : Outcome CacheResolveResult * World :=
  match normalise (env w) o data cm (stores w) with
  | Rejected e => (Rejected e, w)
  | Fulfilled n =>
      let w1 :=
        set_stores
          {| responses := responses (stores w);
             dataEntities := write_all (n_entities n) (dataEntities (stores w));
             queryPaths := write_all (n_paths n) (queryPaths (stores w)) |} w in
      let w2 :=
        if acknowledged (env w)
        then set_deferreds (settle cacheResolve (Fulfilled tt) (deferreds w1)) w1
        else w1 in
      (Fulfilled {| crr_cacheMetadata := n_cacheMetadata n; crr_data := n_data n |}, w2)
  end.

(** Modelled from the spec: the cache manager's [resolveQuery].  As
    [resolveMutation], and it writes the shaped response with its dehydrated
    metadata into the response cache under the fingerprint. *)
Definition resolve_query (queryHash : string) (data : option ObjectMap)
    (cm : CacheMetadata) (cacheResolve : nat) (t : option Tag) (w : World)
  : Outcome CacheResolveResult * World :=
  match normalise (env w) query data cm (stores w) with
  | Rejected e => (Rejected e, w)
  | Fulfilled n =>
      let w1 :=
        set_stores
          {| responses :=
               <[queryHash :=
                   {| entry_value :=
                        {| rec_cacheMetadata := dehydrateCacheMetadata (n_cacheMetadata n);
                           rec_data := n_data n |};
                      entry_cacheControl := n_cacheControl n;
                      entry_tag := t |}]> (responses (stores w));
             dataEntities := write_all (n_entities n) (dataEntities (stores w));
             queryPaths := write_all (n_paths n) (queryPaths (stores w)) |} w in
      let w2 :=
        if acknowledged (env w)
        then set_deferreds (settle cacheResolve (Fulfilled tt) (deferreds w1)) w1
        else w1 in
      (Fulfilled {| crr_cacheMetadata := n_cacheMetadata n; crr_data := n_data n |}, w2)
  end.

(** The meaning of an action: its answer and the world after it, or [None]
    while the answer is not there yet. *)
Definition handle (a : action) (w : World) : option (result a * World) :=
  match a return option (result a * World) with
  | ActiveHas h =>
      Some (match active (requests w) !! h with Some _ => true | None => false end, w)
  | ActiveSet h q => Some (tt, set_active (<[h := q]> (active (requests w))) w)
  | ActiveDelete h => Some (tt, set_active (delete h (active (requests w))) w)
  | PendingGet h => Some (pending (requests w) !! h, w)
  | PendingSet h l => Some (tt, set_pending (<[h := l]> (pending (requests w))) w)
  | PendingDelete h => Some (tt, set_pending (delete h (pending (requests w))) w)
  | NewPromise => Some (promiseCount w, next_promise w)
  | PromiseResolve p r => Some (tt, set_promises (settle p (Fulfilled r) (promises w)) w)
  | PromiseReject p e => Some (tt, set_promises (settle p (Rejected e) (promises w)) w)
  | AwaitPromise p =>
      match promises w !! p with
      | Some o => Some (o, w)
      | None => None
      end
  | DeferredPromise => Some (deferredCount w, next_deferred w)
  | DeferredResolve d =>
      Some (tt, set_deferreds (settle d (Fulfilled tt) (deferreds w)) w)
  | AwaitDeferred d =>
      match deferreds w !! d with
      | Some o => Some (o, w)
      | None => None
      end
  | ReadInstance => Some (instance w, w)
  | WriteInstance c => Some (tt, set_instance c w)
  | ResponsesHas key => Some (responses_has key w, logged a w)
  | ResponsesGet key => Some (responses_get key w, logged a w)
  | ResponsesSet key value cacheControl t =>
      let r := responses_set key value cacheControl t (logged a w) in Some (r.1, r.2)
  | ResponsesSize =>
      Some (Fulfilled (size (responses (stores w))), logged a w)
  | CacheIsValid c => Some (isValid (env w) c, w)
  | CacheAnalyze h ast _ => Some (analyze (env w) h ast (stores w), logged a w)
  | CacheResolveQuery _ _ h data cm d _ t _ =>
      let r := resolve_query h data cm d t (logged a w) in Some (r.1, r.2)
  | CacheResolveMutation _ data cm d _ _ =>
      let r := resolve_entities mutation data cm d (logged a w) in Some (r.1, r.2)
  | CacheResolveSubscription _ data cm d _ _ =>
      let r := resolve_entities subscription data cm d (logged a w) in Some (r.1, r.2)
  | CacheManagerCreate c => Some (createCache (env w) c, logged a w)
  | ExecutorResolve request ast _ =>
      match executor (env w) request ast with
      | Some r => Some (r, logged a w)
      | None => None
      end
  | SubscriberResolve request _ ast _ =>
      match subscriber (env w) request ast with
      | Some r => Some (r, logged a w)
      | None => None
      end
  | UpdateRequest request opts _ => Some (updateRequest (env w) request opts, logged a w)
  end.

(** Run a task until it is done or suspended. *)
Fixpoint run {R : Type} (t : Task R) (w : World) : Task R * World :=
  match t with
  | Done r => (Done r, w)
  | Act a k =>
      match handle a w with
      | Some (x, w') => run (k x) w'
      | None => (Act a k, w)
      end
  end.

(** ** The constructor and [create] *)

(** The field initialiser of [_defaultCacheControls]. *)
Definition initial_defaultCacheControls : DefaultCacheControls :=
  {| dcc_mutation := "max-age=0, s-maxage=0, no-cache, no-store";
     dcc_query := "public, max-age=60, s-maxage=60";
     dcc_subscription := "max-age=0, s-maxage=0, no-cache, no-store" |}.

Definition initial_cachemapOptions : CachemapArgsGroup :=
  {| cg_dataEntities := dataEntitiesOptions;
     cg_queryPaths := queryPathsOptions;
     cg_responses := responsesOptions |}.

Definition merge_option (o : CachemapOptions) (a : option CachemapOptions)
  : CachemapOptions :=
  match a with
  | Some x => merge o x
  | None => o
  end.

Definition _setCachemapOptions (this : CachemapArgsGroup) (args : CachemapArg)
  : CachemapArgsGroup :=
  match args with
  | ArgOptions o =>
      {| cg_dataEntities := merge (cg_dataEntities this) o;
         cg_queryPaths := merge (cg_queryPaths this) o;
         cg_responses := merge (cg_responses this) o |}
  | ArgGroup d q r =>
      {| cg_dataEntities := merge_option (cg_dataEntities this) d;
         cg_queryPaths := merge_option (cg_queryPaths this) q;
         cg_responses := merge_option (cg_responses this) r |}
  end.

(** [{ ...this._defaultCacheControls, ...defaultCacheControls }] *)
Definition spread_defaultCacheControls (d : DefaultCacheControls)
    (a : DefaultCacheControlsArg) : DefaultCacheControls :=
  {| dcc_mutation := default (dcc_mutation d) (arg_mutation a);
     dcc_query := default (dcc_query d) (arg_query a);
     dcc_subscription := default (dcc_subscription d) (arg_subscription a) |}.

(** The part of the constructor after [if (errors.length) throw errors]. *)
Definition construct_rest (a : ClientArgs) (m : Mode) (schema : GraphQLSchema)
    (ex : RequestExecutor) (sub : option RequestSubscriber) : ClientHandl :=
  {| _cachemapOptions :=
       match args_cachemapOptions a with
       | Some o => _setCachemapOptions initial_cachemapOptions o
       | None => initial_cachemapOptions
       end;
     _defaultCacheControls :=
       match args_defaultCacheControls a with
       | Some d => spread_defaultCacheControls initial_defaultCacheControls d
       | None => initial_defaultCacheControls
       end;
     _mode := m;
     _requestExecutor := ex;
     _requestSubscriber := sub;
     _resourceKey := default "id" (args_resourceKey a);
     _schema := schema;
     _subscriptionsEnabled := match sub with Some _ => true | None => false end;
     _typeCacheControls := args_typeCacheControls a |}.

(** [new ClientHandl(args)]: the instance, or what the constructor throws. *)
Definition constructor (args : ArgsValue) : Outcome ClientHandl :=
  match args with
  | ArgsOther => Rejected (One (TypeError "Constructor expected args to be a plain object."))
  | PlainArgs a =>
      if String.eqb (args_mode a) "server" && negb WEB_ENV then
        match args_schema a with
        | Some schema =>
            Fulfilled (construct_rest a mode_server schema (GraphQLExecute schema)
                         (Some (GraphQLSubscribe schema)))
        | None =>
            Rejected (Many [TypeError
              "Constructor expected schema to be an instance of GraphQLSchema."])
        end
      else
        let url_errors :=
          match args_url a with
          | Some _ => []
          | None => [TypeError "Constructor expected url to be a string."]
          end in
        let sub :=
          match args_subscriptions a with
          | Some address => if socketsSupported then Some (SocketManager address) else None
          | None => None
          end in
        match args_introspection a with
        | None =>
            Rejected (Many
              (TypeError "Constructor expected introspection to be a plain object."
                 :: url_errors))
        | Some introspection =>
            match buildClientSchema introspection with
            | Rejected e => Rejected e
            | Fulfilled schema =>
                match args_url a with
                | Some url =>
                    Fulfilled (construct_rest a mode_default schema (FetchManager url) sub)
                | None => Rejected (Many url_errors)
                end
            end
        end
  end.

Definition create (args : ArgsValue) : Task (Outcome ClientHandl) :=
  i ← call ReadInstance;
  let fresh :=
    match constructor args with
    | Rejected error => mret (Rejected error)
    | Fulfilled client =>
        (* client._createCache() *)
        created ← call (CacheManagerCreate client);
        match created with
        | Rejected error => mret (Rejected error)
        | Fulfilled _ => call (WriteInstance client);; mret (Fulfilled client)
        end
    end in
  match i, args with
  | Some i, PlainArgs a => if negb (args_newInstance a) then mret (Fulfilled i) else fresh
  | _, _ => fresh
  end.

(** ** The response-cache getters *)

Definition getResponseCacheEntry (key : string)
  : Task (Outcome (option ResponseCacheEntryResult)) :=
  entry ← call (ResponsesGet key);
  mret match entry with
       | Rejected error => Rejected error
       | Fulfilled None => Fulfilled None
       | Fulfilled (Some entry) =>
           Fulfilled (Some
             {| rce_cacheMetadata := createCacheMetadata (Some (rec_cacheMetadata entry)) None;
                rce_data := rec_data entry |})
       end.

Definition getResponseCacheSize : Task (Outcome nat) := call ResponsesSize.

(** ** Resolving *)

Definition _setPendingRequest (queryHash : string) (p : nat) : Task unit :=
  l ← call (PendingGet queryHash);
  call (PendingSet queryHash (default [] l ++ [p])).

Definition _resolvePendingRequests (queryHash : string)
    (cacheMetadata : option CacheMetadata) (data : option ObjectMap)
    (error : option Rejection) : Task unit :=
  pendingRequests ← call (PendingGet queryHash);
  match pendingRequests with
  | None => mret tt
  | Some pendingRequests =>
      forEach pendingRequests (fun p =>
        match error with
        | Some error => call (PromiseReject p error)
        | None =>
            call (PromiseResolve p
              {| rr_cacheMetadata := cacheMetadata; rr_data := data;
                 rr_cachePromise := None; rr_queryHash := Some queryHash |})
        end);;
      call (PendingDelete queryHash)
  end.

(** [cacheMetadata] after the first [if] of [_resolve]. *)
Definition with_query (this : ClientHandl) (o : Operation) (cacheMetadata : CacheMetadata)
  : CacheMetadata :=
  match cacheMetadata !! "query" with
  | Some _ => cacheMetadata
  | None =>
      <["query" := parseCacheControl (directive_for (_defaultCacheControls this) o)]>
        cacheMetadata
  end.

(** A [queryHash] that passes [if (queryHash)]. *)
Definition truthy_hash (queryHash : option string) : option string :=
  match queryHash with
  | Some h => if truthy h then Some h else None
  | None => None
  end.

Definition _resolve (this : ClientHandl) (args : ResolveArgs) : Task (Outcome ResolveResult) :=
  let cacheMetadata := with_query this (ra_operation args) <$> ra_cacheMetadata args in
  match (if ra_resolvePending args then truthy_hash (ra_queryHash args) else None) with
  | Some queryHash =>
      _resolvePendingRequests queryHash cacheMetadata (ra_data args) (ra_error args);;
      call (ActiveDelete queryHash)
  | None => mret tt
  end;;
  match ra_error args with
  | Some error => mret (Rejected error)
  | None =>
      mret (Fulfilled
        {| rr_cacheMetadata := cacheMetadata; rr_data := ra_data args;
           rr_cachePromise := ra_cachePromise args;
           rr_queryHash := truthy_hash (ra_queryHash args) |})
  end.

Definition _checkResponseCache (queryHash : string) (context : RequestContext)
  : Task (option ResolveResult) :=
  cacheability ← call (ResponsesHas queryHash);
  match cacheability with
  | Rejected _ => mret None
  | Fulfilled cacheability =>
      valid ← call (CacheIsValid cacheability);
      if negb valid then mret None
      else
        res ← call (ResponsesGet queryHash);
        mret match res with
             | Fulfilled (Some res) =>
                 Some {| rr_cacheMetadata :=
                           Some (rehydrateCacheMetadata (rec_cacheMetadata res));
                         rr_data := Some (rec_data res);
                         rr_cachePromise := None; rr_queryHash := None |}
             | _ => None
             end
  end.

Definition _fetch (request : option string) (ast : option DocumentNode)
    (opts : RequestOptions) (context : RequestContext) : Task (Outcome FetchResult) :=
  r ← call (ExecutorResolve request ast opts);
  mret match r with
       | Rejected error => Rejected error
       | Fulfilled r =>
           match er_errors r with
           | Some errors => Rejected errors
           | None =>
               Fulfilled {| fr_cacheMetadata := er_cacheMetadata r; fr_data := er_data r;
                            fr_headers := er_headers r |}
           end
       end.

(** ** Queries, mutations, subscriptions *)

(** [_query] from [let fetchResult] on: the analyser left fields to fetch. *)
Definition _query_fetch (this : ClientHandl) (queryHash : string) (a : AnalyzeResult)
    (deferred : nat) (opts : RequestOptions) (context : RequestContext)
  : Task (Outcome ResolveResult) :=
  fetchResult ← _fetch (updatedQuery a) (updatedAST a) opts context;
  match fetchResult with
  | Rejected error =>
      _resolve this
        {| ra_cacheMetadata := None; ra_cachePromise := None; ra_data := None;
           ra_error := Some error; ra_operation := query;
           ra_queryHash := Some queryHash; ra_resolvePending := true |}
  | Fulfilled fetchResult =>
      let _cacheMetadata :=
        createCacheMetadata (fr_cacheMetadata fetchResult) (fr_headers fetchResult) in
      resolveResult ← call (CacheResolveQuery (updatedQuery a) (updatedAST a) queryHash
                              (fr_data fetchResult) _cacheMetadata deferred (filtered a)
                              (tag opts) context);
      match resolveResult with
      | Rejected error => mret (Rejected error)
      | Fulfilled resolveResult =>
          _resolve this
            {| ra_cacheMetadata := Some (crr_cacheMetadata resolveResult);
               ra_cachePromise := Some deferred;
               ra_data := Some (crr_data resolveResult);
               ra_error := None; ra_operation := query;
               ra_queryHash := Some queryHash; ra_resolvePending := true |}
      end
  end.

(** [queryCacheability && queryCacheability.printCacheControl() || defaultCacheControl] *)
Definition response_cacheControl (this : ClientHandl) (cacheMetadata : CacheMetadata)
  : string :=
  let defaultCacheControl := dcc_query (_defaultCacheControls this) in
  match cacheMetadata !! "query" with
  | Some queryCacheability =>
      if truthy (printCacheControl queryCacheability)
      then printCacheControl queryCacheability
      else defaultCacheControl
  | None => defaultCacheControl
  end.

(** [_query] after [await this._cache.analyze].  The block started by
    [(async () => { ... })()] is not awaited by [_query]; a store answers
    at once here, so the block is placed where it is started. *)
Definition _query_analyzed (this : ClientHandl) (queryHash : string) (a : AnalyzeResult)
    (opts : RequestOptions) (context : RequestContext) : Task (Outcome ResolveResult) :=
  deferred ← call DeferredPromise;
  match cachedData a, ar_cacheMetadata a with
  | Some cachedData, Some cacheMetadata =>
      let cacheControl := response_cacheControl this cacheMetadata in
      call (ResponsesSet queryHash
              {| rec_cacheMetadata := dehydrateCacheMetadata cacheMetadata;
                 rec_data := cachedData |}
              cacheControl (tag opts));;
      call (DeferredResolve deferred);;
      _resolve this
        {| ra_cacheMetadata := Some cacheMetadata; ra_cachePromise := Some deferred;
           ra_data := Some cachedData; ra_error := None; ra_operation := query;
           ra_queryHash := Some queryHash; ra_resolvePending := true |}
  | _, _ => _query_fetch this queryHash a deferred opts context
  end.

Definition _query (this : ClientHandl) (request : string) (ast : DocumentNode)
    (opts : RequestOptions) (context : RequestContext) : Task (Outcome ResolveResult) :=
  let queryHash := hashRequest request in
  cachedResponse ← _checkResponseCache queryHash context;
  match cachedResponse with
  | Some cachedResponse =>
      _resolve this
        {| ra_cacheMetadata := rr_cacheMetadata cachedResponse; ra_cachePromise := None;
           ra_data := rr_data cachedResponse; ra_error := None; ra_operation := query;
           ra_queryHash := Some queryHash; ra_resolvePending := false |}
  | None =>
      isActive ← call (ActiveHas queryHash);
      if isActive : bool then
        p ← call NewPromise;
        _setPendingRequest queryHash p;;
        call (AwaitPromise p)
      else
        call (ActiveSet queryHash request);;
        analyzeResult ← call (CacheAnalyze queryHash ast context);
        match analyzeResult with
        | Rejected error => mret (Rejected error)
        | Fulfilled analyzeResult =>
            _query_analyzed this queryHash analyzeResult opts context
        end
  end.

Definition _mutation (this : ClientHandl) (request : string) (ast : DocumentNode)
    (opts : RequestOptions) (context : RequestContext) : Task (Outcome ResolveResult) :=
  fetchResult ← _fetch (Some request) (Some ast) opts context;
  match fetchResult with
  | Rejected error =>
      _resolve this
        {| ra_cacheMetadata := None; ra_cachePromise := None; ra_data := None;
           ra_error := Some error; ra_operation := mutation;
           ra_queryHash := None; ra_resolvePending := true |}
  | Fulfilled fetchResult =>
      let cacheMetadata :=
        createCacheMetadata (fr_cacheMetadata fetchResult) (fr_headers fetchResult) in
      deferred ← call DeferredPromise;
      resolveResult ← call (CacheResolveMutation ast (fr_data fetchResult) cacheMetadata
                              deferred (tag opts) context);
      match resolveResult with
      | Rejected error => mret (Rejected error)
      | Fulfilled resolveResult =>
          _resolve this
            {| ra_cacheMetadata := Some (crr_cacheMetadata resolveResult);
               ra_cachePromise := Some deferred;
               ra_data := Some (crr_data resolveResult);
               ra_error := None; ra_operation := mutation;
               ra_queryHash := None; ra_resolvePending := true |}
      end
  end.

Definition subscriber_errors (r : ExecutionResult) : option (list ErrorObject) :=
  match xr_errors r with
  | Some (Many (e :: es)) => Some (e :: es)
  | _ => None
  end.

Definition _resolveSubscriber (this : ClientHandl) (ast : DocumentNode)
    (r : SubscriberPayload) (opts : RequestOptions) (context : RequestContext)
  : Task (Outcome ResolveResult) :=
  match r with
  | NotPlainObject =>
      _resolve this
        {| ra_cacheMetadata := None; ra_cachePromise := None; ra_data := None;
           ra_error := Some (One (TypeError
             "Subscriber expected the result to be a JSON object."));
           ra_operation := subscription; ra_queryHash := None;
           ra_resolvePending := true |}
  | PlainResult r =>
      match subscriber_errors r with
      | Some errors =>
          _resolve this
            {| ra_cacheMetadata := None; ra_cachePromise := None; ra_data := None;
               ra_error := Some (Many errors); ra_operation := subscription;
               ra_queryHash := None; ra_resolvePending := true |}
      | None =>
          deferred ← call DeferredPromise;
          resolveResult ← call (CacheResolveSubscription ast (xr_data r)
                                  (createCacheMetadata (xr_cacheMetadata r) None)
                                  deferred (tag opts) context);
          match resolveResult with
          | Rejected error => mret (Rejected error)
          | Fulfilled resolveResult =>
              awaited ← (if awaitDataCached opts then call (AwaitDeferred deferred)
                         else mret (Fulfilled tt));
              match awaited with
              | Rejected error => mret (Rejected error)
              | Fulfilled _ =>
                  _resolve this
                    {| ra_cacheMetadata := Some (crr_cacheMetadata resolveResult);
                       ra_cachePromise := None;
                       ra_data := Some (crr_data resolveResult);
                       ra_error := None; ra_operation := subscription;
                       ra_queryHash := None; ra_resolvePending := true |}
              end
          end
      end
  end.

Definition _subscription (this : ClientHandl) (request : string) (ast : DocumentNode)
    (opts : RequestOptions) (context : RequestContext) : Task (Outcome RequestResult) :=
  let hash := hashRequest request in
  subscribeResult ← call (SubscriberResolve request hash ast opts);
  match subscribeResult with
  | Rejected error =>
      outcome_map ResultObject <$>
        _resolve this
          {| ra_cacheMetadata := None; ra_cachePromise := None; ra_data := None;
             ra_error := Some error; ra_operation := subscription;
             ra_queryHash := None; ra_resolvePending := true |}
  | Fulfilled (AsyncIterable it) => mret (Fulfilled (ResultIterator it))
  | Fulfilled (Execution executionResult) =>
      match xr_errors executionResult with
      | Some errors => mret (Rejected errors)
      | None =>
          outcome_map ResultObject <$>
            _resolveSubscriber this ast (PlainResult executionResult) opts context
      end
  end.

Definition _resolveRequestOperation (this : ClientHandl) (request : string)
    (ast : DocumentNode) (opts : RequestOptions) (context : RequestContext)
  : Task (Outcome RequestResult) :=
  if String.eqb (operation context) "query" then
    outcome_map ResultObject <$> _query this request ast opts context
  else if String.eqb (operation context) "mutation" then
    outcome_map ResultObject <$> _mutation this request ast opts context
  else if String.eqb (operation context) "subscription" && _subscriptionsEnabled this then
    _subscription this request ast opts context
  else
    mret (Rejected (One (Error
      "Request expected the operation to be 'query', 'mutation' or 'subscription'."))).

(** ** [_request] and [request] *)

Definition argument_errors (request : QueryArg) (opts : OptsArg) : list ErrorObject :=
  match request with
  | QueryString _ => []
  | QueryOther => [TypeError "Request expected query to be a string."]
  end ++
  match opts with
  | PlainOpts _ => []
  | OptsOther => [TypeError "Request expected opts to be a plain object."]
  end.

(** [opts.fragments && (!isArray(opts.fragments) || opts.fragments.some(...))] *)
Definition fragments_rejected (f : FragmentsArg) : bool :=
  match f with
  | NoFragments => false
  | NotAnArray => true
  | FragmentArray items =>
      existsb (fun value => match value with StringItem _ => false | OtherItem => true end)
        items
  end.

Definition strip_cachePromise (r : ResolveResult) : ResolveResult :=
  {| rr_cacheMetadata := rr_cacheMetadata r; rr_data := rr_data r;
     rr_cachePromise := None; rr_queryHash := rr_queryHash r |}.

(** [_request] after [await this._resolveRequestOperation(...)]. *)
Definition _request_finish (opts : RequestOptions) (r : Outcome RequestResult)
  : Task (Outcome RequestResult) :=
  match r with
  | Rejected error => mret (Rejected error)
  | Fulfilled (ResultIterator it) => mret (Fulfilled (ResultIterator it))
  | Fulfilled (ResultObject resolveResult) =>
      awaited ← match (if awaitDataCached opts then rr_cachePromise resolveResult
                       else None) with
                | Some cachePromise => call (AwaitDeferred cachePromise)
                | None => mret (Fulfilled tt)
                end;
      match awaited with
      | Rejected error => mret (Rejected error)
      | Fulfilled _ => mret (Fulfilled (ResultObject (strip_cachePromise resolveResult)))
      end
  end.

Definition _request (this : ClientHandl) (request : QueryArg) (opts : OptsArg)
    (context : RequestContext) : Task (Outcome RequestResult) :=
  match argument_errors request opts, request, opts with
  | [], QueryString q, PlainOpts opts =>
      if fragments_rejected (fragments opts) then
        mret (Rejected (One (TypeError
          "Request expected opts.fragments to be an array of strings.")))
      else
        updated ← call (UpdateRequest q opts context);
        match updated with
        | Rejected error => mret (Rejected error)
        | Fulfilled updated =>
            match validate (_schema this) (up_ast updated) with
            | e :: es => mret (Rejected (Many (e :: es)))
            | [] =>
                let operationDefinitions := getOperationDefinitions (up_ast updated) in
                if (1 <? length operationDefinitions)%nat then
                  mret (Rejected (One (TypeError
                    "Request expected to process one operation, but got multiple.")))
                else
                  match operationDefinitions with
                  | [] =>
                      mret (Rejected (One (TypeError
                        "Cannot read property 'operation' of undefined")))
                  | d :: _ =>
                      let context :=
                        {| fieldTypeMap := up_fieldTypeMap updated;
                           handlID := handlID context;
                           operation := od_operation d;
                           operationName := default "" (od_name d) |} in
                      r ← _resolveRequestOperation this (up_query updated)
                            (up_ast updated) opts context;
                      _request_finish opts r
                  end
            end
        end
  | errors, _, _ => mret (Rejected (Many errors))
  end.

(** [request]; [id] is what [uuid()] returned. *)
Definition request (this : ClientHandl) (id : string) (q : QueryArg) (opts : OptsArg)
  : Task (Outcome RequestResult) :=
  _request this q opts
    {| fieldTypeMap := emptyFieldTypeMap; handlID := id; operation := "";
       operationName := "" |}.

(** ** Observations *)

(** What [_resolvePendingRequests] settles every pending caller with. *)
Definition pending_outcome (queryHash : string) (cacheMetadata : option CacheMetadata)
    (data : option ObjectMap) (error : option Rejection) : Outcome ResolveResult :=
  match error with
  | Some error => Rejected error
  | None =>
      Fulfilled {| rr_cacheMetadata := cacheMetadata; rr_data := data;
                   rr_cachePromise := None; rr_queryHash := Some queryHash |}
  end.

Definition settle_all (o : Outcome ResolveResult) (callers : list nat)
    (m : gmap nat (Outcome ResolveResult)) : gmap nat (Outcome ResolveResult) :=
  foldl (fun m p => settle p o m) m callers.

(** The world after [_resolvePendingRequests]. *)
Definition drained (queryHash : string) (o : Outcome ResolveResult) (w : World) : World :=
  match pending (requests w) !! queryHash with
  | None => w
  | Some callers =>
      set_pending (delete queryHash (pending (requests w)))
        (set_promises (settle_all o callers (promises w)) w)
  end.

(** The world [_resolve] leaves. *)
Definition resolved (this : ClientHandl) (args : ResolveArgs) (w : World) : World :=
  match (if ra_resolvePending args then truthy_hash (ra_queryHash args) else None) with
  | Some queryHash =>
      let w1 :=
        drained queryHash
          (pending_outcome queryHash
             (with_query this (ra_operation args) <$> ra_cacheMetadata args)
             (ra_data args) (ra_error args)) w in
      set_active (delete queryHash (active (requests w1))) w1
  | None => w
  end.

(** What [_resolve] answers. *)
Definition resolution (this : ClientHandl) (args : ResolveArgs) : Outcome ResolveResult :=
  match ra_error args with
  | Some error => Rejected error
  | None =>
      Fulfilled
        {| rr_cacheMetadata := with_query this (ra_operation args) <$> ra_cacheMetadata args;
           rr_data := ra_data args;
           rr_cachePromise := ra_cachePromise args;
           rr_queryHash := truthy_hash (ra_queryHash args) |}
  end.

(** What [_checkResponseCache] finds, and the log it leaves. *)
Definition cached_response (queryHash : string) (w : World) : option ResolveResult :=
  match responses_has queryHash w with
  | Rejected _ => None
  | Fulfilled cacheability =>
      if isValid (env w) cacheability then
        match responses_get queryHash w with
        | Fulfilled (Some res) =>
            Some {| rr_cacheMetadata :=
                      Some (rehydrateCacheMetadata (rec_cacheMetadata res));
                    rr_data := Some (rec_data res);
                    rr_cachePromise := None; rr_queryHash := None |}
        | _ => None
        end
      else None
  end.

Definition checked_log (queryHash : string) (w : World) : list action :=
  match responses_has queryHash w with
  | Rejected _ => [ResponsesHas queryHash]
  | Fulfilled cacheability =>
      if isValid (env w) cacheability
      then [ResponsesGet queryHash; ResponsesHas queryHash]
      else [ResponsesHas queryHash]
  end.

(** The world after the write of the response record and the resolution
    of the deferred, in a query the analyser answered in full. *)
Definition written (queryHash : string) (value : ResponseRecord) (cacheControl : string)
    (t : option Tag) (w : World) : World :=
  let w2 :=
    (responses_set queryHash value cacheControl t
       (logged (ResponsesSet queryHash value cacheControl t) (next_deferred w))).2 in
  set_deferreds (settle (deferredCount w) (Fulfilled tt) (deferreds w2)) w2.

(** The error an answer of the executor carries: what it rejected with, or
    the [errors] of its result. *)
Definition executor_error (r : Outcome ExecutorResult) : option Rejection :=
  match r with
  | Rejected error => Some error
  | Fulfilled r => er_errors r
  end.

Definition is_executor_call (a : action) : bool :=
  match a with ExecutorResolve _ _ _ => true | _ => false end.

Definition is_subscriber_call (a : action) : bool :=
  match a with SubscriberResolve _ _ _ _ => true | _ => false end.

Definition is_cache_resolve (a : action) : bool :=
  match a with
  | CacheResolveQuery _ _ _ _ _ _ _ _ _ => true
  | CacheResolveMutation _ _ _ _ _ _ => true
  | CacheResolveSubscription _ _ _ _ _ _ => true
  | _ => false
  end.

Definition is_responses_call (a : action) : bool :=
  match a with
  | ResponsesHas _ | ResponsesGet _ | ResponsesSet _ _ _ _ | ResponsesSize => true
  | _ => false
  end.

(** The recorded calls of one kind. *)
Definition calls (kind : action -> bool) (w : World) : list action :=
  filter (fun a => kind a = true) (log w).

Definition is_analyze_call (a : action) : bool :=
  match a with CacheAnalyze _ _ _ => true | _ => false end.

(** What every pending caller of a fingerprint is resolved with when the
    request in flight is resolved with [cacheMetadata] and [data]. *)
Definition shared_result (queryHash : string) (cacheMetadata : CacheMetadata)
    (data : ObjectMap) : ResolveResult :=
  {| rr_cacheMetadata := Some cacheMetadata; rr_data := Some data;
     rr_cachePromise := None; rr_queryHash := Some queryHash |}.

End Client.

Arguments Done {F R} r.
Arguments Act {F R} a k.

(** * A small instance

    Concrete imports and a concrete world, to run the orchestrator on.  A
    document is the list of its operation definitions; [validate] applies
    the rule that an anonymous operation must be the only operation. *)

Module Demo.

Definition lone_anonymous (ast : list OperationDefinition) : list ErrorObject :=
  if bool_decide (1 < length ast)%nat
     && existsb (fun d => match od_name d with None => true | Some _ => false end) ast
  then [MkError "GraphQLError" "This anonymous operation must be the only defined operation."]
  else [].

Definition imports : Foreign :=
  {| ObjectMap := string;
     DocumentNode := list OperationDefinition;
     Headers := string;
     GraphQLSchema := string;
     Introspection := string;
     AsyncIterator := nat;
     FieldTypeMap := unit;
     Tag := string;
     CachemapOptions := list string;
     Cacheability := string;
     DehydratedCacheMetadata := gmap string string;
     parseCacheControl := fun s => s;
     printCacheControl := fun c => c;
     hashRequest := fun s => "#" ++ s;
     getOperationDefinitions := fun ast => ast;
     createCacheMetadata := fun cm _ => default ∅ cm;
     dehydrateCacheMetadata := fun cm => cm;
     rehydrateCacheMetadata := fun cm => cm;
     buildClientSchema := Fulfilled;
     validate := fun _ ast => lone_anonymous ast;
     merge := app;
     emptyFieldTypeMap := tt;
     dataEntitiesOptions := ["handl-dataEntities"];
     queryPathsOptions := ["handl-queryPaths"];
     responsesOptions := ["handl-responses"];
     WEB_ENV := false;
     socketsSupported := true |}.

#[local] Existing Instance imports.

Definition anonymous (o : string) : OperationDefinition :=
  {| od_operation := o; od_name := None |}.

Definition named (o n : string) : OperationDefinition :=
  {| od_operation := o; od_name := Some n |}.

(** The documents the parser knows, by request string. *)
Definition parse (request : string) : DocumentNode :=
  if String.eqb request "{ a } { b }" then [anonymous "query"; anonymous "query"]
  else if String.eqb request "query A { a } query B { b }"
       then [named "query" "A"; named "query" "B"]
  else if String.eqb request "mutation { addUser }" then [anonymous "mutation"]
  else if String.eqb request "subscription { userAdded }" then [anonymous "subscription"]
  else [anonymous "query"].

Definition updated (request : string) : UpdatedRequest :=
  {| up_ast := parse request; up_query := request; up_fieldTypeMap := tt |}.

Definition network_error : Rejection := One (Error "Failed to fetch").
Definition store_error : Rejection := One (Error "QuotaExceededError").

Definition user : string := "{ user { id name } }".

Definition partial : AnalyzeResult :=
  {| cachedData := None; ar_cacheMetadata := None; filtered := false;
     updatedAST := Some (parse user); updatedQuery := Some user |}.

Definition hit : AnalyzeResult :=
  {| cachedData := Some "{user:{id:1,name:Ada}}";
     ar_cacheMetadata := Some {[ "query" := "public, max-age=30" ]};
     filtered := false; updatedAST := None; updatedQuery := None |}.

Definition executed : ExecutorResult :=
  {| er_cacheMetadata := None; er_data := Some "{addUser:{id:2}}"; er_errors := None;
     er_headers := None |}.

(** Nothing cached, a transport that has not answered, stores that work. *)
Definition quiet : Env :=
  {| read_fault := fun _ => None;
     write_fault := fun _ => None;
     isValid := fun c => match c with Some _ => true | None => false end;
     analyze := fun _ _ _ => Fulfilled partial;
     normalise := fun _ data cm _ =>
       Fulfilled {| n_entities := [("User:2", default "" data)]; n_paths := [];
                    n_cacheMetadata := cm; n_data := default "" data;
                    n_cacheControl := "public, max-age=60, s-maxage=60" |};
     acknowledged := true;
     createCache := fun _ => Fulfilled tt;
     executor := fun _ _ => None;
     subscriber := fun _ _ => None;
     updateRequest := fun request _ => Fulfilled (updated request) |}.

Definition answering (r : Outcome ExecutorResult) (e : Env) : Env :=
  {| read_fault := read_fault e; write_fault := write_fault e; isValid := isValid e;
     analyze := analyze e; normalise := normalise e; acknowledged := acknowledged e;
     createCache := createCache e; executor := fun _ _ => Some r;
     subscriber := subscriber e; updateRequest := updateRequest e |}.

Definition analysing (a : AnalyzeResult) (e : Env) : Env :=
  {| read_fault := read_fault e; write_fault := write_fault e; isValid := isValid e;
     analyze := fun _ _ _ => Fulfilled a; normalise := normalise e;
     acknowledged := acknowledged e; createCache := createCache e;
     executor := executor e; subscriber := subscriber e;
     updateRequest := updateRequest e |}.

Definition failing_writes (e : Env) : Env :=
  {| read_fault := read_fault e; write_fault := fun _ => Some store_error;
     isValid := isValid e; analyze := analyze e; normalise := normalise e;
     acknowledged := acknowledged e; createCache := createCache e;
     executor := executor e; subscriber := subscriber e;
     updateRequest := updateRequest e |}.

Definition start (e : Env) : World :=
  {| instance := None;
     requests := {| active := ∅; pending := ∅ |};
     promises := ∅; promiseCount := 0; deferreds := ∅; deferredCount := 0;
     stores := {| responses := ∅; dataEntities := ∅; queryPaths := ∅ |};
     env := e; log := [] |}.

Definition args : ClientArgs :=
  {| args_cachemapOptions := None; args_defaultCacheControls := None;
     args_introspection := Some "schema"; args_mode := "default";
     args_newInstance := false; args_resourceKey := None; args_schema := None;
     args_subscriptions := None; args_typeCacheControls := None;
     args_url := Some "https://api.example.com/graphql" |}.

Definition client : ClientHandl :=
  construct_rest args mode_default "schema"
    (FetchManager "https://api.example.com/graphql") None.

Definition opts : RequestOptions :=
  {| awaitDataCached := false; fragments := NoFragments; tag := None |}.

Definition context (o : string) : RequestContext :=
  {| fieldTypeMap := tt; handlID := "1"; operation := o; operationName := "" |}.

(** One request for [user] is in flight and two more callers have asked
    for it; then the executor rejects. *)
Definition in_flight : World :=
  let w1 := (run (_query client user (parse user) opts (context "query")) (start quiet)).2 in
  let w2 := (run (_query client user (parse user) opts (context "query")) w1).2 in
  (run (_query client user (parse user) opts (context "query")) w2).2.

Definition rejected : World :=
  set_env (answering (Rejected network_error) quiet) in_flight.

(** The executor answers a mutation. *)
Definition addUser : string := "mutation { addUser }".
Definition executing : World := start (answering (Fulfilled executed) quiet).

Definition normalised : Normalised :=
  {| n_entities := [("User:2", "{addUser:{id:2}}")]; n_paths := [];
     n_cacheMetadata := ∅; n_data := "{addUser:{id:2}}";
     n_cacheControl := "public, max-age=60, s-maxage=60" |}.

(** An instance is at hand. *)
Definition created : World := set_instance client (start quiet).

Definition other_args : ClientArgs :=
  {| args_cachemapOptions := Some (ArgOptions ["memory"]);
     args_defaultCacheControls := None;
     args_introspection := None; args_mode := "server";
     args_newInstance := false; args_resourceKey := Some "uuid";
     args_schema := Some "other schema";
     args_subscriptions := None; args_typeCacheControls := None;
     args_url := None |}.

(** The response for [user] is in the responses store. *)
Definition stored : ResponseEntry :=
  {| entry_value :=
       {| rec_cacheMetadata := {[ "query" := "public, max-age=60" ]};
          rec_data := "{user:{id:1,name:Ada}}" |};
     entry_cacheControl := "public, max-age=60";
     entry_tag := None |}.

Definition cached : World :=
  set_stores
    {| responses := {[ hashRequest user := stored ]}; dataEntities := ∅;
       queryPaths := ∅ |}
    (start quiet).

(** The analyser answers [user] in full; and the same with a responses
    store that refuses writes. *)
Definition answered : World := start (analysing hit quiet).
Definition refusing : World := start (failing_writes (analysing hit quiet)).

(** The executor answers the request in flight. *)
Definition fetched : World := set_env (answering (Fulfilled executed) quiet) in_flight.

(** A parser that refuses the request, an analyser that fails, a responses
    store that cannot be read, tiers that have not acknowledged the writes,
    and a subscriber that answers. *)
Definition syntax_error : Rejection :=
  One (MkError "GraphQLError" "Syntax Error: Expected Name, found <EOF>").
Definition analyser_error : Rejection := One (Error "The data entities cannot be read.").

Definition refusing_parser (e : Env) : Env :=
  {| read_fault := read_fault e; write_fault := write_fault e; isValid := isValid e;
     analyze := analyze e; normalise := normalise e; acknowledged := acknowledged e;
     createCache := createCache e; executor := executor e; subscriber := subscriber e;
     updateRequest := fun _ _ => Rejected syntax_error |}.

Definition failing_analysis (e : Env) : Env :=
  {| read_fault := read_fault e; write_fault := write_fault e; isValid := isValid e;
     analyze := fun _ _ _ => Rejected analyser_error; normalise := normalise e;
     acknowledged := acknowledged e; createCache := createCache e;
     executor := executor e; subscriber := subscriber e;
     updateRequest := updateRequest e |}.

Definition failing_reads (e : Env) : Env :=
  {| read_fault := fun _ => Some store_error; write_fault := write_fault e;
     isValid := isValid e; analyze := analyze e; normalise := normalise e;
     acknowledged := acknowledged e; createCache := createCache e;
     executor := executor e; subscriber := subscriber e;
     updateRequest := updateRequest e |}.

Definition unacknowledged (e : Env) : Env :=
  {| read_fault := read_fault e; write_fault := write_fault e; isValid := isValid e;
     analyze := analyze e; normalise := normalise e; acknowledged := false;
     createCache := createCache e; executor := executor e; subscriber := subscriber e;
     updateRequest := updateRequest e |}.

Definition subscribing (r : Outcome SubscribeResult) (e : Env) : Env :=
  {| read_fault := read_fault e; write_fault := write_fault e; isValid := isValid e;
     analyze := analyze e; normalise := normalise e; acknowledged := acknowledged e;
     createCache := createCache e; executor := executor e;
     subscriber := fun _ _ => Some r; updateRequest := updateRequest e |}.

Definition unreadable : World := set_env (failing_reads quiet) cached.

(** A client in server mode, and a message of a subscription. *)
Definition server : ClientHandl :=
  construct_rest other_args mode_server "other schema" (GraphQLExecute "other schema")
    (Some (GraphQLSubscribe "other schema")).

Definition userAdded : string := "subscription { userAdded }".

Definition message : ExecutionResult :=
  {| xr_cacheMetadata := None; xr_data := Some "{userAdded:{id:3}}"; xr_errors := None |}.

Definition notified : Normalised :=
  {| n_entities := [("User:2", "{userAdded:{id:3}}")]; n_paths := [];
     n_cacheMetadata := ∅; n_data := "{userAdded:{id:3}}";
     n_cacheControl := "public, max-age=60, s-maxage=60" |}.

Definition iterator : AsyncIterator := 7.

Definition awaiting : RequestOptions :=
  {| awaitDataCached := true; fragments := NoFragments; tag := None |}.

(** The arguments of a rejection of the request [user]. *)
Definition rejection : ResolveArgs :=
  {| ra_cacheMetadata := None; ra_cachePromise := None; ra_data := None;
     ra_error := Some network_error; ra_operation := query;
     ra_queryHash := Some (hashRequest user); ra_resolvePending := true |}.

Definition resolution_args : ResolveArgs :=
  {| ra_cacheMetadata := Some ∅; ra_cachePromise := None;
     ra_data := Some "{user:{id:1,name:Ada}}"; ra_error := None; ra_operation := query;
     ra_queryHash := None; ra_resolvePending := false |}.

(** Arguments that ask for a new instance, and a message with errors. *)
Definition fresh_args : ClientArgs :=
  {| args_cachemapOptions := None; args_defaultCacheControls := None;
     args_introspection := None; args_mode := "server"; args_newInstance := true;
     args_resourceKey := None; args_schema := Some "fresh schema";
     args_subscriptions := None; args_typeCacheControls := None; args_url := None |}.

Definition fresh_server : ClientHandl :=
  construct_rest fresh_args mode_server "fresh schema" (GraphQLExecute "fresh schema")
    (Some (GraphQLSubscribe "fresh schema")).

Definition not_authorised : ErrorObject := MkError "GraphQLError" "Not authorised.".

Definition failed_message : ExecutionResult :=
  {| xr_cacheMetadata := None; xr_data := None;
     xr_errors := Some (Many [not_authorised]) |}.

(** A cache manager that rejects what it is given to resolve, while callers
    wait for the request in flight. *)
Definition cache_error : Rejection := One (Error "The response cannot be normalised.").

Definition failing_cache (e : Env) : Env :=
  {| read_fault := read_fault e; write_fault := write_fault e; isValid := isValid e;
     analyze := analyze e; normalise := fun _ _ _ _ => Rejected cache_error;
     acknowledged := acknowledged e; createCache := createCache e;
     executor := executor e; subscriber := subscriber e;
     updateRequest := updateRequest e |}.

Definition stranded : World :=
  set_env (failing_cache (answering (Fulfilled executed) quiet)) in_flight.

(** A client given a directive for queries only. *)
Definition tuned_args : ClientArgs :=
  {| args_cachemapOptions := None;
     args_defaultCacheControls :=
       Some {| arg_mutation := None; arg_query := Some "public, max-age=5";
               arg_subscription := None |};
     args_introspection := Some "schema"; args_mode := "default";
     args_newInstance := false; args_resourceKey := None; args_schema := None;
     args_subscriptions := None; args_typeCacheControls := None;
     args_url := Some "https://api.example.com/graphql" |}.

Definition tuned : ClientHandl :=
  construct_rest tuned_args mode_default "schema"
    (FetchManager "https://api.example.com/graphql") None.

End Demo.

(** * Properties *)

Arguments _resolve : simpl never.
Arguments _resolvePendingRequests : simpl never.
Arguments _checkResponseCache : simpl never.
Arguments _fetch : simpl never.
Arguments _query_fetch : simpl never.
Arguments _query_analyzed : simpl never.
Arguments _query : simpl never.
Arguments _mutation : simpl never.
Arguments _resolveSubscriber : simpl never.
Arguments _subscription : simpl never.
Arguments _resolveRequestOperation : simpl never.
Arguments _request_finish : simpl never.
Arguments _request : simpl never.
Arguments constructor : simpl never.

Section Facts.
Context `{F : Foreign}.

(** ** Running tasks *)

Lemma run_bind {A B : Type} (t : Task A) (f : A -> Task B) (w : World) :
  run (t ≫= f) w =
  match run t w with
  | (Done r, w') => run (f r) w'
  | (t', w') => (t' ≫= f, w')
  end.
Proof.
  unfold mbind, Task_bind. revert w.
  induction t as [r | a k IH]; intros w; simpl; [reflexivity |].
  destruct (handle a w) as [[x w'] |]; [apply IH | reflexivity].
Qed.

Lemma run_fmap {A B : Type} (g : A -> B) (t : Task A) (w : World) :
  run (g <$> t) w =
  match run t w with
  | (Done r, w') => (Done (g r), w')
  | (t', w') => (g <$> t', w')
  end.
Proof.
  unfold fmap, Task_fmap. revert w.
  induction t as [r | a k IH]; intros w; simpl; [reflexivity |].
  destruct (handle a w) as [[x w'] |]; [apply IH | reflexivity].
Qed.

(** ** Settling promises *)

Lemma settle_unsettled {A : Type} (i : nat) (o : Outcome A) (m : gmap nat (Outcome A)) :
  m !! i = None -> settle i o m !! i = Some o.
Proof. intros E. unfold settle. rewrite E. apply lookup_insert_eq. Qed.

Lemma settle_settled {A : Type} (i j : nat) (o o' : Outcome A) (m : gmap nat (Outcome A)) :
  m !! j = Some o' -> settle i o m !! j = Some o'.
Proof.
  intros E. unfold settle. destruct (m !! i) eqn:Ei; [exact E |].
  rewrite lookup_insert_ne; [exact E | congruence].
Qed.

Lemma settle_other {A : Type} (i j : nat) (o : Outcome A) (m : gmap nat (Outcome A)) :
  i ≠ j -> settle i o m !! j = m !! j.
Proof.
  intros N. unfold settle. destruct (m !! i); [reflexivity |].
  apply lookup_insert_ne, N.
Qed.

Lemma settle_all_lookup (o : Outcome ResolveResult) (callers : list nat)
    (m : gmap nat (Outcome ResolveResult)) (p : nat) :
  m !! p = Some o \/ (p ∈ callers /\ m !! p = None) ->
  settle_all o callers m !! p = Some o.
Proof.
  unfold settle_all.
  revert m. induction callers as [| q l IH]; intros m [E | [I E]]; simpl.
  - exact E.
  - inversion I.
  - apply IH. left. eapply settle_settled, E.
  - apply IH. destruct (decide (q = p)) as [-> | N].
    + left. apply settle_unsettled, E.
    + right. split.
      * apply elem_of_cons in I as [-> | I]; [congruence | exact I].
      * rewrite settle_other; [exact E | exact N].
Qed.

Lemma run_settle_each (queryHash : string) (cm : option CacheMetadata)
    (data : option ObjectMap) (error : option Rejection) (callers : list nat)
    (w : World) :
  run (forEach callers (fun p =>
         match error with
         | Some error => call (PromiseReject p error)
         | None =>
             call (PromiseResolve p
               {| rr_cacheMetadata := cm; rr_data := data;
                  rr_cachePromise := None; rr_queryHash := Some queryHash |})
         end)) w =
  (Done tt,
   set_promises (settle_all (pending_outcome queryHash cm data error) callers (promises w)) w).
Proof.
  revert w. induction callers as [| q l IH]; intros w; cbn [forEach].
  - destruct w; reflexivity.
  - rewrite run_bind. destruct error; simpl; rewrite IH; reflexivity.
Qed.

Lemma run_resolvePendingRequests (queryHash : string) (cm : option CacheMetadata)
    (data : option ObjectMap) (error : option Rejection) (w : World) :
  run (_resolvePendingRequests queryHash cm data error) w =
  (Done tt, drained queryHash (pending_outcome queryHash cm data error) w).
Proof.
  unfold _resolvePendingRequests, drained. rewrite run_bind. simpl.
  destruct (pending (requests w) !! queryHash) as [callers |]; [| reflexivity].
  rewrite run_bind, run_settle_each. reflexivity.
Qed.

(** ** [_resolve] *)

Lemma run_resolve (this : ClientHandl) (args : ResolveArgs) (w : World) :
  run (_resolve this args) w = (Done (resolution this args), resolved this args w).
Proof.
  unfold _resolve, resolved, resolution. rewrite run_bind.
  destruct (if ra_resolvePending args then truthy_hash (ra_queryHash args) else None)
    as [queryHash |].
  - rewrite run_bind, run_resolvePendingRequests. simpl.
    destruct (ra_error args); reflexivity.
  - simpl. destruct (ra_error args); reflexivity.
Qed.

Lemma run_fetch (request : option string) (ast : option DocumentNode)
    (opts : RequestOptions) (ctx : RequestContext) (w : World)
    (r : Outcome ExecutorResult) :
  executor (env w) request ast = Some r ->
  run (_fetch request ast opts ctx) w =
  (Done match executor_error r with
        | Some error => Rejected error
        | None =>
            match r with
            | Fulfilled r =>
                Fulfilled {| fr_cacheMetadata := er_cacheMetadata r; fr_data := er_data r;
                             fr_headers := er_headers r |}
            | Rejected error => Rejected error
            end
        end,
   logged (ExecutorResolve request ast opts) w).
Proof.
  intros E. unfold _fetch. rewrite run_bind. simpl. rewrite E. simpl.
  destruct r as [r | error]; simpl; [destruct (er_errors r) |]; reflexivity.
Qed.

(** C1. When the in-flight request for a fingerprint completes with an
    executor error while callers are pending on that fingerprint, the
    original caller and every pending caller are rejected with that error,
    and neither registry keeps an entry for the fingerprint.  The
    in-flight request is [_query] suspended at the executor, that is
    [_query_fetch]; the fingerprint is a non-empty string. *)
Theorem executor_error_drains_pending (this : ClientHandl) (request : string)
    (a : AnalyzeResult) (deferred : nat) (opts : RequestOptions) (ctx : RequestContext)
    (w : World) (r : Outcome ExecutorResult) (error : Rejection) (callers : list nat) :
  truthy (hashRequest request) = true ->
  executor (env w) (updatedQuery a) (updatedAST a) = Some r ->
  executor_error r = Some error ->
  pending (requests w) !! hashRequest request = Some callers ->
  Forall (fun p => promises w !! p = None) callers ->
  let (t, w') := run (_query_fetch this (hashRequest request) a deferred opts ctx) w in
  t = Done (Rejected error) /\
  Forall (fun p => promises w' !! p = Some (Rejected error)) callers /\
  active (requests w') !! hashRequest request = None /\
  pending (requests w') !! hashRequest request = None.
Proof.
  intros T E R P U. unfold _query_fetch.
  rewrite run_bind, (run_fetch _ _ _ _ _ _ E), R, run_resolve.
  unfold resolved, resolution, drained. simpl. rewrite T, P. simpl.
  split; [reflexivity |]. split; [| split].
  - apply Forall_forall. intros p I. apply settle_all_lookup. right.
    split; [exact I |]. rewrite Forall_forall in U. apply U, I.
  - apply lookup_delete_eq.
  - apply lookup_delete_eq.
Qed.

(** ** The response-cache check *)

Lemma run_checkResponseCache (queryHash : string) (ctx : RequestContext) (w : World) :
  run (_checkResponseCache queryHash ctx) w =
  (Done (cached_response queryHash w), set_log (checked_log queryHash w ++ log w) w).
Proof.
  unfold _checkResponseCache, cached_response, checked_log. simpl.
  destruct (responses_has queryHash w) as [c | e]; simpl; [| reflexivity].
  destruct (isValid (env w) c); simpl; [| reflexivity].
  change (responses_get queryHash (logged (ResponsesHas queryHash) w))
    with (responses_get queryHash w).
  destruct (responses_get queryHash w) as [[res |] | e]; reflexivity.
Qed.

Lemma calls_extend (kind : action -> bool) (l : list action) (w w' : World) :
  log w' = (l ++ log w)%list ->
  Forall (fun a => kind a = false) l ->
  calls kind w' = calls kind w.
Proof.
  intros E N. unfold calls. rewrite E. clear E.
  induction N as [| a l Ha _ IH]; [reflexivity |].
  simpl. rewrite filter_cons_False; [exact IH | congruence].
Qed.

Lemma checked_log_other (kind : action -> bool) (queryHash : string) (w : World) :
  kind (ResponsesHas queryHash) = false ->
  kind (ResponsesGet queryHash) = false ->
  Forall (fun a => kind a = false) (checked_log queryHash w).
Proof.
  intros H G. unfold checked_log.
  destruct (responses_has queryHash w); [| repeat constructor; assumption].
  destruct (isValid (env w) a); repeat constructor; assumption.
Qed.

Lemma with_query_subseteq (this : ClientHandl) (o : Operation) (cm : CacheMetadata) :
  cm ⊆ with_query this o cm.
Proof.
  unfold with_query. destruct (cm !! "query") eqn:E; [reflexivity |].
  apply insert_subseteq, E.
Qed.

(** C2. When the responses store holds an entry for the fingerprint of a
    query and its Cacheability is valid at the check, the caller is given
    the data of the stored record and its rehydrated cacheMetadata (to
    which [_resolve] adds the default query entry when it has none), the
    only collaborator calls are the [has] and the [get] of the check, and
    the executor is not called. *)
Theorem valid_response_short_circuits (this : ClientHandl) (request : string)
    (ast : DocumentNode) (opts : RequestOptions) (ctx : RequestContext) (w : World)
    (entry : ResponseEntry) :
  responses (stores w) !! hashRequest request = Some entry ->
  read_fault (env w) (hashRequest request) = None ->
  isValid (env w) (Some (parseCacheControl (entry_cacheControl entry))) = true ->
  let (t, w') := run (_query this request ast opts ctx) w in
  let rehydrated := rehydrateCacheMetadata (rec_cacheMetadata (entry_value entry)) in
  (exists cm,
     t = Done (Fulfilled
           {| rr_cacheMetadata := Some cm;
              rr_data := Some (rec_data (entry_value entry));
              rr_cachePromise := None;
              rr_queryHash := truthy_hash (Some (hashRequest request)) |}) /\
     cm = with_query this query rehydrated /\
     rehydrated ⊆ cm /\
     (is_Some (rehydrated !! "query") -> cm = rehydrated)) /\
  log w' = ResponsesGet (hashRequest request) :: ResponsesHas (hashRequest request) :: log w /\
  calls is_executor_call w' = calls is_executor_call w /\
  stores w' = stores w /\ requests w' = requests w.
Proof.
  intros E R V. unfold _query.
  rewrite run_bind, run_checkResponseCache.
  unfold cached_response, checked_log, responses_has, responses_get.
  rewrite R, E. simpl. rewrite V. rewrite run_resolve. simpl.
  split; [| repeat split].
  eexists. split; [reflexivity |]. split; [reflexivity |]. split.
  - apply with_query_subseteq.
  - intros [c Q]. unfold with_query. rewrite Q. reflexivity.
Qed.

(** ** Requests in flight *)

(** A query the analyser leaves fields of, with an executor that has not
    answered: the request is marked active and stays suspended at the
    executor, as [_query_fetch]. *)
Lemma query_suspends_at_executor (this : ClientHandl) (request : string)
    (ast : DocumentNode) (opts : RequestOptions) (ctx : RequestContext) (w : World)
    (a : AnalyzeResult) :
  cached_response (hashRequest request) w = None ->
  active (requests w) !! hashRequest request = None ->
  analyze (env w) (hashRequest request) ast (stores w) = Fulfilled a ->
  cachedData a = None ->
  executor (env w) (updatedQuery a) (updatedAST a) = None ->
  let (t, w') := run (_query this request ast opts ctx) w in
  t = _query_fetch this (hashRequest request) a (deferredCount w) opts ctx /\
  active (requests w') !! hashRequest request = Some request /\
  pending (requests w') = pending (requests w).
Proof.
  intros M A E D X. unfold _query.
  rewrite run_bind, run_checkResponseCache, M. simpl. rewrite A. simpl. rewrite E.
  unfold _query_analyzed. simpl. rewrite D.
  unfold _query_fetch, _fetch. simpl. rewrite X. simpl.
  split; [reflexivity |]. split; [apply lookup_insert_eq | reflexivity].
Qed.

(** A query whose fingerprint is active joins the pending callers of that
    fingerprint and waits for its promise. *)
Lemma query_joins_pending (this : ClientHandl) (request : string) (ast : DocumentNode)
    (opts : RequestOptions) (ctx : RequestContext) (w : World) (inFlight : string) :
  cached_response (hashRequest request) w = None ->
  active (requests w) !! hashRequest request = Some inFlight ->
  let (t, w') := run (_query this request ast opts ctx) w in
  t = call (AwaitPromise (promiseCount w)) /\
  pending (requests w') !! hashRequest request =
    Some (default [] (pending (requests w) !! hashRequest request)
            ++ [promiseCount w])%list /\
  promises w' !! promiseCount w = None /\
  calls is_executor_call w' = calls is_executor_call w.
Proof.
  intros M A. unfold _query.
  rewrite run_bind, run_checkResponseCache, M. simpl. rewrite A. simpl.
  rewrite lookup_delete_eq. simpl.
  split; [reflexivity |]. split; [apply lookup_insert_eq |].
  split; [apply lookup_delete_eq |].
  apply (calls_extend _ (checked_log (hashRequest request) w)); [reflexivity |].
  apply checked_log_other; reflexivity.
Qed.

(** A pending caller whose promise was rejected resumes with the rejection. *)
Lemma pending_caller_rejected (p : nat) (error : Rejection) (w : World) :
  promises w !! p = Some (Rejected error) ->
  run (call (AwaitPromise p)) w = (Done (Rejected error), w).
Proof. intros E. simpl. rewrite E. reflexivity. Qed.

(** ** A query the analyser answers in full *)

Lemma resolved_frame (this : ClientHandl) (args : ResolveArgs) (w : World) :
  stores (resolved this args w) = stores w /\
  deferreds (resolved this args w) = deferreds w /\
  log (resolved this args w) = log w /\
  env (resolved this args w) = env w.
Proof.
  unfold resolved, drained.
  destruct (if ra_resolvePending args then truthy_hash (ra_queryHash args) else None)
    as [h |]; [| done].
  destruct (pending (requests w) !! h); done.
Qed.

Lemma run_query_miss (this : ClientHandl) (request : string) (ast : DocumentNode)
    (opts : RequestOptions) (ctx : RequestContext) (w : World) (a : AnalyzeResult) :
  (run (_checkResponseCache (hashRequest request) ctx) w).1 = Done None ->
  active (requests w) !! hashRequest request = None ->
  analyze (env w) (hashRequest request) ast (stores w) = Fulfilled a ->
  run (_query this request ast opts ctx) w =
  run (_query_analyzed this (hashRequest request) a opts ctx)
    (logged (CacheAnalyze (hashRequest request) ast ctx)
       (set_active (<[hashRequest request := request]> (active (requests w)))
          (set_log (checked_log (hashRequest request) w ++ log w) w))).
Proof.
  intros M A E. rewrite run_checkResponseCache in M. injection M as M.
  unfold _query. rewrite run_bind, run_checkResponseCache, M. simpl.
  rewrite A. simpl. rewrite E. reflexivity.
Qed.

Lemma run_query_analyzed_hit (this : ClientHandl) (queryHash : string)
    (a : AnalyzeResult) (opts : RequestOptions) (ctx : RequestContext) (w : World)
    (data : ObjectMap) (cm : CacheMetadata) :
  cachedData a = Some data ->
  ar_cacheMetadata a = Some cm ->
  let args :=
    {| ra_cacheMetadata := Some cm; ra_cachePromise := Some (deferredCount w);
       ra_data := Some data; ra_error := None; ra_operation := query;
       ra_queryHash := Some queryHash; ra_resolvePending := true |} in
  run (_query_analyzed this queryHash a opts ctx) w =
  (Done (resolution this args),
   resolved this args
     (written queryHash
        {| rec_cacheMetadata := dehydrateCacheMetadata cm; rec_data := data |}
        (response_cacheControl this cm) (tag opts) w)).
Proof.
  intros D M. unfold _query_analyzed, written. simpl. rewrite D, M. simpl.
  rewrite run_resolve. reflexivity.
Qed.

Lemma written_frame (queryHash : string) (value : ResponseRecord) (cacheControl : string)
    (t : option Tag) (w : World) :
  log (written queryHash value cacheControl t w) =
    ResponsesSet queryHash value cacheControl t :: log w /\
  deferreds (written queryHash value cacheControl t w) !! deferredCount w =
    Some (Fulfilled tt) /\
  responses (stores (written queryHash value cacheControl t w)) =
    match write_fault (env w) queryHash with
    | Some _ => responses (stores w)
    | None =>
        <[queryHash := {| entry_value := value; entry_cacheControl := cacheControl;
                          entry_tag := t |}]> (responses (stores w))
    end.
Proof.
  unfold written, responses_set. simpl.
  destruct (write_fault (env w) queryHash); simpl;
    (split; [reflexivity |]); (split; [| reflexivity]);
    apply settle_unsettled, lookup_delete_eq.
Qed.

(** [_query] for a query the analyser answers in full. *)
Lemma run_query_full_hit (this : ClientHandl) (request : string) (ast : DocumentNode)
    (opts : RequestOptions) (ctx : RequestContext) (w : World) (a : AnalyzeResult)
    (data : ObjectMap) (cm : CacheMetadata) :
  (run (_checkResponseCache (hashRequest request) ctx) w).1 = Done None ->
  active (requests w) !! hashRequest request = None ->
  analyze (env w) (hashRequest request) ast (stores w) = Fulfilled a ->
  cachedData a = Some data ->
  ar_cacheMetadata a = Some cm ->
  exists w',
    run (_query this request ast opts ctx) w =
      (Done (Fulfilled
         {| rr_cacheMetadata := Some (with_query this query cm);
            rr_data := Some data;
            rr_cachePromise := Some (deferredCount w);
            rr_queryHash := truthy_hash (Some (hashRequest request)) |}), w') /\
    log w' =
      ResponsesSet (hashRequest request)
        {| rec_cacheMetadata := dehydrateCacheMetadata cm; rec_data := data |}
        (response_cacheControl this cm) (tag opts)
      :: CacheAnalyze (hashRequest request) ast ctx
      :: (checked_log (hashRequest request) w ++ log w)%list /\
    deferreds w' !! deferredCount w = Some (Fulfilled tt) /\
    responses (stores w') =
      match write_fault (env w) (hashRequest request) with
      | Some _ => responses (stores w)
      | None =>
          <[hashRequest request :=
              {| entry_value :=
                   {| rec_cacheMetadata := dehydrateCacheMetadata cm; rec_data := data |};
                 entry_cacheControl := response_cacheControl this cm;
                 entry_tag := tag opts |}]> (responses (stores w))
      end.
Proof.
  intros M A E D C.
  rewrite (run_query_miss this request ast opts ctx w a M A E).
  rewrite (run_query_analyzed_hit this _ a opts ctx _ data cm D C).
  eexists. split; [reflexivity |].
  match goal with
  | |- context [resolved this ?args ?x] =>
      destruct (resolved_frame this args x) as (Hs & Hd & Hl & _)
  end.
  match type of Hl with
  | _ = log (written ?h ?v ?c ?t ?x) =>
      destruct (written_frame h v c t x) as (Wl & Wd & Ws)
  end.
  simpl in *. rewrite Hl, Hd, Hs. repeat split; assumption.
Qed.

(** C3. When the analyser answers a query with both cachedData and
    cacheMetadata, the orchestrator writes the record of the dehydrated
    cacheMetadata and the cachedData into the responses store under the
    fingerprint, with the cache-control printed by the metadata's query
    entry, else the default query directive, and resolves the caller with
    the cachedData; the executor is not called. *)
Theorem full_hit_writes_response (this : ClientHandl) (request : string)
    (ast : DocumentNode) (opts : RequestOptions) (ctx : RequestContext) (w : World)
    (a : AnalyzeResult) (data : ObjectMap) (cm : CacheMetadata) :
  (run (_checkResponseCache (hashRequest request) ctx) w).1 = Done None ->
  active (requests w) !! hashRequest request = None ->
  analyze (env w) (hashRequest request) ast (stores w) = Fulfilled a ->
  cachedData a = Some data ->
  ar_cacheMetadata a = Some cm ->
  let (t, w') := run (_query this request ast opts ctx) w in
  let value := {| rec_cacheMetadata := dehydrateCacheMetadata cm; rec_data := data |} in
  let cacheControl :=
    match cm !! "query" with
    | Some c =>
        if truthy (printCacheControl c) then printCacheControl c
        else dcc_query (_defaultCacheControls this)
    | None => dcc_query (_defaultCacheControls this)
    end in
  head (log w') = Some (ResponsesSet (hashRequest request) value cacheControl (tag opts)) /\
  (write_fault (env w) (hashRequest request) = None ->
   responses (stores w') !! hashRequest request =
     Some {| entry_value := value; entry_cacheControl := cacheControl;
             entry_tag := tag opts |}) /\
  t = Done (Fulfilled
        {| rr_cacheMetadata := Some (with_query this query cm);
           rr_data := Some data;
           rr_cachePromise := Some (deferredCount w);
           rr_queryHash := truthy_hash (Some (hashRequest request)) |}) /\
  calls is_executor_call w' = calls is_executor_call w.
Proof.
  intros M A E D C.
  destruct (run_query_full_hit this request ast opts ctx w a data cm M A E D C)
    as (w' & -> & Hl & _ & Hs).
  fold (response_cacheControl this cm).
  split; [rewrite Hl; reflexivity |].
  split; [intros W; rewrite Hs, W; apply lookup_insert_eq |].
  split; [reflexivity |].
  apply (calls_extend _
    (ResponsesSet (hashRequest request)
       {| rec_cacheMetadata := dehydrateCacheMetadata cm; rec_data := data |}
       (response_cacheControl this cm) (tag opts)
     :: CacheAnalyze (hashRequest request) ast ctx
     :: checked_log (hashRequest request) w)); [exact Hl |].
  repeat (constructor; [reflexivity |]).
  apply checked_log_other; reflexivity.
Qed.

(** C6, amended. When the analyser answers a query in full and the write
    of the response record fails, the caller is still resolved with the
    cached data, and the cachePromise is resolved, not rejected: the
    failure is swallowed. *)
Theorem failed_write_resolves_cachePromise (this : ClientHandl) (request : string)
    (ast : DocumentNode) (opts : RequestOptions) (ctx : RequestContext) (w : World)
    (a : AnalyzeResult) (data : ObjectMap) (cm : CacheMetadata) (error : Rejection) :
  (run (_checkResponseCache (hashRequest request) ctx) w).1 = Done None ->
  active (requests w) !! hashRequest request = None ->
  analyze (env w) (hashRequest request) ast (stores w) = Fulfilled a ->
  cachedData a = Some data ->
  ar_cacheMetadata a = Some cm ->
  write_fault (env w) (hashRequest request) = Some error ->
  let (t, w') := run (_query this request ast opts ctx) w in
  t = Done (Fulfilled
        {| rr_cacheMetadata := Some (with_query this query cm);
           rr_data := Some data;
           rr_cachePromise := Some (deferredCount w);
           rr_queryHash := truthy_hash (Some (hashRequest request)) |}) /\
  deferreds w' !! deferredCount w = Some (Fulfilled tt).
Proof.
  intros M A E D C W.
  destruct (run_query_full_hit this request ast opts ctx w a data cm M A E D C)
    as (w' & -> & _ & Hd & _).
  split; [reflexivity | exact Hd].
Qed.

(** ** Mutations *)

Lemma resolve_entities_frame (o : Operation) (data : option ObjectMap)
    (cm : CacheMetadata) (d : nat) (w : World) :
  responses (stores (resolve_entities o data cm d w).2) = responses (stores w) /\
  env (resolve_entities o data cm d w).2 = env w /\
  log (resolve_entities o data cm d w).2 = log w.
Proof.
  unfold resolve_entities.
  destruct (normalise (env w) o data cm (stores w)); [| done].
  destruct (acknowledged (env w)); done.
Qed.

Lemma mutation_frame (this : ClientHandl) (request : string) (ast : DocumentNode)
    (opts : RequestOptions) (ctx : RequestContext) (w : World) :
  let w' := (run (_mutation this request ast opts ctx) w).2 in
  responses (stores w') = responses (stores w) /\
  env w' = env w /\
  exists l, log w' = (l ++ log w)%list /\
            Forall (fun a => is_responses_call a = false) l.
Proof.
  unfold _mutation, _fetch. simpl.
  destruct (executor (env w) (Some request) (Some ast)) as [r |];
    [| simpl; repeat split; exists []; split; [reflexivity | constructor]].
  simpl.
  destruct r as [r | error]; simpl; [destruct (er_errors r) as [errors |]; simpl |].
  - try rewrite run_resolve; simpl. repeat split.
    eexists [_]. split; [reflexivity | repeat constructor].
  - match goal with
    | |- context [resolve_entities ?o ?data ?cm ?d ?x] =>
        destruct (resolve_entities_frame o data cm d x) as (Hs & He & Hl);
        destruct (resolve_entities o data cm d x) as [[rr | error] w2]
    end; simpl in *.
    + try rewrite run_resolve; simpl. repeat split; [exact Hs | exact He |].
      eexists [_; _]. split; [exact Hl | repeat constructor].
    + repeat split; [exact Hs | exact He |].
      eexists [_; _]. split; [exact Hl | repeat constructor].
  - try rewrite run_resolve; simpl. repeat split.
    eexists [_]. split; [reflexivity | repeat constructor].
Qed.

(** C4. A mutation neither reads nor writes the responses store: whatever
    the executor and the cache manager's [resolveMutation] answer, the
    store's content, what [getResponseCacheEntry] answers for every key and
    what [getResponseCacheSize] answers are the same after the mutation as
    before it, and no call to the responses store is made. *)
Theorem mutation_leaves_responses (this : ClientHandl) (request : string)
    (ast : DocumentNode) (opts : RequestOptions) (ctx : RequestContext) (w : World) :
  let (t, w') := run (_mutation this request ast opts ctx) w in
  responses (stores w') = responses (stores w) /\
  calls is_responses_call w' = calls is_responses_call w /\
  (forall key,
     (run (getResponseCacheEntry key) w').1 = (run (getResponseCacheEntry key) w).1) /\
  (run getResponseCacheSize w').1 = (run getResponseCacheSize w).1.
Proof.
  destruct (mutation_frame this request ast opts ctx w) as (Hs & He & l & Hl & Hn).
  destruct (run (_mutation this request ast opts ctx) w) as [t w']. simpl in *.
  split; [exact Hs |]. split; [apply (calls_extend _ l); assumption |]. split.
  - intros key. unfold getResponseCacheEntry. simpl.
    unfold responses_get. rewrite He, Hs. reflexivity.
  - unfold getResponseCacheSize. simpl. rewrite Hs. reflexivity.
Qed.

(** ** [_request] *)

(** [_request] up to the dispatch, for arguments that pass the checks and a
    document that validates and holds one operation. *)
Lemma run_request_dispatch (this : ClientHandl) (q : string) (opts : RequestOptions)
    (ctx : RequestContext) (w : World) (updated : UpdatedRequest)
    (d : OperationDefinition) :
  fragments_rejected (fragments opts) = false ->
  updateRequest (env w) q opts = Fulfilled updated ->
  validate (_schema this) (up_ast updated) = [] ->
  getOperationDefinitions (up_ast updated) = [d] ->
  run (_request this (QueryString q) (PlainOpts opts) ctx) w =
  run (r ← _resolveRequestOperation this (up_query updated) (up_ast updated) opts
             {| fieldTypeMap := up_fieldTypeMap updated; handlID := handlID ctx;
                operation := od_operation d; operationName := default "" (od_name d) |};
       _request_finish opts r)
    (logged (UpdateRequest q opts ctx) w).
Proof.
  intros Fr U V O. unfold _request. simpl. rewrite Fr. simpl. rewrite U, V, O.
  reflexivity.
Qed.

Lemma bind_done {A B : Type} (t : Task A) (f : A -> Task B) (b : B) :
  t ≫= f = Done b -> exists a, t = Done a /\ f a = Done b.
Proof. destruct t as [a | a k]; [intros E; exists a; done | discriminate]. Qed.

Lemma run_bind_done {A B : Type} (t : Task A) (f : A -> Task B) (w w' : World) (b : B) :
  run (t ≫= f) w = (Done b, w') ->
  exists a w1, run t w = (Done a, w1) /\ run (f a) w1 = (Done b, w').
Proof.
  rewrite run_bind. destruct (run t w) as [[a | a k] w1]; intros E.
  - exists a, w1. done.
  - discriminate E.
Qed.

Lemma request_finish_done (opts : RequestOptions) (r : Outcome RequestResult)
    (w w' : World) (res : ResolveResult) :
  run (_request_finish opts r) w = (Done (Fulfilled (ResultObject res)), w') ->
  rr_cachePromise res = None.
Proof.
  unfold _request_finish. destruct r as [[r | it] | error]; simpl; try discriminate.
  destruct (if awaitDataCached opts then rr_cachePromise r else None) as [d |]; simpl.
  - destruct (deferreds w !! d) as [[[] | error] |]; simpl; try discriminate.
    intros E. injection E as <- _. reflexivity.
  - intros E. injection E as <- _. reflexivity.
Qed.

Lemma request_done (this : ClientHandl) (q : QueryArg) (opts : OptsArg)
    (ctx : RequestContext) (w w' : World) (res : ResolveResult) :
  run (_request this q opts ctx) w = (Done (Fulfilled (ResultObject res)), w') ->
  rr_cachePromise res = None.
Proof.
  unfold _request.
  destruct q as [q |], opts as [opts |]; simpl; try discriminate.
  destruct (fragments_rejected (fragments opts)); simpl; [discriminate |].
  destruct (updateRequest (env w) q opts) as [updated | error]; simpl; [| discriminate].
  destruct (validate (_schema this) (up_ast updated)); simpl; [| discriminate].
  destruct (getOperationDefinitions (up_ast updated)) as [| d [| d' l]]; simpl;
    try discriminate.
  intros E. apply run_bind_done in E as (r & w1 & _ & E).
  eapply request_finish_done, E.
Qed.

(** C5, amended. [_request] awaits the cachePromise of the result when
    [opts.awaitDataCached] is set, and so does not return before the
    deferred is settled; in both cases it deletes the cachePromise from the
    result, so that no result object [_request] returns carries one. *)
Theorem request_strips_cachePromise (opts : RequestOptions) (res : ResolveResult)
    (w : World) :
  (let (t, w') := run (_request_finish opts (Fulfilled (ResultObject res))) w in
   match (if awaitDataCached opts then rr_cachePromise res else None) with
   | Some cachePromise =>
       match deferreds w !! cachePromise with
       | Some (Fulfilled _) =>
           t = Done (Fulfilled (ResultObject (strip_cachePromise res))) /\ w' = w
       | Some (Rejected error) => t = Done (Rejected error) /\ w' = w
       | None => (forall r, t <> Done r) /\ w' = w
       end
   | None => t = Done (Fulfilled (ResultObject (strip_cachePromise res))) /\ w' = w
   end) /\
  rr_cachePromise (strip_cachePromise res) = None /\
  (forall this q o ctx returned w',
     run (_request this q o ctx) w = (Done (Fulfilled (ResultObject returned)), w') ->
     rr_cachePromise returned = None).
Proof.
  split; [| split; [reflexivity | intros; eapply request_done; eassumption]].
  unfold _request_finish. simpl.
  destruct (if awaitDataCached opts then rr_cachePromise res else None) as [d |]; simpl.
  - destruct (deferreds w !! d) as [[[] | error] |]; simpl; try done.
  - done.
Qed.

(** C8, amended. When the document of a request holds more than one
    operation definition, [_request] rejects: with the error kept for that
    case when the document validates, with the errors of the validation
    otherwise.  In both cases the parser is the only collaborator called:
    neither the executor, nor the subscriber, nor a resolve of the cache
    manager. *)
Theorem multiple_operations_rejected (this : ClientHandl) (q : string)
    (opts : RequestOptions) (ctx : RequestContext) (w : World)
    (updated : UpdatedRequest) :
  fragments_rejected (fragments opts) = false ->
  updateRequest (env w) q opts = Fulfilled updated ->
  (1 < length (getOperationDefinitions (up_ast updated)))%nat ->
  let (t, w') := run (_request this (QueryString q) (PlainOpts opts) ctx) w in
  (validate (_schema this) (up_ast updated) = [] ->
   t = Done (Rejected (One (TypeError
         "Request expected to process one operation, but got multiple.")))) /\
  (forall e es,
     validate (_schema this) (up_ast updated) = e :: es ->
     t = Done (Rejected (Many (e :: es)))) /\
  w' = logged (UpdateRequest q opts ctx) w /\
  calls is_executor_call w' = calls is_executor_call w /\
  calls is_subscriber_call w' = calls is_subscriber_call w /\
  calls is_cache_resolve w' = calls is_cache_resolve w.
Proof.
  intros Fr U L. unfold _request. simpl. rewrite Fr. simpl. rewrite U.
  apply Nat.ltb_lt in L.
  destruct (validate (_schema this) (up_ast updated)) as [| e es]; simpl.
  - rewrite L. simpl. repeat split. intros e es E. discriminate E.
  - repeat split; [intros E; discriminate E |].
    intros e' es' E. injection E as <- <-. reflexivity.
Qed.

(** C10. On a client whose subscriptions are not enabled, the dispatch of
    a subscription rejects with its error and calls nothing; so a request
    whose document validates and holds one operation, a subscription,
    rejects with that error, and the subscriber is not called. *)
Theorem subscription_disabled_rejected (this : ClientHandl) (opts : RequestOptions)
    (w : World) :
  _subscriptionsEnabled this = false ->
  (forall request ast ctx,
     operation ctx = "subscription" ->
     run (_resolveRequestOperation this request ast opts ctx) w =
     (Done (Rejected (One (Error
        "Request expected the operation to be 'query', 'mutation' or 'subscription'."))),
      w)) /\
  (forall q ctx updated d,
     fragments_rejected (fragments opts) = false ->
     updateRequest (env w) q opts = Fulfilled updated ->
     validate (_schema this) (up_ast updated) = [] ->
     getOperationDefinitions (up_ast updated) = [d] ->
     od_operation d = "subscription" ->
     let (t, w') := run (_request this (QueryString q) (PlainOpts opts) ctx) w in
     t = Done (Rejected (One (Error
           "Request expected the operation to be 'query', 'mutation' or 'subscription'."))) /\
     w' = logged (UpdateRequest q opts ctx) w /\
     calls is_subscriber_call w' = calls is_subscriber_call w).
Proof.
  intros E. split.
  - intros request ast ctx S. unfold _resolveRequestOperation. rewrite S, E.
    reflexivity.
  - intros q ctx updated d Fr U V O S.
    rewrite (run_request_dispatch this q opts ctx w updated d Fr U V O).
    unfold _resolveRequestOperation. simpl. rewrite S, E. simpl. repeat split.
Qed.

(** A request for a query is [_query] on the parsed document, then the end
    of [_request]. *)
Lemma run_request_query (this : ClientHandl) (q : string) (opts : RequestOptions)
    (ctx : RequestContext) (w w' : World) (updated : UpdatedRequest)
    (d : OperationDefinition) (r : Outcome ResolveResult) :
  fragments_rejected (fragments opts) = false ->
  updateRequest (env w) q opts = Fulfilled updated ->
  validate (_schema this) (up_ast updated) = [] ->
  getOperationDefinitions (up_ast updated) = [d] ->
  od_operation d = "query" ->
  run (_query this (up_query updated) (up_ast updated) opts
         {| fieldTypeMap := up_fieldTypeMap updated; handlID := handlID ctx;
            operation := "query"; operationName := default "" (od_name d) |})
      (logged (UpdateRequest q opts ctx) w) = (Done r, w') ->
  run (_request this (QueryString q) (PlainOpts opts) ctx) w =
  run (_request_finish opts (outcome_map ResultObject r)) w'.
Proof.
  intros Fr U V O S Q.
  rewrite (run_request_dispatch this q opts ctx w updated d Fr U V O).
  unfold _resolveRequestOperation. cbn [operation]. rewrite S, String.eqb_refl.
  rewrite run_bind, run_fmap, Q. reflexivity.
Qed.

(** The same at [_request]: the promise the caller of [request] holds
    resolves with the cached data, also when the write is refused. *)
Lemma request_full_hit (this : ClientHandl) (q : string) (opts : RequestOptions)
    (ctx : RequestContext) (w : World) (updated : UpdatedRequest)
    (d : OperationDefinition) (a : AnalyzeResult) (data : ObjectMap)
    (cm : CacheMetadata) :
  fragments_rejected (fragments opts) = false ->
  updateRequest (env w) q opts = Fulfilled updated ->
  validate (_schema this) (up_ast updated) = [] ->
  getOperationDefinitions (up_ast updated) = [d] ->
  od_operation d = "query" ->
  cached_response (hashRequest (up_query updated)) w = None ->
  active (requests w) !! hashRequest (up_query updated) = None ->
  analyze (env w) (hashRequest (up_query updated)) (up_ast updated) (stores w)
    = Fulfilled a ->
  cachedData a = Some data ->
  ar_cacheMetadata a = Some cm ->
  let (t, w') := run (_request this (QueryString q) (PlainOpts opts) ctx) w in
  t = Done (Fulfilled (ResultObject
        {| rr_cacheMetadata := Some (with_query this query cm);
           rr_data := Some data;
           rr_cachePromise := None;
           rr_queryHash := truthy_hash (Some (hashRequest (up_query updated))) |})) /\
  deferreds w' !! deferredCount w = Some (Fulfilled tt).
Proof.
  intros Fr U V O S M A E D C.
  set (ctx' := {| fieldTypeMap := up_fieldTypeMap updated; handlID := handlID ctx;
                  operation := "query"; operationName := default "" (od_name d) |}).
  destruct (run_query_full_hit this (up_query updated) (up_ast updated) opts ctx'
              (logged (UpdateRequest q opts ctx) w) a data cm)
    as (w1 & Q & _ & Hd & _); try assumption.
  { rewrite run_checkResponseCache. simpl. f_equal. exact M. }
  rewrite (run_request_query this q opts ctx w w1 updated d _ Fr U V O S Q).
  unfold _request_finish. simpl in *.
  destruct (awaitDataCached opts); simpl; [rewrite Hd; simpl |]; split; done.
Qed.

(** A constructed client has subscriptions enabled exactly when the
    constructor set up a subscriber. *)
Lemma constructor_subscriptionsEnabled (args : ArgsValue) (this : ClientHandl) :
  constructor args = Fulfilled this ->
  _subscriptionsEnabled this = false <-> _requestSubscriber this = None.
Proof.
  unfold constructor. destruct args as [a |]; [| discriminate].
  destruct (String.eqb (args_mode a) "server" && negb WEB_ENV).
  - destruct (args_schema a); [| discriminate].
    intros E. injection E as <-. simpl. split; discriminate.
  - destruct (args_introspection a) as [i |]; [| discriminate].
    destruct (buildClientSchema i); [| discriminate].
    destruct (args_url a); [| discriminate].
    intros E. injection E as <-. simpl.
    destruct (args_subscriptions a); [destruct socketsSupported |]; simpl;
      split; congruence.
Qed.

(** ** The default query entry *)

Lemma with_query_absent (this : ClientHandl) (o : Operation) (cm : CacheMetadata) :
  cm !! "query" = None ->
  with_query this o cm =
  <["query" := parseCacheControl (directive_for (_defaultCacheControls this) o)]> cm.
Proof. intros E. unfold with_query. rewrite E. reflexivity. Qed.

(** The directives of a constructed client: the field initialiser, with
    the fields of the [defaultCacheControls] argument spread over it. *)
Lemma constructor_defaultCacheControls (a : ClientArgs) (this : ClientHandl) :
  constructor (PlainArgs a) = Fulfilled this ->
  _defaultCacheControls this =
    match args_defaultCacheControls a with
    | Some d => spread_defaultCacheControls initial_defaultCacheControls d
    | None => initial_defaultCacheControls
    end.
Proof.
  unfold constructor. intros E.
  destruct (String.eqb (args_mode a) "server" && negb WEB_ENV).
  - destruct (args_schema a); [| discriminate].
    injection E as <-. reflexivity.
  - destruct (args_introspection a) as [i |]; [| discriminate].
    destruct (buildClientSchema i); [| discriminate].
    destruct (args_url a); [| discriminate].
    injection E as <-. reflexivity.
Qed.

(** C7, amended. When the cacheMetadata a mutation, or a message of a
    subscription, resolves to has no entry at "query", the result's
    cacheMetadata gains one, parsed from the client's default directive
    for that operation.  For a constructed client the directive for
    mutations is the [mutation] field of the [defaultCacheControls]
    argument when the argument is given and has that field, and
    [max-age=0, s-maxage=0, no-cache, no-store] otherwise, in particular
    when the argument has other fields only; likewise for subscriptions
    and the [subscription] field. *)
Theorem default_query_cacheability (this : ClientHandl) (opts : RequestOptions)
    (ctx : RequestContext) (w : World) (n : Normalised) :
  n_cacheMetadata n !! "query" = None ->
  (forall request ast r,
     executor (env w) (Some request) (Some ast) = Some (Fulfilled r) ->
     er_errors r = None ->
     normalise (env w) mutation (er_data r)
       (createCacheMetadata (er_cacheMetadata r) (er_headers r)) (stores w)
       = Fulfilled n ->
     exists res,
       (run (_mutation this request ast opts ctx) w).1 = Done (Fulfilled res) /\
       rr_cacheMetadata res =
         Some (<["query" := parseCacheControl (dcc_mutation (_defaultCacheControls this))]>
                 (n_cacheMetadata n))) /\
  (forall ast r,
     subscriber_errors r = None ->
     normalise (env w) subscription (xr_data r)
       (createCacheMetadata (xr_cacheMetadata r) None) (stores w) = Fulfilled n ->
     awaitDataCached opts = false \/ acknowledged (env w) = true ->
     exists res,
       (run (_resolveSubscriber this ast (PlainResult r) opts ctx) w).1
         = Done (Fulfilled res) /\
       rr_cacheMetadata res =
         Some (<["query" :=
                   parseCacheControl (dcc_subscription (_defaultCacheControls this))]>
                 (n_cacheMetadata n))) /\
  (forall a,
     constructor (PlainArgs a) = Fulfilled this ->
     dcc_mutation (_defaultCacheControls this)
       = default "max-age=0, s-maxage=0, no-cache, no-store"
           (args_defaultCacheControls a ≫= arg_mutation) /\
     dcc_subscription (_defaultCacheControls this)
       = default "max-age=0, s-maxage=0, no-cache, no-store"
           (args_defaultCacheControls a ≫= arg_subscription)).
Proof.
  intros Q.
  assert (G : forall o (t : Task (Outcome ResolveResult)) data promise,
            t = Done (Fulfilled
                  {| rr_cacheMetadata := Some (with_query this o (n_cacheMetadata n));
                     rr_data := data; rr_cachePromise := promise;
                     rr_queryHash := None |}) ->
            exists res, t = Done (Fulfilled res) /\
              rr_cacheMetadata res =
                Some (<["query" :=
                          parseCacheControl (directive_for (_defaultCacheControls this) o)]>
                        (n_cacheMetadata n))).
  { intros o t data promise ->. eexists. split; [reflexivity |]. simpl.
    rewrite (with_query_absent _ _ _ Q). reflexivity. }
  split; [| split].
  - intros request ast r E N R. apply (G mutation _ (Some (n_data n)) (Some (deferredCount w))).
    unfold _mutation.
    rewrite run_bind, (run_fetch _ _ _ _ _ _ E). simpl. rewrite N. simpl.
    unfold resolve_entities. simpl. rewrite R. simpl.
    destruct (acknowledged (env w)); simpl; try rewrite run_resolve; reflexivity.
  - intros ast r S R A. apply (G subscription _ (Some (n_data n)) None).
    unfold _resolveSubscriber. rewrite S. simpl.
    unfold resolve_entities. simpl. rewrite R. simpl.
    destruct (acknowledged (env w)) eqn:K; simpl.
    + destruct (awaitDataCached opts); simpl.
      * unfold settle. rewrite lookup_delete_eq, lookup_insert_eq. simpl.
        try rewrite run_resolve. reflexivity.
      * try rewrite run_resolve. reflexivity.
    + destruct A as [A | A]; [| discriminate A]. rewrite A. simpl.
      try rewrite run_resolve. reflexivity.
  - intros a E. rewrite (constructor_defaultCacheControls a this E).
    destruct (args_defaultCacheControls a) as [d |]; [| split; reflexivity].
    simpl. destruct (arg_mutation d), (arg_subscription d); split; reflexivity.
Qed.

(** ** [create] *)

(** C9. A [create] that resolved leaves the instance it resolved with at
    hand.  With an instance at hand, [create] called with a plain object
    whose [newInstance] is not truthy resolves with that instance and
    changes nothing, whatever the other fields of the argument are; and a
    call that constructs an instance and creates its cache is a call made
    with no instance at hand or with a truthy [newInstance]. *)
Theorem create_reuses_instance (args : ArgsValue) (w : World) :
  let (t, w') := run (create args) w in
  (forall this, t = Done (Fulfilled this) -> instance w' = Some this) /\
  (forall this a,
     instance w = Some this -> args = PlainArgs a -> args_newInstance a = false ->
     t = Done (Fulfilled this) /\ w' = w) /\
  (forall client,
     log w' = CacheManagerCreate client :: log w ->
     constructor args = Fulfilled client /\
     (instance w = None \/
      exists a, args = PlainArgs a /\ args_newInstance a = true)).
Proof.
  assert (N : forall (l : list action) x, l <> x :: l).
  { intros l x E. apply (f_equal length) in E. simpl in E. lia. }
  unfold create. simpl.
  destruct (constructor args) as [client | error] eqn:C;
    destruct (instance w) as [this |] eqn:I; destruct args as [a |]; simpl;
    try destruct (args_newInstance a) eqn:G; simpl;
    try destruct (createCache (env w) client); simpl.
  all: try (unfold constructor in C; discriminate C).
  all: split; [intros this' E; try discriminate E; injection E as <-; done |].
  all: split;
         [ intros this' a' E1 E2 E3; try discriminate;
           try (injection E2 as <-; congruence);
           try (injection E1 as <-; destruct w; done)
         | intros client' E; simpl in E;
           first [ exfalso; apply (N _ _ E)
                 | injection E as <-; split; [reflexivity |]; eauto ] ].
Qed.

End Facts.

(** * Further properties *)

Section MoreFacts.
Context `{F : Foreign}.

(** ** Arguments, parsing and validation *)

(** X1. [_request] checks its arguments before it touches anything: a
    query that is not a string and options that are not a plain object are
    reported together, in that order, and fragments that are not an array
    of strings are reported alone; in each case the world is as before.
    A request that calls a collaborator had a string, a plain object and
    acceptable fragments. *)
Theorem request_rejects_invalid_arguments (this : ClientHandl) (request : QueryArg)
    (opts : OptsArg) (ctx : RequestContext) (w : World) :
  let (t, w') := run (_request this request opts ctx) w in
  (forall o, request = QueryOther -> opts = PlainOpts o ->
     t = Done (Rejected (Many [TypeError "Request expected query to be a string."]))
     /\ w' = w) /\
  (forall q, request = QueryString q -> opts = OptsOther ->
     t = Done (Rejected (Many [TypeError "Request expected opts to be a plain object."]))
     /\ w' = w) /\
  (request = QueryOther -> opts = OptsOther ->
     t = Done (Rejected (Many [TypeError "Request expected query to be a string.";
                               TypeError "Request expected opts to be a plain object."]))
     /\ w' = w) /\
  (forall q o, request = QueryString q -> opts = PlainOpts o ->
     fragments_rejected (fragments o) = true ->
     t = Done (Rejected (One (TypeError
           "Request expected opts.fragments to be an array of strings.")))
     /\ w' = w) /\
  (log w' <> log w ->
   exists q o, request = QueryString q /\ opts = PlainOpts o /\
               fragments_rejected (fragments o) = false).
Proof.
  unfold _request.
  destruct request as [q |], opts as [o |]; simpl;
    try (repeat split; intros; try discriminate; try done; fail).
  destruct (fragments_rejected (fragments o)) eqn:Fr; simpl.
  - repeat split; intros; try discriminate; try done.
  - destruct (run _ _) as [t w'].
    repeat split; intros; try discriminate; try congruence.
    exists q, o. done.
Qed.

(** X2. A request whose document the parser refuses rejects with the
    parser's error, and one whose document does not validate rejects with
    the errors of the validation, however many operations it holds; the
    parser is the only collaborator called, so stores, registries and
    promises are as before. *)
Theorem request_parse_or_validation_failure (this : ClientHandl) (q : string)
    (opts : RequestOptions) (ctx : RequestContext) (w : World) :
  fragments_rejected (fragments opts) = false ->
  let (t, w') := run (_request this (QueryString q) (PlainOpts opts) ctx) w in
  (forall error,
     updateRequest (env w) q opts = Rejected error ->
     t = Done (Rejected error) /\ w' = logged (UpdateRequest q opts ctx) w) /\
  (forall updated e es,
     updateRequest (env w) q opts = Fulfilled updated ->
     validate (_schema this) (up_ast updated) = e :: es ->
     t = Done (Rejected (Many (e :: es))) /\ w' = logged (UpdateRequest q opts ctx) w).
Proof.
  intros Fr. unfold _request. simpl. rewrite Fr. simpl.
  destruct (updateRequest (env w) q opts) as [updated | error]; simpl.
  - destruct (validate (_schema this) (up_ast updated)) as [| e es] eqn:V; simpl.
    + destruct (run _ _) as [t w']. split; [intros; discriminate |].
      intros updated' e' es' E1 E2. injection E1 as <-. rewrite V in E2.
      discriminate E2.
    + split; [intros; discriminate |].
      intros updated' e' es' E1 E2. injection E1 as <-. rewrite V in E2.
      injection E2 as <- <-. done.
  - split; [| intros; discriminate].
    intros error' E. injection E as <-. done.
Qed.

(** ** The response-cache check *)

(** X3. [_checkResponseCache] always answers, and never changes a store or
    a registry.  It answers [undefined] when a read of the store fails and
    when the Cacheability the store has is not valid, in which case [get]
    is not called; what it answers otherwise is the record of an entry the
    store holds. *)
Theorem checkResponseCache_degrades (queryHash : string) (ctx : RequestContext)
    (w : World) :
  let (t, w') := run (_checkResponseCache queryHash ctx) w in
  (exists r, t = Done r) /\
  stores w' = stores w /\ requests w' = requests w /\ promises w' = promises w /\
  (forall error, read_fault (env w) queryHash = Some error -> t = Done None) /\
  (forall c, responses_has queryHash w = Fulfilled c -> isValid (env w) c = false ->
     t = Done None /\ log w' = ResponsesHas queryHash :: log w) /\
  (forall r, t = Done (Some r) ->
     exists entry,
       responses (stores w) !! queryHash = Some entry /\
       isValid (env w) (Some (parseCacheControl (entry_cacheControl entry))) = true /\
       rr_data r = Some (rec_data (entry_value entry)) /\
       rr_cacheMetadata r =
         Some (rehydrateCacheMetadata (rec_cacheMetadata (entry_value entry)))).
Proof.
  rewrite run_checkResponseCache.
  split; [eexists; reflexivity |]. repeat (split; [reflexivity |]).
  unfold cached_response, checked_log, responses_has, responses_get.
  split; [| split].
  - intros error E. rewrite E. reflexivity.
  - intros c. destruct (read_fault (env w) queryHash); [discriminate |].
    intros E V. injection E as <-. rewrite V. done.
  - intros r. destruct (read_fault (env w) queryHash); [discriminate |].
    destruct (responses (stores w) !! queryHash) as [entry |]; simpl.
    + destruct (isValid (env w) _) eqn:V; [| discriminate].
      intros E. injection E as <-. exists entry. done.
    + destruct (isValid (env w) None); discriminate.
Qed.

(** ** Requests that share a fetch *)

Lemma settle_all_settled (o o' : Outcome ResolveResult) (callers : list nat)
    (m : gmap nat (Outcome ResolveResult)) (p : nat) :
  m !! p = Some o' -> settle_all o callers m !! p = Some o'.
Proof.
  unfold settle_all. revert m.
  induction callers as [| q l IH]; intros m E; simpl; [exact E |].
  apply IH. eapply settle_settled, E.
Qed.

Lemma settle_all_outside (o : Outcome ResolveResult) (callers : list nat)
    (m : gmap nat (Outcome ResolveResult)) (p : nat) :
  p ∉ callers -> settle_all o callers m !! p = m !! p.
Proof.
  unfold settle_all. revert m.
  induction callers as [| q l IH]; intros m N; simpl; [reflexivity |].
  apply not_elem_of_cons in N as [N1 N2].
  rewrite IH by exact N2. apply settle_other. congruence.
Qed.

(** X4. When the request in flight for a fingerprint gets its data from
    the executor and the cache manager resolves it, the executor has been
    called once, with the query and the document the analyser rewrote;
    every pending caller of the fingerprint is resolved with the same
    cacheMetadata and data as the original caller, with the fingerprint
    and without a cachePromise; and neither registry keeps an entry for
    the fingerprint. *)
Theorem fetched_result_is_shared (this : ClientHandl) (request : string)
    (a : AnalyzeResult) (deferred : nat) (opts : RequestOptions) (ctx : RequestContext)
    (w : World) (r : ExecutorResult) (n : Normalised) (callers : list nat) :
  truthy (hashRequest request) = true ->
  executor (env w) (updatedQuery a) (updatedAST a) = Some (Fulfilled r) ->
  er_errors r = None ->
  normalise (env w) query (er_data r)
    (createCacheMetadata (er_cacheMetadata r) (er_headers r)) (stores w) = Fulfilled n ->
  pending (requests w) !! hashRequest request = Some callers ->
  Forall (fun p => promises w !! p = None) callers ->
  let (t, w') := run (_query_fetch this (hashRequest request) a deferred opts ctx) w in
  let cacheMetadata := with_query this query (n_cacheMetadata n) in
  t = Done (Fulfilled
        {| rr_cacheMetadata := Some cacheMetadata; rr_data := Some (n_data n);
           rr_cachePromise := Some deferred;
           rr_queryHash := Some (hashRequest request) |}) /\
  Forall (fun p =>
            promises w' !! p =
            Some (Fulfilled (shared_result (hashRequest request) cacheMetadata (n_data n))))
    callers /\
  active (requests w') !! hashRequest request = None /\
  pending (requests w') !! hashRequest request = None /\
  calls is_executor_call w' =
    ExecutorResolve (updatedQuery a) (updatedAST a) opts :: calls is_executor_call w.
Proof.
  intros T E N R P U. unfold _query_fetch.
  rewrite run_bind, (run_fetch _ _ _ _ _ _ E). simpl. rewrite N. simpl.
  unfold resolve_query. simpl. rewrite R. simpl.
  match goal with
  | |- context [run (_resolve this ?args) ?x] =>
      rewrite (run_resolve this args x); set (w1 := x)
  end.
  assert (P1 : pending (requests w1) !! hashRequest request = Some callers).
  { subst w1. destruct (acknowledged (env w)); exact P. }
  assert (U1 : promises w1 = promises w).
  { subst w1. destruct (acknowledged (env w)); reflexivity. }
  assert (L1 : calls is_executor_call w1 =
               ExecutorResolve (updatedQuery a) (updatedAST a) opts
                 :: calls is_executor_call w).
  { subst w1. destruct (acknowledged (env w)); reflexivity. }
  clearbody w1.
  unfold resolved, resolution, drained. simpl. rewrite T, P1. simpl.
  split; [reflexivity |]. split; [| split; [| split]].
  - apply Forall_forall. intros p I. apply settle_all_lookup. right.
    split; [exact I |]. rewrite U1. rewrite Forall_forall in U. apply U, I.
  - apply lookup_delete_eq.
  - apply lookup_delete_eq.
  - exact L1.
Qed.

(** X5. [_resolve] for one fingerprint leaves the other fingerprints
    alone: their active and pending entries are as before; a promise that
    was settled keeps its outcome, a promise that is not among the pending
    callers of the fingerprint is not settled, and no store changes. *)
Theorem resolve_leaves_the_rest (this : ClientHandl) (args : ResolveArgs) (w : World)
    (other : string) :
  ra_queryHash args <> Some other ->
  let (t, w') := run (_resolve this args) w in
  active (requests w') !! other = active (requests w) !! other /\
  pending (requests w') !! other = pending (requests w) !! other /\
  (forall p o, promises w !! p = Some o -> promises w' !! p = Some o) /\
  (forall p queryHash,
     ra_queryHash args = Some queryHash ->
     p ∉ default [] (pending (requests w) !! queryHash) ->
     promises w' !! p = promises w !! p) /\
  stores w' = stores w.
Proof.
  intros N. rewrite run_resolve. unfold resolved, drained.
  destruct (ra_resolvePending args); simpl; [| done].
  destruct (ra_queryHash args) as [h |] eqn:Q; simpl; [| done].
  destruct (truthy h); simpl; [| done].
  assert (h <> other) by congruence.
  destruct (pending (requests w) !! h) as [callers |] eqn:P; simpl.
  - rewrite !lookup_delete_ne by assumption.
    repeat split; try done.
    + intros p o E. eapply settle_all_settled, E.
    + intros p queryHash E I. injection E as <-. rewrite P in I. simpl in I.
      apply settle_all_outside, I.
  - rewrite lookup_delete_ne by assumption. done.
Qed.

(** X6. A query whose fingerprint is active, and which the response cache
    does not answer, becomes the last pending caller of the fingerprint:
    it calls neither the analyser nor the executor, leaves the active
    registry and the stores as they are, and waits.  It stays waiting
    while its promise is unsettled, and answers with the outcome its
    promise is settled with. *)
Theorem pending_caller_waits (this : ClientHandl) (request : string) (ast : DocumentNode)
    (opts : RequestOptions) (ctx : RequestContext) (w : World) (inFlight : string) :
  (run (_checkResponseCache (hashRequest request) ctx) w).1 = Done None ->
  active (requests w) !! hashRequest request = Some inFlight ->
  let (t, w') := run (_query this request ast opts ctx) w in
  pending (requests w') !! hashRequest request =
    Some (default [] (pending (requests w) !! hashRequest request)
            ++ [promiseCount w])%list /\
  active (requests w') = active (requests w) /\
  stores w' = stores w /\
  calls is_analyze_call w' = calls is_analyze_call w /\
  calls is_executor_call w' = calls is_executor_call w /\
  (forall w2, promises w2 !! promiseCount w = None -> run t w2 = (t, w2)) /\
  (forall w2 o, promises w2 !! promiseCount w = Some o -> run t w2 = (Done o, w2)).
Proof.
  intros M A. rewrite run_checkResponseCache in M. injection M as M.
  unfold _query. rewrite run_bind, run_checkResponseCache, M. simpl. rewrite A. simpl.
  rewrite lookup_delete_eq. simpl.
  split; [apply lookup_insert_eq |]. split; [reflexivity |]. split; [reflexivity |].
  split; [| split; [| split]].
  - apply (calls_extend _ (checked_log (hashRequest request) w)); [reflexivity |].
    apply checked_log_other; reflexivity.
  - apply (calls_extend _ (checked_log (hashRequest request) w)); [reflexivity |].
    apply checked_log_other; reflexivity.
  - intros w2 E. rewrite E. reflexivity.
  - intros w2 o E. rewrite E. reflexivity.
Qed.

(** X7. When the analyser rejects, [_query] rejects with its error without
    calling the executor, and the fingerprint it marked active stays in
    the active registry: [_resolve] is not reached, the pending registry
    and the stores are as before. *)
Theorem analyse_rejection_leaves_active (this : ClientHandl) (request : string)
    (ast : DocumentNode) (opts : RequestOptions) (ctx : RequestContext) (w : World)
    (error : Rejection) :
  (run (_checkResponseCache (hashRequest request) ctx) w).1 = Done None ->
  active (requests w) !! hashRequest request = None ->
  analyze (env w) (hashRequest request) ast (stores w) = Rejected error ->
  let (t, w') := run (_query this request ast opts ctx) w in
  t = Done (Rejected error) /\
  active (requests w') !! hashRequest request = Some request /\
  pending (requests w') = pending (requests w) /\
  stores w' = stores w /\
  calls is_executor_call w' = calls is_executor_call w.
Proof.
  intros M A E. rewrite run_checkResponseCache in M. injection M as M.
  unfold _query. rewrite run_bind, run_checkResponseCache, M. simpl. rewrite A. simpl.
  rewrite E. simpl.
  split; [reflexivity |]. split; [apply lookup_insert_eq |].
  split; [reflexivity |]. split; [reflexivity |].
  apply (calls_extend _ (CacheAnalyze (hashRequest request) ast ctx
                           :: checked_log (hashRequest request) w)); [reflexivity |].
  constructor; [reflexivity |]. apply checked_log_other; reflexivity.
Qed.

(** ** What an executor error leaves behind *)

(** X8. A mutation is never coalesced: whatever the executor and the cache
    manager answer, [_mutation] leaves the active and the pending registry
    and the promises of pending callers as they are. *)
Theorem mutation_leaves_registries (this : ClientHandl) (request : string)
    (ast : DocumentNode) (opts : RequestOptions) (ctx : RequestContext) (w : World) :
  let (t, w') := run (_mutation this request ast opts ctx) w in
  requests w' = requests w /\ promises w' = promises w /\
  promiseCount w' = promiseCount w.
Proof.
  unfold _mutation, _fetch. simpl.
  destruct (executor (env w) (Some request) (Some ast)) as [r |]; simpl; [| done].
  destruct r as [r | error]; simpl; [destruct (er_errors r) as [errors |]; simpl |].
  - try rewrite run_resolve; done.
  - unfold resolve_entities. simpl.
    destruct (normalise (env w) mutation _ _ _) as [n | error]; simpl; [| done].
    destruct (acknowledged (env w)); simpl; try rewrite run_resolve; done.
  - try rewrite run_resolve; done.
Qed.

(** X9. When the executor rejects a mutation, or answers it with errors,
    [_mutation] rejects with what the executor gave; the cache manager is
    not called and no deferred is made: apart from the record of the call
    to the executor the world is as before. *)
Theorem mutation_executor_error (this : ClientHandl) (request : string)
    (ast : DocumentNode) (opts : RequestOptions) (ctx : RequestContext) (w : World)
    (r : Outcome ExecutorResult) (error : Rejection) :
  executor (env w) (Some request) (Some ast) = Some r ->
  executor_error r = Some error ->
  run (_mutation this request ast opts ctx) w =
  (Done (Rejected error), logged (ExecutorResolve (Some request) (Some ast) opts) w).
Proof.
  intros E R. unfold _mutation.
  rewrite run_bind, (run_fetch _ _ _ _ _ _ E), R, run_resolve. reflexivity.
Qed.

(** X10. When the executor rejects the query in flight, or answers it with
    errors, nothing is written: the three stores and the deferreds are as
    before, no resolve of the cache manager is called, and the call to the
    executor is the only call made. *)
Theorem query_executor_error_writes_nothing (this : ClientHandl) (queryHash : string)
    (a : AnalyzeResult) (deferred : nat) (opts : RequestOptions) (ctx : RequestContext)
    (w : World) (r : Outcome ExecutorResult) (error : Rejection) :
  executor (env w) (updatedQuery a) (updatedAST a) = Some r ->
  executor_error r = Some error ->
  let (t, w') := run (_query_fetch this queryHash a deferred opts ctx) w in
  t = Done (Rejected error) /\
  stores w' = stores w /\ deferreds w' = deferreds w /\
  log w' = ExecutorResolve (updatedQuery a) (updatedAST a) opts :: log w /\
  calls is_cache_resolve w' = calls is_cache_resolve w.
Proof.
  intros E R. unfold _query_fetch.
  rewrite run_bind, (run_fetch _ _ _ _ _ _ E), R, run_resolve.
  match goal with
  | |- context [resolved this ?args ?x] =>
      destruct (resolved_frame this args x) as (Hs & Hd & Hl & _)
  end.
  split; [reflexivity |]. split; [exact Hs |]. split; [exact Hd |].
  split; [exact Hl |].
  eapply (calls_extend _ [_]); [exact Hl |]. repeat constructor.
Qed.

(** ** A query answered in full, asked again *)

Lemma run_query_full_hit_env (this : ClientHandl) (request : string) (ast : DocumentNode)
    (opts : RequestOptions) (ctx : RequestContext) (w : World) (a : AnalyzeResult)
    (data : ObjectMap) (cm : CacheMetadata) :
  (run (_checkResponseCache (hashRequest request) ctx) w).1 = Done None ->
  active (requests w) !! hashRequest request = None ->
  analyze (env w) (hashRequest request) ast (stores w) = Fulfilled a ->
  cachedData a = Some data ->
  ar_cacheMetadata a = Some cm ->
  env (run (_query this request ast opts ctx) w).2 = env w.
Proof.
  intros M A E D C.
  rewrite (run_query_miss this request ast opts ctx w a M A E).
  rewrite (run_query_analyzed_hit this _ a opts ctx _ data cm D C). simpl.
  match goal with
  | |- context [resolved this ?args ?x] =>
      destruct (resolved_frame this args x) as (_ & _ & _ & He); rewrite He
  end.
  unfold written, responses_set. simpl.
  destruct (write_fault (env w) (hashRequest request)); reflexivity.
Qed.

(** X11. After a query the analyser answered in full, whose write the
    responses store accepted, the same query asked again is answered from
    the responses store while the entry is valid: it gets the same data,
    and the same cacheMetadata when rehydrating undoes dehydrating; the
    [has] and the [get] of the check are all it calls, so neither the
    analyser nor the executor is called again. *)
Theorem answered_query_is_replayed (this : ClientHandl) (request : string)
    (ast : DocumentNode) (opts : RequestOptions) (ctx : RequestContext) (w : World)
    (a : AnalyzeResult) (data : ObjectMap) (cm : CacheMetadata) :
  (run (_checkResponseCache (hashRequest request) ctx) w).1 = Done None ->
  active (requests w) !! hashRequest request = None ->
  analyze (env w) (hashRequest request) ast (stores w) = Fulfilled a ->
  cachedData a = Some data ->
  ar_cacheMetadata a = Some cm ->
  write_fault (env w) (hashRequest request) = None ->
  read_fault (env w) (hashRequest request) = None ->
  isValid (env w) (Some (parseCacheControl (response_cacheControl this cm))) = true ->
  rehydrateCacheMetadata (dehydrateCacheMetadata cm) = cm ->
  let (first, w1) := run (_query this request ast opts ctx) w in
  let (second, w2) := run (_query this request ast opts ctx) w1 in
  first = Done (Fulfilled
            {| rr_cacheMetadata := Some (with_query this query cm);
               rr_data := Some data;
               rr_cachePromise := Some (deferredCount w);
               rr_queryHash := truthy_hash (Some (hashRequest request)) |}) /\
  second = Done (Fulfilled
             {| rr_cacheMetadata := Some (with_query this query cm);
                rr_data := Some data;
                rr_cachePromise := None;
                rr_queryHash := truthy_hash (Some (hashRequest request)) |}) /\
  log w2 = ResponsesGet (hashRequest request) :: ResponsesHas (hashRequest request)
             :: log w1 /\
  stores w2 = stores w1 /\ requests w2 = requests w1.
Proof.
  intros M A E D C W R V I.
  pose proof (run_query_full_hit_env this request ast opts ctx w a data cm M A E D C)
    as He.
  destruct (run_query_full_hit this request ast opts ctx w a data cm M A E D C)
    as (w1 & Q & _ & _ & Hs).
  rewrite Q in He |- *. simpl in He. rewrite W in Hs.
  unfold _query. rewrite run_bind, run_checkResponseCache.
  unfold cached_response, checked_log, responses_has, responses_get.
  rewrite He, R, Hs, lookup_insert_eq. simpl. rewrite V. rewrite run_resolve. simpl.
  rewrite I. repeat split.
Qed.

(** X12. After a query the analyser answered in full, whose write the
    responses store accepted, [getResponseCacheEntry] for the fingerprint
    answers the cached data with the metadata made from the dehydrated
    cacheMetadata, and [getResponseCacheSize] counts one entry more when
    the fingerprint had none. *)
Theorem answered_query_is_observable (this : ClientHandl) (request : string)
    (ast : DocumentNode) (opts : RequestOptions) (ctx : RequestContext) (w : World)
    (a : AnalyzeResult) (data : ObjectMap) (cm : CacheMetadata) :
  (run (_checkResponseCache (hashRequest request) ctx) w).1 = Done None ->
  active (requests w) !! hashRequest request = None ->
  analyze (env w) (hashRequest request) ast (stores w) = Fulfilled a ->
  cachedData a = Some data ->
  ar_cacheMetadata a = Some cm ->
  write_fault (env w) (hashRequest request) = None ->
  read_fault (env w) (hashRequest request) = None ->
  let w1 := (run (_query this request ast opts ctx) w).2 in
  (run (getResponseCacheEntry (hashRequest request)) w1).1 =
    Done (Fulfilled (Some
      {| rce_cacheMetadata := createCacheMetadata (Some (dehydrateCacheMetadata cm)) None;
         rce_data := data |})) /\
  (responses (stores w) !! hashRequest request = None ->
   (run getResponseCacheSize w1).1 = Done (Fulfilled (S (size (responses (stores w)))))) /\
  (forall entry, responses (stores w) !! hashRequest request = Some entry ->
   (run getResponseCacheSize w1).1 = Done (Fulfilled (size (responses (stores w))))).
Proof.
  intros M A E D C W R.
  pose proof (run_query_full_hit_env this request ast opts ctx w a data cm M A E D C)
    as He.
  destruct (run_query_full_hit this request ast opts ctx w a data cm M A E D C)
    as (w1 & Q & _ & _ & Hs).
  rewrite Q in He |- *. simpl in He. rewrite W in Hs. simpl.
  unfold getResponseCacheEntry, getResponseCacheSize. simpl.
  unfold responses_get. rewrite He, R, Hs, lookup_insert_eq. simpl.
  split; [reflexivity |]. split.
  - intros N. rewrite map_size_insert_None by exact N. reflexivity.
  - intros entry S. rewrite map_size_insert_Some by (eexists; exact S). reflexivity.
Qed.

(** ** The constructor and [create] *)

(** X13. What the constructor returns is consistent.  A client in server
    mode was asked for with mode "server" outside the web environment; its
    executor and its subscriber work on the schema the client keeps, and
    its subscriptions are enabled.  A client in default mode fetches from
    the url it was given, keeps the schema built from the introspection,
    and has a subscriber only when one was asked for and sockets are
    supported.  The resource key is the one given, else "id". *)
Theorem constructed_client_is_consistent (a : ClientArgs) (this : ClientHandl) :
  constructor (PlainArgs a) = Fulfilled this ->
  match _mode this with
  | mode_server =>
      args_mode a = "server" /\ WEB_ENV = false /\
      args_schema a = Some (_schema this) /\
      _requestExecutor this = GraphQLExecute (_schema this) /\
      _requestSubscriber this = Some (GraphQLSubscribe (_schema this)) /\
      _subscriptionsEnabled this = true
  | mode_default =>
      (args_mode a = "server" -> WEB_ENV = true) /\
      (exists introspection url,
         args_introspection a = Some introspection /\
         buildClientSchema introspection = Fulfilled (_schema this) /\
         args_url a = Some url /\
         _requestExecutor this = FetchManager url) /\
      (_subscriptionsEnabled this = true <->
       socketsSupported = true /\ is_Some (args_subscriptions a))
  end /\
  _resourceKey this = default "id" (args_resourceKey a).
Proof.
  unfold constructor.
  destruct (String.eqb (args_mode a) "server") eqn:M; simpl.
  - apply String.eqb_eq in M. destruct WEB_ENV eqn:W; simpl.
    + destruct (args_introspection a) as [i |]; [| discriminate].
      destruct (buildClientSchema i) as [schema |] eqn:B; [| discriminate].
      destruct (args_url a) as [url |]; [| discriminate].
      intros E. injection E as <-. simpl. split; [| reflexivity].
      split; [done |]. split; [eauto 6 |].
      destruct (args_subscriptions a); [destruct socketsSupported |]; simpl;
        split; try done; try (intros ?; discriminate);
        intros [S1 S2]; first [discriminate S1 | destruct S2; discriminate].
    + destruct (args_schema a) as [schema |]; [| discriminate].
      intros E. injection E as <-. simpl. done.
  - destruct (args_introspection a) as [i |]; [| discriminate].
    destruct (buildClientSchema i) as [schema |] eqn:B; [| discriminate].
    destruct (args_url a) as [url |]; [| discriminate].
    intros E. injection E as <-. simpl. split; [| reflexivity].
    split; [intros S; rewrite S in M; discriminate M |]. split; [eauto 6 |].
    destruct (args_subscriptions a); [destruct socketsSupported |]; simpl;
      split; try done; try (intros ?; discriminate);
      intros [S1 S2]; first [discriminate S1 | destruct S2; discriminate].
Qed.

(** X14. [create] always settles.  When it rejects, because the
    constructor throws or the cache cannot be created, the instance kept
    in the module is the one kept before.  Called with a truthy
    [newInstance], arguments the constructor accepts and a cache that can be
    created, it resolves with the new client and keeps it in place of the
    old one. *)
Theorem create_failure_keeps_instance (args : ArgsValue) (w : World) :
  let (t, w') := run (create args) w in
  (exists r, t = Done r) /\
  (forall error, t = Done (Rejected error) -> instance w' = instance w) /\
  (forall a client,
     args = PlainArgs a -> args_newInstance a = true ->
     constructor args = Fulfilled client ->
     createCache (env w) client = Fulfilled tt ->
     t = Done (Fulfilled client) /\ instance w' = Some client /\
     log w' = CacheManagerCreate client :: log w).
Proof.
  unfold create. simpl.
  destruct (constructor args) as [client | error] eqn:C;
    destruct (instance w) as [this |] eqn:I; destruct args as [a |]; simpl;
    try destruct (args_newInstance a) eqn:G; simpl;
    try destruct (createCache (env w) client) as [[] | error'] eqn:K; simpl.
  all: split; [eexists; reflexivity |].
  all: split; [intros e E; try discriminate E; done |].
  all: intros a' client' E1 E2 E3 E4; try discriminate;
       try (injection E1 as <-; congruence).
  all: injection E1 as <-; injection E3 as <-; try congruence; done.
Qed.

(** ** Subscriptions *)

(** X15. When the subscriber answers a subscription with an async
    iterator, the request resolves with that iterator as it is, also when
    [awaitDataCached] is set: no cachePromise is awaited, no resolve of
    the cache manager is called, and the parser and the subscriber are the
    only collaborators called. *)
Theorem subscription_yields_iterator (this : ClientHandl) (q : string)
    (opts : RequestOptions) (ctx : RequestContext) (w : World)
    (updated : UpdatedRequest) (d : OperationDefinition) (it : AsyncIterator) :
  fragments_rejected (fragments opts) = false ->
  updateRequest (env w) q opts = Fulfilled updated ->
  validate (_schema this) (up_ast updated) = [] ->
  getOperationDefinitions (up_ast updated) = [d] ->
  od_operation d = "subscription" ->
  _subscriptionsEnabled this = true ->
  subscriber (env w) (up_query updated) (up_ast updated)
    = Some (Fulfilled (AsyncIterable it)) ->
  run (_request this (QueryString q) (PlainOpts opts) ctx) w =
  (Done (Fulfilled (ResultIterator it)),
   logged (SubscriberResolve (up_query updated) (hashRequest (up_query updated))
             (up_ast updated) opts)
     (logged (UpdateRequest q opts ctx) w)).
Proof.
  intros Fr U V O S En Su.
  rewrite (run_request_dispatch this q opts ctx w updated d Fr U V O).
  unfold _resolveRequestOperation. cbn [operation]. rewrite S, En. simpl.
  unfold _subscription. simpl. rewrite Su. reflexivity.
Qed.

(** X16. When the subscriber rejects, or answers with a result that has
    errors, [_subscription] rejects with what the subscriber gave; the
    cache manager is not called: apart from the record of the call to the
    subscriber the world is as before. *)
Theorem subscription_error (this : ClientHandl) (request : string) (ast : DocumentNode)
    (opts : RequestOptions) (ctx : RequestContext) (w : World)
    (r : Outcome SubscribeResult) (error : Rejection) :
  subscriber (env w) request ast = Some r ->
  (r = Rejected error \/
   exists x, r = Fulfilled (Execution x) /\ xr_errors x = Some error) ->
  run (_subscription this request ast opts ctx) w =
  (Done (Rejected error),
   logged (SubscriberResolve request (hashRequest request) ast opts) w).
Proof.
  intros Su [-> | (x & -> & X)]; unfold _subscription; rewrite run_bind;
    cbn -[fmap]; rewrite Su; cbn -[fmap].
  - rewrite run_fmap, run_resolve. reflexivity.
  - rewrite X. reflexivity.
Qed.

(** X17. [_resolveSubscriber] refuses what is not a result before it
    touches the cache: a message that is not a plain object is rejected
    with a TypeError, a message whose [errors] is an array that starts
    with an Error is rejected with that array, and in both cases the world
    is as before. *)
Theorem resolveSubscriber_refuses (this : ClientHandl) (ast : DocumentNode)
    (opts : RequestOptions) (ctx : RequestContext) (w : World) :
  run (_resolveSubscriber this ast NotPlainObject opts ctx) w =
    (Done (Rejected (One (TypeError
       "Subscriber expected the result to be a JSON object."))), w) /\
  (forall r e es,
     xr_errors r = Some (Many (e :: es)) ->
     run (_resolveSubscriber this ast (PlainResult r) opts ctx) w =
       (Done (Rejected (Many (e :: es))), w)).
Proof.
  split.
  - unfold _resolveSubscriber. rewrite run_resolve. reflexivity.
  - intros r e es X. unfold _resolveSubscriber, subscriber_errors. rewrite X.
    rewrite run_resolve. reflexivity.
Qed.

(** ** Results *)

(** X18. [_resolve] rejects exactly when it is given an error.  A result
    it resolves with carries the data and the cachePromise it was given;
    when it has cacheMetadata, that has an entry at "query" and keeps
    every entry of the metadata given, which it is equal to when that had
    an entry at "query" already. *)
Theorem resolved_metadata_has_query (this : ClientHandl) (args : ResolveArgs)
    (w : World) :
  let (t, w') := run (_resolve this args) w in
  (forall error, ra_error args = Some error <-> t = Done (Rejected error)) /\
  (forall r,
     t = Done (Fulfilled r) ->
     rr_data r = ra_data args /\ rr_cachePromise r = ra_cachePromise args) /\
  (forall r cm,
     t = Done (Fulfilled r) -> rr_cacheMetadata r = Some cm ->
     is_Some (cm !! "query") /\
     exists given,
       ra_cacheMetadata args = Some given /\ given ⊆ cm /\
       (is_Some (given !! "query") -> cm = given)).
Proof.
  rewrite run_resolve. unfold resolution.
  destruct (ra_error args) as [error |]; simpl.
  - split; [| split; intros; discriminate].
    intros e. split; intros E; injection E as <-; reflexivity.
  - split; [intros e; split; intros E; discriminate E |].
    split; [intros r E; injection E as <-; done |].
    intros r cm E M. injection E as <-. simpl in M.
    destruct (ra_cacheMetadata args) as [given |]; [| discriminate M].
    simpl in M. injection M as <-. split.
    + unfold with_query. destruct (given !! "query") eqn:Q; [rewrite Q; eauto |].
      rewrite lookup_insert_eq. eauto.
    + exists given. split; [reflexivity |]. split; [apply with_query_subseteq |].
      intros [c Q]. unfold with_query. rewrite Q. reflexivity.
Qed.

(** X19. The cache-control a query answered in full is written with is
    never the empty string, provided the client's default query directive
    is not: an entry at "query" that prints nothing gives way to the
    default. *)
Theorem response_cacheControl_not_empty (this : ClientHandl) (cm : CacheMetadata) :
  truthy (dcc_query (_defaultCacheControls this)) = true ->
  truthy (response_cacheControl this cm) = true /\
  (forall c, cm !! "query" = Some c -> truthy (printCacheControl c) = true ->
     response_cacheControl this cm = printCacheControl c) /\
  (forall c, cm !! "query" = Some c -> printCacheControl c = "" ->
     response_cacheControl this cm = dcc_query (_defaultCacheControls this)) /\
  (cm !! "query" = None ->
   response_cacheControl this cm = dcc_query (_defaultCacheControls this)).
Proof.
  intros T. unfold response_cacheControl.
  destruct (cm !! "query") as [c |]; simpl; [| done].
  destruct (truthy (printCacheControl c)) eqn:P.
  - split; [exact P |]. split; [intros c' E _; injection E as <-; reflexivity |].
    split; [| discriminate].
    intros c' E Em. injection E as <-. rewrite Em in P. discriminate P.
  - split; [exact T |]. split; [| split; [| discriminate]].
    + intros c' E Tc. injection E as <-. rewrite Tc in P. discriminate P.
    + intros c' E _. reflexivity.
Qed.

(** ** Waiting for the cache *)

(** X20. A message of a subscription the cache manager resolves: with
    [awaitDataCached], [_resolveSubscriber] resolves only once the writes
    are acknowledged, and stays suspended until then; without it, it
    resolves at once.  The result never carries a cachePromise or a
    fingerprint. *)
Theorem subscriber_message_waits_for_cache (this : ClientHandl) (ast : DocumentNode)
    (r : ExecutionResult) (opts : RequestOptions) (ctx : RequestContext) (w : World)
    (n : Normalised) :
  subscriber_errors r = None ->
  normalise (env w) subscription (xr_data r)
    (createCacheMetadata (xr_cacheMetadata r) None) (stores w) = Fulfilled n ->
  let (t, w') := run (_resolveSubscriber this ast (PlainResult r) opts ctx) w in
  let resolved_with :=
    Done (Fulfilled
      {| rr_cacheMetadata := Some (with_query this subscription (n_cacheMetadata n));
         rr_data := Some (n_data n); rr_cachePromise := None; rr_queryHash := None |}) in
  (acknowledged (env w) = true ->
   t = resolved_with /\ deferreds w' !! deferredCount w = Some (Fulfilled tt)) /\
  (acknowledged (env w) = false -> awaitDataCached opts = false ->
   t = resolved_with /\ deferreds w' !! deferredCount w = None) /\
  (acknowledged (env w) = false -> awaitDataCached opts = true ->
   (forall x, t <> Done x) /\ deferreds w' !! deferredCount w = None).
Proof.
  intros S R. unfold _resolveSubscriber. rewrite S. simpl.
  unfold resolve_entities. simpl. rewrite R. simpl.
  destruct (acknowledged (env w)) eqn:K; simpl.
  - assert (D : settle (deferredCount w) (Fulfilled ())
                  (delete (deferredCount w) (deferreds w)) !! deferredCount w
                = Some (Fulfilled ())) by apply settle_unsettled, lookup_delete_eq.
    destruct (awaitDataCached opts); simpl; [rewrite D; simpl |];
      try rewrite run_resolve; simpl; repeat split; try done.
  - destruct (awaitDataCached opts); simpl.
    + rewrite lookup_delete_eq. simpl. repeat split; try done; apply lookup_delete_eq.
    + try rewrite run_resolve; simpl. repeat split; try done; apply lookup_delete_eq.
Qed.

(** A request for a mutation is [_mutation] on the parsed document, then
    the end of [_request]. *)
Lemma run_request_mutation (this : ClientHandl) (q : string) (opts : RequestOptions)
    (ctx : RequestContext) (w : World) (updated : UpdatedRequest)
    (d : OperationDefinition) :
  fragments_rejected (fragments opts) = false ->
  updateRequest (env w) q opts = Fulfilled updated ->
  validate (_schema this) (up_ast updated) = [] ->
  getOperationDefinitions (up_ast updated) = [d] ->
  od_operation d = "mutation" ->
  run (_request this (QueryString q) (PlainOpts opts) ctx) w =
  run (r ← outcome_map ResultObject <$>
             _mutation this (up_query updated) (up_ast updated) opts
               {| fieldTypeMap := up_fieldTypeMap updated; handlID := handlID ctx;
                  operation := "mutation"; operationName := default "" (od_name d) |};
       _request_finish opts r)
    (logged (UpdateRequest q opts ctx) w).
Proof.
  intros Fr U V O S.
  rewrite (run_request_dispatch this q opts ctx w updated d Fr U V O).
  unfold _resolveRequestOperation. cbn [operation]. rewrite S. reflexivity.
Qed.

(** X21. A request for a mutation the executor answers and the cache
    manager resolves: the caller gets the resolved data and cacheMetadata,
    with the query entry, no fingerprint and no cachePromise.  With
    [awaitDataCached] the request stays suspended until the writes are
    acknowledged; without it the request resolves although they are not. *)
Theorem mutation_request_resolves (this : ClientHandl) (q : string)
    (opts : RequestOptions) (ctx : RequestContext) (w : World)
    (updated : UpdatedRequest) (d : OperationDefinition) (r : ExecutorResult)
    (n : Normalised) :
  fragments_rejected (fragments opts) = false ->
  updateRequest (env w) q opts = Fulfilled updated ->
  validate (_schema this) (up_ast updated) = [] ->
  getOperationDefinitions (up_ast updated) = [d] ->
  od_operation d = "mutation" ->
  executor (env w) (Some (up_query updated)) (Some (up_ast updated))
    = Some (Fulfilled r) ->
  er_errors r = None ->
  normalise (env w) mutation (er_data r)
    (createCacheMetadata (er_cacheMetadata r) (er_headers r)) (stores w) = Fulfilled n ->
  let (t, w') := run (_request this (QueryString q) (PlainOpts opts) ctx) w in
  let resolved_with :=
    Done (Fulfilled (ResultObject
      {| rr_cacheMetadata := Some (with_query this mutation (n_cacheMetadata n));
         rr_data := Some (n_data n); rr_cachePromise := None; rr_queryHash := None |})) in
  (acknowledged (env w) = true \/ awaitDataCached opts = false -> t = resolved_with) /\
  (acknowledged (env w) = false -> awaitDataCached opts = true ->
   forall x, t <> Done x) /\
  requests w' = requests w.
Proof.
  intros Fr U V O S E N R.
  rewrite (run_request_mutation this q opts ctx w updated d Fr U V O S).
  rewrite run_bind, run_fmap. unfold _mutation.
  rewrite run_bind, (run_fetch _ _ _ _ (logged _ w) _ E). simpl. rewrite N. simpl.
  unfold resolve_entities. simpl. rewrite R. simpl.
  assert (D : settle (deferredCount w) (Fulfilled ())
                (delete (deferredCount w) (deferreds w)) !! deferredCount w
              = Some (Fulfilled ())) by apply settle_unsettled, lookup_delete_eq.
  destruct (acknowledged (env w)) eqn:K; simpl; try rewrite run_resolve; simpl;
    unfold _request_finish; simpl;
    destruct (awaitDataCached opts); simpl;
    try rewrite D; try rewrite lookup_delete_eq; simpl;
    repeat split; try done; intros [? | ?]; done.
Qed.

(** ** A query that is fetched *)

Lemma calls_one (kind : action -> bool) (before after : list action) (a : action)
    (w w' : World) :
  log w' = (after ++ a :: before ++ log w)%list ->
  kind a = true ->
  Forall (fun x => kind x = false) after ->
  Forall (fun x => kind x = false) before ->
  calls kind w' = a :: calls kind w.
Proof.
  intros E K A B. unfold calls. rewrite E. clear E.
  induction A as [| x l Hx _ IH]; simpl.
  - rewrite filter_cons_True by exact K. f_equal.
    induction B as [| y l Hy _ IH]; [reflexivity |].
    simpl. rewrite filter_cons_False; [exact IH | congruence].
  - rewrite filter_cons_False; [exact IH | congruence].
Qed.

(** X22. A query that misses the response cache, is not in flight and is
    left fields to fetch by the analyser: when the executor fails, and
    when it answers and the cache manager resolves the answer, the query
    settles and the registries are again what they were before it; the
    executor is called once, with what the analyser rewrote. *)
Theorem fetched_query_leaves_no_entry (this : ClientHandl) (request : string)
    (ast : DocumentNode) (opts : RequestOptions) (ctx : RequestContext) (w : World)
    (a : AnalyzeResult) (r : Outcome ExecutorResult) :
  truthy (hashRequest request) = true ->
  (run (_checkResponseCache (hashRequest request) ctx) w).1 = Done None ->
  active (requests w) !! hashRequest request = None ->
  pending (requests w) !! hashRequest request = None ->
  analyze (env w) (hashRequest request) ast (stores w) = Fulfilled a ->
  cachedData a = None ->
  executor (env w) (updatedQuery a) (updatedAST a) = Some r ->
  let (t, w') := run (_query this request ast opts ctx) w in
  (forall error,
     executor_error r = Some error ->
     t = Done (Rejected error) /\ requests w' = requests w /\ stores w' = stores w /\
     calls is_executor_call w' =
       ExecutorResolve (updatedQuery a) (updatedAST a) opts :: calls is_executor_call w) /\
  (forall x n,
     r = Fulfilled x -> er_errors x = None ->
     normalise (env w) query (er_data x)
       (createCacheMetadata (er_cacheMetadata x) (er_headers x)) (stores w)
       = Fulfilled n ->
     t = Done (Fulfilled
           {| rr_cacheMetadata := Some (with_query this query (n_cacheMetadata n));
              rr_data := Some (n_data n);
              rr_cachePromise := Some (deferredCount w);
              rr_queryHash := Some (hashRequest request) |}) /\
     requests w' = requests w /\
     calls is_executor_call w' =
       ExecutorResolve (updatedQuery a) (updatedAST a) opts :: calls is_executor_call w).
Proof.
  intros T M A P E D X.
  rewrite (run_query_miss this request ast opts ctx w a M A E).
  unfold _query_analyzed. simpl. rewrite D.
  assert (Rq : forall pm,
            {| active := delete (hashRequest request)
                           (<[hashRequest request := request]> (active (requests w)));
               pending := pm |}
            = {| active := active (requests w); pending := pm |}).
  { intros pm. rewrite delete_insert_id by exact A. reflexivity. }
  assert (C : Forall (fun x => is_executor_call x = false)
                (CacheAnalyze (hashRequest request) ast ctx
                   :: checked_log (hashRequest request) w)).
  { constructor; [reflexivity |]. apply checked_log_other; reflexivity. }
  unfold _query_fetch.
  match goal with
  | |- context [run (_fetch ?q ?d ?o ?c ≫= ?f) ?x] =>
      rewrite (run_bind (_fetch q d o c) f x), (run_fetch q d o c x r X)
  end.
  assert (Err : forall error w1,
            w1 = logged (ExecutorResolve (updatedQuery a) (updatedAST a) opts)
                   (next_deferred
                      (logged (CacheAnalyze (hashRequest request) ast ctx)
                         (set_active
                            (<[hashRequest request := request]> (active (requests w)))
                            (set_log (checked_log (hashRequest request) w ++ log w) w)))) ->
            let w' := resolved this
                        {| ra_cacheMetadata := None; ra_cachePromise := None;
                           ra_data := None; ra_error := Some error;
                           ra_operation := query;
                           ra_queryHash := Some (hashRequest request);
                           ra_resolvePending := true |} w1 in
            requests w' = requests w /\ stores w' = stores w /\
            calls is_executor_call w' =
              ExecutorResolve (updatedQuery a) (updatedAST a) opts
                :: calls is_executor_call w).
  { intros error w1 ->. unfold resolved, drained. simpl. rewrite T, P. simpl.
    rewrite Rq. split; [destruct (requests w); reflexivity |].
    split; [reflexivity |].
    eapply (calls_one _ (CacheAnalyze _ _ _ :: checked_log _ w) []);
      [reflexivity | reflexivity | constructor | exact C]. }
  destruct r as [x | error]; simpl; [destruct (er_errors x) as [errors |] eqn:N |];
    simpl.
  - rewrite run_resolve. split.
    + intros error R. injection R as <-. split; [reflexivity |]. apply Err. reflexivity.
    + intros x' n E' N'. injection E' as <-. rewrite N in N'. discriminate N'.
  - unfold resolve_query. simpl.
    destruct (normalise (env w) query _ _ _) as [n |] eqn:R; simpl.
    + destruct (acknowledged (env w)); simpl; rewrite run_resolve;
        (split; [intros error R'; discriminate R' |]);
        intros x' n' E' _ R'; injection E' as <-; rewrite R in R';
        injection R' as <-;
        unfold resolved, resolution, drained; simpl; rewrite T, P; simpl; rewrite Rq;
        (split; [reflexivity |]); (split; [destruct (requests w); reflexivity |]);
        first
          [ eapply (calls_one _ (CacheAnalyze _ _ _ :: checked_log _ w) []);
            [reflexivity | reflexivity | constructor | exact C]
          | eapply (calls_one _ (CacheAnalyze _ _ _ :: checked_log _ w) [_]);
            [reflexivity | reflexivity | repeat constructor | exact C] ].
    + split; [intros error R'; discriminate R' |].
      intros x' n' E' _ R'. injection E' as <-. rewrite R in R'. discriminate R'.
  - rewrite run_resolve. split.
    + intros error' R. injection R as <-. split; [reflexivity |]. apply Err. reflexivity.
    + intros x' n E'. discriminate E'.
Qed.

(** X23. When the cache manager rejects the answer of the executor,
    [_query] rejects with that error and does not reach [_resolve]: the
    fingerprint stays in the active registry, the pending callers stay in
    the pending registry with their promises unsettled, and the stores are
    as before. *)
Theorem cache_rejection_strands_callers (this : ClientHandl) (queryHash : string)
    (a : AnalyzeResult) (deferred : nat) (opts : RequestOptions) (ctx : RequestContext)
    (w : World) (r : ExecutorResult) (error : Rejection) :
  executor (env w) (updatedQuery a) (updatedAST a) = Some (Fulfilled r) ->
  er_errors r = None ->
  normalise (env w) query (er_data r)
    (createCacheMetadata (er_cacheMetadata r) (er_headers r)) (stores w) = Rejected error ->
  let (t, w') := run (_query_fetch this queryHash a deferred opts ctx) w in
  t = Done (Rejected error) /\
  requests w' = requests w /\ promises w' = promises w /\ stores w' = stores w /\
  calls is_executor_call w' =
    ExecutorResolve (updatedQuery a) (updatedAST a) opts :: calls is_executor_call w.
Proof.
  intros E N R. unfold _query_fetch.
  rewrite run_bind, (run_fetch _ _ _ _ _ _ E). simpl. rewrite N. simpl.
  unfold resolve_query. simpl. rewrite R. simpl. done.
Qed.

End MoreFacts.

(** * The properties at the small instance *)

Section DemoFacts.
#[local] Existing Instance Demo.imports.

(** Equations between closed terms, by evaluation. *)
Ltac evaluate :=
  lazymatch goal with
  | |- ?a = ?b => exact (@eq_refl _ b <: a = b)
  end.

Lemma executor_error_drains_pending_witness :
  let (t, w') :=
    run (_query_fetch Demo.client (hashRequest Demo.user) Demo.partial 0 Demo.opts
           (Demo.context "query")) Demo.rejected in
  t = Done (Rejected Demo.network_error) /\
  Forall (fun p => promises w' !! p = Some (Rejected Demo.network_error)) [0; 1] /\
  active (requests w') !! hashRequest Demo.user = None /\
  pending (requests w') !! hashRequest Demo.user = None.
Proof.
  apply (executor_error_drains_pending Demo.client Demo.user Demo.partial 0 Demo.opts
           (Demo.context "query") Demo.rejected (Rejected Demo.network_error)
           Demo.network_error [0; 1]).
  - reflexivity.
  - reflexivity.
  - reflexivity.
  - evaluate.
  - repeat constructor.
Defined.

Lemma valid_response_short_circuits_witness :
  let (t, w') :=
    run (_query Demo.client Demo.user (Demo.parse Demo.user) Demo.opts
           (Demo.context "query")) Demo.cached in
  let rehydrated := rehydrateCacheMetadata (rec_cacheMetadata (entry_value Demo.stored)) in
  (exists cm,
     t = Done (Fulfilled
           {| rr_cacheMetadata := Some cm;
              rr_data := Some (rec_data (entry_value Demo.stored));
              rr_cachePromise := None;
              rr_queryHash := truthy_hash (Some (hashRequest Demo.user)) |}) /\
     cm = with_query Demo.client query rehydrated /\
     rehydrated ⊆ cm /\
     (is_Some (rehydrated !! "query") -> cm = rehydrated)) /\
  log w' = ResponsesGet (hashRequest Demo.user) :: ResponsesHas (hashRequest Demo.user)
             :: log Demo.cached /\
  calls is_executor_call w' = calls is_executor_call Demo.cached /\
  stores w' = stores Demo.cached /\ requests w' = requests Demo.cached.
Proof.
  apply (valid_response_short_circuits Demo.client Demo.user (Demo.parse Demo.user)
           Demo.opts (Demo.context "query") Demo.cached Demo.stored).
  - evaluate.
  - reflexivity.
  - reflexivity.
Defined.

Lemma full_hit_writes_response_witness :
  let (t, w') :=
    run (_query Demo.client Demo.user (Demo.parse Demo.user) Demo.opts
           (Demo.context "query")) Demo.answered in
  let value :=
    {| rec_cacheMetadata := dehydrateCacheMetadata {[ "query" := "public, max-age=30" ]};
       rec_data := "{user:{id:1,name:Ada}}" |} in
  let cacheControl :=
    match ({[ "query" := "public, max-age=30" ]} : CacheMetadata) !! "query" with
    | Some c =>
        if truthy (printCacheControl c) then printCacheControl c
        else dcc_query (_defaultCacheControls Demo.client)
    | None => dcc_query (_defaultCacheControls Demo.client)
    end in
  head (log w') =
    Some (ResponsesSet (hashRequest Demo.user) value cacheControl (tag Demo.opts)) /\
  (write_fault (env Demo.answered) (hashRequest Demo.user) = None ->
   responses (stores w') !! hashRequest Demo.user =
     Some {| entry_value := value; entry_cacheControl := cacheControl;
             entry_tag := tag Demo.opts |}) /\
  t = Done (Fulfilled
        {| rr_cacheMetadata :=
             Some (with_query Demo.client query {[ "query" := "public, max-age=30" ]});
           rr_data := Some "{user:{id:1,name:Ada}}";
           rr_cachePromise := Some (deferredCount Demo.answered);
           rr_queryHash := truthy_hash (Some (hashRequest Demo.user)) |}) /\
  calls is_executor_call w' = calls is_executor_call Demo.answered.
Proof.
  apply (full_hit_writes_response Demo.client Demo.user (Demo.parse Demo.user)
           Demo.opts (Demo.context "query") Demo.answered Demo.hit
           "{user:{id:1,name:Ada}}" {[ "query" := "public, max-age=30" ]}).
  - evaluate.
  - reflexivity.
  - reflexivity.
  - reflexivity.
  - reflexivity.
Defined.

Lemma failed_write_resolves_cachePromise_witness :
  let (t, w') :=
    run (_query Demo.client Demo.user (Demo.parse Demo.user) Demo.opts
           (Demo.context "query")) Demo.refusing in
  t = Done (Fulfilled
        {| rr_cacheMetadata :=
             Some (with_query Demo.client query {[ "query" := "public, max-age=30" ]});
           rr_data := Some "{user:{id:1,name:Ada}}";
           rr_cachePromise := Some (deferredCount Demo.refusing);
           rr_queryHash := truthy_hash (Some (hashRequest Demo.user)) |}) /\
  deferreds w' !! deferredCount Demo.refusing = Some (Fulfilled tt).
Proof.
  apply (failed_write_resolves_cachePromise Demo.client Demo.user (Demo.parse Demo.user)
           Demo.opts (Demo.context "query") Demo.refusing Demo.hit
           "{user:{id:1,name:Ada}}" {[ "query" := "public, max-age=30" ]}
           Demo.store_error).
  - evaluate.
  - reflexivity.
  - reflexivity.
  - reflexivity.
  - reflexivity.
  - reflexivity.
Defined.

(** C6, as stated, fails: the write of the response record is refused, the
    caller is resolved with the cached data, and the cachePromise of that
    result is resolved, not rejected. *)
Lemma failed_write_rejects_cachePromise_counterexample :
  let r :=
    run (_query Demo.client Demo.user (Demo.parse Demo.user) Demo.opts
           (Demo.context "query")) Demo.refusing in
  write_fault (env Demo.refusing) (hashRequest Demo.user) = Some Demo.store_error /\
  r.1 = Done (Fulfilled
          {| rr_cacheMetadata := Some {[ "query" := "public, max-age=30" ]};
             rr_data := Some "{user:{id:1,name:Ada}}";
             rr_cachePromise := Some 0;
             rr_queryHash := Some "#{ user { id name } }" |}) /\
  ~ (exists error, deferreds r.2 !! 0 = Some (Rejected error)).
Proof.
  assert (D : deferreds
                (run (_query Demo.client Demo.user (Demo.parse Demo.user) Demo.opts
                        (Demo.context "query")) Demo.refusing).2 !! 0
              = Some (Fulfilled tt)) by evaluate.
  split; [reflexivity |]. split; [evaluate |].
  intros [error E]. rewrite D in E. discriminate E.
Qed.

(** Scenario: one request in flight, two callers pending on it. *)
Example in_flight_registries :
  active (requests Demo.in_flight) !! hashRequest Demo.user = Some Demo.user /\
  pending (requests Demo.in_flight) !! hashRequest Demo.user = Some [0; 1] /\
  calls is_executor_call Demo.in_flight = [].
Proof. repeat split; evaluate. Qed.

(** Scenario: the first request is suspended at the executor; when the
    executor rejects, the three callers get the same rejection, the
    registries are empty and the executor was called once. *)
Example suspended_at_executor :
  (run (_query Demo.client Demo.user (Demo.parse Demo.user) Demo.opts
          (Demo.context "query")) (Demo.start Demo.quiet)).1
  = _query_fetch Demo.client (hashRequest Demo.user) Demo.partial 0 Demo.opts
      (Demo.context "query").
Proof. evaluate. Qed.

Example error_draining :
  let r :=
    run (_query_fetch Demo.client (hashRequest Demo.user) Demo.partial 0 Demo.opts
           (Demo.context "query")) Demo.rejected in
  r.1 = Done (Rejected Demo.network_error) /\
  (run (call (AwaitPromise 0)) r.2).1 = Done (Rejected Demo.network_error) /\
  (run (call (AwaitPromise 1)) r.2).1 = Done (Rejected Demo.network_error) /\
  requests r.2 = {| active := ∅; pending := ∅ |} /\
  length (calls is_executor_call r.2) = 1.
Proof. repeat split; evaluate. Qed.

Example constructed_client : constructor (PlainArgs Demo.args) = Fulfilled Demo.client.
Proof. reflexivity. Qed.

(** A mutation writes a data entity and leaves the responses store empty. *)
Example mutation_updates_entities :
  let w' :=
    (run (_mutation Demo.client Demo.addUser (Demo.parse Demo.addUser) Demo.opts
            (Demo.context "mutation")) Demo.executing).2 in
  dataEntities (stores w') !! "User:2" = Some "{addUser:{id:2}}" /\
  dataEntities (stores Demo.executing) !! "User:2" = None /\
  responses (stores w') = ∅.
Proof. repeat split; evaluate. Qed.

(** C5, as stated, fails: [awaitDataCached] is not set, [_mutation] hands
    [_request] a result with a cachePromise, and the result the request
    returns carries none. *)
Lemma request_keeps_cachePromise_counterexample :
  let inner :=
    run (_mutation Demo.client Demo.addUser (Demo.parse Demo.addUser) Demo.opts
           (Demo.context "mutation"))
        (logged (UpdateRequest Demo.addUser Demo.opts (Demo.context ""))
           Demo.executing) in
  let returned :=
    run (request Demo.client "1" (QueryString Demo.addUser) (PlainOpts Demo.opts))
        Demo.executing in
  awaitDataCached Demo.opts = false /\
  inner.1 = Done (Fulfilled
              {| rr_cacheMetadata :=
                   Some {[ "query" := "max-age=0, s-maxage=0, no-cache, no-store" ]};
                 rr_data := Some "{addUser:{id:2}}";
                 rr_cachePromise := Some 0;
                 rr_queryHash := None |}) /\
  returned.1 = Done (Fulfilled (ResultObject
                 {| rr_cacheMetadata :=
                      Some {[ "query" := "max-age=0, s-maxage=0, no-cache, no-store" ]};
                    rr_data := Some "{addUser:{id:2}}";
                    rr_cachePromise := None;
                    rr_queryHash := None |})) /\
  ~ (exists r cachePromise,
       returned.1 = Done (Fulfilled (ResultObject r)) /\
       rr_cachePromise r = Some cachePromise).
Proof.
  assert (R : (run (request Demo.client "1" (QueryString Demo.addUser)
                      (PlainOpts Demo.opts)) Demo.executing).1
              = Done (Fulfilled (ResultObject
                  {| rr_cacheMetadata :=
                       Some {[ "query" := "max-age=0, s-maxage=0, no-cache, no-store" ]};
                     rr_data := Some "{addUser:{id:2}}";
                     rr_cachePromise := None;
                     rr_queryHash := None |})))
    by evaluate.
  split; [reflexivity |]. split; [evaluate |]. split; [exact R |].
  intros (r & cachePromise & E & P). rewrite R in E. injection E as <-.
  discriminate P.
Qed.

Lemma request_strips_cachePromise_witness :
  rr_cachePromise
    {| rr_cacheMetadata :=
         Some {[ "query" := "max-age=0, s-maxage=0, no-cache, no-store" ]};
       rr_data := Some "{addUser:{id:2}}";
       rr_cachePromise := None;
       rr_queryHash := None |} = None.
Proof.
  apply (proj2 (proj2 (request_strips_cachePromise Demo.opts
                         {| rr_cacheMetadata := None; rr_data := None;
                            rr_cachePromise := None; rr_queryHash := None |}
                         Demo.executing))
           Demo.client (QueryString Demo.addUser) (PlainOpts Demo.opts)
           (Demo.context "")
           _
           (run (request Demo.client "1" (QueryString Demo.addUser)
                   (PlainOpts Demo.opts)) Demo.executing).2).
  evaluate.
Defined.

(** C7, as stated, fails: the default directive of a client constructed
    without [defaultCacheControls] is not [max-age=0, no-cache, no-store],
    neither for mutations nor for subscriptions, and the query entry a
    mutation's result gains is parsed from the directive the client has. *)
Lemma default_directive_counterexample :
  constructor (PlainArgs Demo.args) = Fulfilled Demo.client /\
  args_defaultCacheControls Demo.args = None /\
  dcc_mutation (_defaultCacheControls Demo.client) <> "max-age=0, no-cache, no-store" /\
  dcc_subscription (_defaultCacheControls Demo.client) <> "max-age=0, no-cache, no-store" /\
  (run (_mutation Demo.client Demo.addUser (Demo.parse Demo.addUser) Demo.opts
          (Demo.context "mutation")) Demo.executing).1
  = Done (Fulfilled
      {| rr_cacheMetadata :=
           Some {[ "query" :=
                     parseCacheControl "max-age=0, s-maxage=0, no-cache, no-store" ]};
         rr_data := Some "{addUser:{id:2}}";
         rr_cachePromise := Some 0;
         rr_queryHash := None |}).
Proof.
  split; [reflexivity |]. split; [reflexivity |].
  split; [discriminate |]. split; [discriminate |].
  evaluate.
Qed.

(** A mutation of a client given a directive for queries only: the query
    entry its result gains is parsed from the directive the initialiser has
    for mutations. *)
Lemma default_query_cacheability_witness :
  (exists res,
     (run (_mutation Demo.tuned Demo.addUser (Demo.parse Demo.addUser) Demo.opts
             (Demo.context "mutation")) Demo.executing).1 = Done (Fulfilled res) /\
     rr_cacheMetadata res =
       Some (<["query" :=
                 parseCacheControl (dcc_mutation (_defaultCacheControls Demo.tuned))]>
               (n_cacheMetadata Demo.normalised))) /\
  dcc_query (_defaultCacheControls Demo.tuned) = "public, max-age=5" /\
  dcc_mutation (_defaultCacheControls Demo.tuned)
    = "max-age=0, s-maxage=0, no-cache, no-store" /\
  dcc_subscription (_defaultCacheControls Demo.tuned)
    = "max-age=0, s-maxage=0, no-cache, no-store".
Proof.
  assert (Q : n_cacheMetadata Demo.normalised !! "query" = None) by reflexivity.
  destruct (default_query_cacheability Demo.tuned Demo.opts (Demo.context "mutation")
              Demo.executing Demo.normalised Q) as (M & _ & D).
  split.
  - exact (M Demo.addUser (Demo.parse Demo.addUser) Demo.executed
             eq_refl eq_refl eq_refl).
  - split; [reflexivity |]. exact (D Demo.tuned_args eq_refl).
Defined.

(** C8, as stated, fails: a document of two anonymous operations parses
    and holds two operation definitions, and the request rejects with the
    errors of the validation, not with the error kept for several
    operations. *)
Lemma multiple_operations_counterexample :
  let r :=
    run (request Demo.client "1" (QueryString "{ a } { b }") (PlainOpts Demo.opts))
        (Demo.start Demo.quiet) in
  updateRequest Demo.quiet "{ a } { b }" Demo.opts
    = Fulfilled (Demo.updated "{ a } { b }") /\
  length (getOperationDefinitions (Demo.parse "{ a } { b }")) = 2 /\
  r.1 = Done (Rejected (Many
          [MkError "GraphQLError"
             "This anonymous operation must be the only defined operation."])) /\
  r.1 <> Done (Rejected (One (TypeError
          "Request expected to process one operation, but got multiple."))).
Proof.
  assert (R : (run (request Demo.client "1" (QueryString "{ a } { b }")
                      (PlainOpts Demo.opts)) (Demo.start Demo.quiet)).1
              = Done (Rejected (Many
                  [MkError "GraphQLError"
                     "This anonymous operation must be the only defined operation."])))
    by evaluate.
  split; [reflexivity |]. split; [reflexivity |]. split; [exact R |].
  rewrite R. discriminate.
Qed.

Lemma multiple_operations_rejected_witness :
  let (t, w') :=
    run (_request Demo.client (QueryString "query A { a } query B { b }")
           (PlainOpts Demo.opts) (Demo.context "")) (Demo.start Demo.quiet) in
  (validate (_schema Demo.client) (up_ast (Demo.updated "query A { a } query B { b }"))
     = [] ->
   t = Done (Rejected (One (TypeError
         "Request expected to process one operation, but got multiple.")))) /\
  (forall e es,
     validate (_schema Demo.client) (up_ast (Demo.updated "query A { a } query B { b }"))
       = e :: es ->
     t = Done (Rejected (Many (e :: es)))) /\
  w' = logged (UpdateRequest "query A { a } query B { b }" Demo.opts (Demo.context ""))
         (Demo.start Demo.quiet) /\
  calls is_executor_call w' = calls is_executor_call (Demo.start Demo.quiet) /\
  calls is_subscriber_call w' = calls is_subscriber_call (Demo.start Demo.quiet) /\
  calls is_cache_resolve w' = calls is_cache_resolve (Demo.start Demo.quiet).
Proof.
  apply (multiple_operations_rejected Demo.client "query A { a } query B { b }"
           Demo.opts (Demo.context "") (Demo.start Demo.quiet)
           (Demo.updated "query A { a } query B { b }")).
  - reflexivity.
  - reflexivity.
  - vm_compute. lia.
Defined.

(** The document of two named operations validates, and the request is
    rejected with the error kept for several operations. *)
Example two_named_operations :
  validate (_schema Demo.client) (up_ast (Demo.updated "query A { a } query B { b }")) = [] /\
  (run (request Demo.client "1" (QueryString "query A { a } query B { b }")
          (PlainOpts Demo.opts)) (Demo.start Demo.quiet)).1
  = Done (Rejected (One (TypeError
      "Request expected to process one operation, but got multiple."))).
Proof. split; evaluate. Qed.

Lemma subscription_disabled_rejected_witness :
  let (t, w') :=
    run (_request Demo.client (QueryString "subscription { userAdded }")
           (PlainOpts Demo.opts) (Demo.context "")) (Demo.start Demo.quiet) in
  t = Done (Rejected (One (Error
        "Request expected the operation to be 'query', 'mutation' or 'subscription'."))) /\
  w' = logged (UpdateRequest "subscription { userAdded }" Demo.opts (Demo.context ""))
         (Demo.start Demo.quiet) /\
  calls is_subscriber_call w' = calls is_subscriber_call (Demo.start Demo.quiet).
Proof.
  assert (E : _subscriptionsEnabled Demo.client = false) by reflexivity.
  apply (proj2 (subscription_disabled_rejected Demo.client Demo.opts
                  (Demo.start Demo.quiet) E)
           "subscription { userAdded }" (Demo.context "")
           (Demo.updated "subscription { userAdded }") (Demo.anonymous "subscription")).
  - reflexivity.
  - reflexivity.
  - reflexivity.
  - reflexivity.
  - reflexivity.
Defined.

Lemma create_reuses_instance_witness :
  run (create (PlainArgs Demo.other_args)) Demo.created
  = (Done (Fulfilled Demo.client), Demo.created).
Proof.
  pose proof (create_reuses_instance (PlainArgs Demo.other_args) Demo.created) as H.
  destruct (run (create (PlainArgs Demo.other_args)) Demo.created) as [t w'].
  destruct H as (_ & H & _).
  destruct (H Demo.client Demo.other_args) as [-> ->]; reflexivity.
Defined.

(** ** The further properties at the small instance *)

(** Two anonymous queries do not validate; a parser that refuses rejects
    the request with its error. *)
Lemma request_parse_or_validation_failure_witness :
  (let (t, w') :=
     run (_request Demo.client (QueryString "{ a } { b }") (PlainOpts Demo.opts)
            (Demo.context "")) (Demo.start Demo.quiet) in
   t = Done (Rejected (Many (Demo.lone_anonymous (Demo.parse "{ a } { b }")))) /\
   w' = logged (UpdateRequest "{ a } { b }" Demo.opts (Demo.context ""))
          (Demo.start Demo.quiet)) /\
  (let (t, w') :=
     run (_request Demo.client (QueryString Demo.user) (PlainOpts Demo.opts)
            (Demo.context "")) (Demo.start (Demo.refusing_parser Demo.quiet)) in
   t = Done (Rejected Demo.syntax_error) /\
   w' = logged (UpdateRequest Demo.user Demo.opts (Demo.context ""))
          (Demo.start (Demo.refusing_parser Demo.quiet))).
Proof.
  split.
  - generalize (request_parse_or_validation_failure Demo.client "{ a } { b }" Demo.opts
                  (Demo.context "") (Demo.start Demo.quiet) eq_refl).
    destruct (run _ _) as [t w']. intros [_ H].
    exact (H (Demo.updated "{ a } { b }") _ _ eq_refl eq_refl).
  - generalize (request_parse_or_validation_failure Demo.client Demo.user Demo.opts
                  (Demo.context "") (Demo.start (Demo.refusing_parser Demo.quiet))
                  eq_refl).
    destruct (run _ _) as [t w']. intros [H _].
    exact (H Demo.syntax_error eq_refl).
Defined.

(** The executor answers the request in flight: the two pending callers
    get what the original caller gets. *)
Lemma fetched_result_is_shared_witness :
  let (t, w') :=
    run (_query_fetch Demo.client (hashRequest Demo.user) Demo.partial 0 Demo.opts
           (Demo.context "query")) Demo.fetched in
  let cacheMetadata := with_query Demo.client query (n_cacheMetadata Demo.normalised) in
  t = Done (Fulfilled
        {| rr_cacheMetadata := Some cacheMetadata;
           rr_data := Some (n_data Demo.normalised);
           rr_cachePromise := Some 0;
           rr_queryHash := Some (hashRequest Demo.user) |}) /\
  Forall (fun p =>
            promises w' !! p =
            Some (Fulfilled (shared_result (hashRequest Demo.user) cacheMetadata
                               (n_data Demo.normalised))))
    [0; 1] /\
  active (requests w') !! hashRequest Demo.user = None /\
  pending (requests w') !! hashRequest Demo.user = None /\
  calls is_executor_call w' =
    ExecutorResolve (updatedQuery Demo.partial) (updatedAST Demo.partial) Demo.opts
      :: calls is_executor_call Demo.fetched.
Proof.
  apply (fetched_result_is_shared Demo.client Demo.user Demo.partial 0 Demo.opts
           (Demo.context "query") Demo.fetched Demo.executed Demo.normalised [0; 1]).
  - reflexivity.
  - reflexivity.
  - reflexivity.
  - reflexivity.
  - evaluate.
  - repeat constructor.
Defined.

(** Rejecting the request [user] leaves a mutation's fingerprint alone. *)
Lemma resolve_leaves_the_rest_witness :
  let (t, w') := run (_resolve Demo.client Demo.rejection) Demo.rejected in
  active (requests w') !! hashRequest Demo.addUser
    = active (requests Demo.rejected) !! hashRequest Demo.addUser /\
  pending (requests w') !! hashRequest Demo.addUser
    = pending (requests Demo.rejected) !! hashRequest Demo.addUser /\
  (forall p o, promises Demo.rejected !! p = Some o -> promises w' !! p = Some o) /\
  (forall p queryHash,
     ra_queryHash Demo.rejection = Some queryHash ->
     p ∉ default [] (pending (requests Demo.rejected) !! queryHash) ->
     promises w' !! p = promises Demo.rejected !! p) /\
  stores w' = stores Demo.rejected.
Proof.
  apply (resolve_leaves_the_rest Demo.client Demo.rejection Demo.rejected
           (hashRequest Demo.addUser)).
  intros E. discriminate E.
Defined.

(** A fourth caller of the request in flight joins the two that wait. *)
Lemma pending_caller_waits_witness :
  let (t, w') :=
    run (_query Demo.client Demo.user (Demo.parse Demo.user) Demo.opts
           (Demo.context "query")) Demo.in_flight in
  pending (requests w') !! hashRequest Demo.user =
    Some (default [] (pending (requests Demo.in_flight) !! hashRequest Demo.user)
            ++ [promiseCount Demo.in_flight])%list /\
  active (requests w') = active (requests Demo.in_flight) /\
  stores w' = stores Demo.in_flight /\
  calls is_analyze_call w' = calls is_analyze_call Demo.in_flight /\
  calls is_executor_call w' = calls is_executor_call Demo.in_flight /\
  (forall w2, promises w2 !! promiseCount Demo.in_flight = None -> run t w2 = (t, w2)) /\
  (forall w2 o, promises w2 !! promiseCount Demo.in_flight = Some o ->
     run t w2 = (Done o, w2)).
Proof.
  apply (pending_caller_waits Demo.client Demo.user (Demo.parse Demo.user) Demo.opts
           (Demo.context "query") Demo.in_flight Demo.user).
  - evaluate.
  - evaluate.
Defined.

(** The analyser fails: the request is rejected and stays active. *)
Lemma analyse_rejection_leaves_active_witness :
  let (t, w') :=
    run (_query Demo.client Demo.user (Demo.parse Demo.user) Demo.opts
           (Demo.context "query")) (Demo.start (Demo.failing_analysis Demo.quiet)) in
  t = Done (Rejected Demo.analyser_error) /\
  active (requests w') !! hashRequest Demo.user = Some Demo.user /\
  pending (requests w') = pending (requests (Demo.start (Demo.failing_analysis Demo.quiet))) /\
  stores w' = stores (Demo.start (Demo.failing_analysis Demo.quiet)) /\
  calls is_executor_call w' =
    calls is_executor_call (Demo.start (Demo.failing_analysis Demo.quiet)).
Proof.
  apply (analyse_rejection_leaves_active Demo.client Demo.user (Demo.parse Demo.user)
           Demo.opts (Demo.context "query") (Demo.start (Demo.failing_analysis Demo.quiet))
           Demo.analyser_error).
  - evaluate.
  - reflexivity.
  - reflexivity.
Defined.

(** The executor rejects a mutation. *)
Lemma mutation_executor_error_witness :
  run (_mutation Demo.client Demo.addUser (Demo.parse Demo.addUser) Demo.opts
         (Demo.context "mutation"))
    (Demo.start (Demo.answering (Rejected Demo.network_error) Demo.quiet)) =
  (Done (Rejected Demo.network_error),
   logged (ExecutorResolve (Some Demo.addUser) (Some (Demo.parse Demo.addUser)) Demo.opts)
     (Demo.start (Demo.answering (Rejected Demo.network_error) Demo.quiet))).
Proof.
  apply (mutation_executor_error Demo.client Demo.addUser (Demo.parse Demo.addUser)
           Demo.opts (Demo.context "mutation")
           (Demo.start (Demo.answering (Rejected Demo.network_error) Demo.quiet))
           (Rejected Demo.network_error) Demo.network_error).
  - reflexivity.
  - reflexivity.
Defined.

(** The executor rejects the query in flight. *)
Lemma query_executor_error_writes_nothing_witness :
  let (t, w') :=
    run (_query_fetch Demo.client (hashRequest Demo.user) Demo.partial 0 Demo.opts
           (Demo.context "query")) Demo.rejected in
  t = Done (Rejected Demo.network_error) /\
  stores w' = stores Demo.rejected /\ deferreds w' = deferreds Demo.rejected /\
  log w' = ExecutorResolve (updatedQuery Demo.partial) (updatedAST Demo.partial) Demo.opts
             :: log Demo.rejected /\
  calls is_cache_resolve w' = calls is_cache_resolve Demo.rejected.
Proof.
  apply (query_executor_error_writes_nothing Demo.client (hashRequest Demo.user)
           Demo.partial 0 Demo.opts (Demo.context "query") Demo.rejected
           (Rejected Demo.network_error) Demo.network_error).
  - reflexivity.
  - reflexivity.
Defined.

(** The query the analyser answered in full, asked twice. *)
Lemma answered_query_is_replayed_witness :
  let (first, w1) :=
    run (_query Demo.client Demo.user (Demo.parse Demo.user) Demo.opts
           (Demo.context "query")) Demo.answered in
  let (second, w2) :=
    run (_query Demo.client Demo.user (Demo.parse Demo.user) Demo.opts
           (Demo.context "query")) w1 in
  first = Done (Fulfilled
            {| rr_cacheMetadata :=
                 Some (with_query Demo.client query {[ "query" := "public, max-age=30" ]});
               rr_data := Some "{user:{id:1,name:Ada}}";
               rr_cachePromise := Some (deferredCount Demo.answered);
               rr_queryHash := truthy_hash (Some (hashRequest Demo.user)) |}) /\
  second = Done (Fulfilled
             {| rr_cacheMetadata :=
                  Some (with_query Demo.client query {[ "query" := "public, max-age=30" ]});
                rr_data := Some "{user:{id:1,name:Ada}}";
                rr_cachePromise := None;
                rr_queryHash := truthy_hash (Some (hashRequest Demo.user)) |}) /\
  log w2 = ResponsesGet (hashRequest Demo.user) :: ResponsesHas (hashRequest Demo.user)
             :: log w1 /\
  stores w2 = stores w1 /\ requests w2 = requests w1.
Proof.
  apply (answered_query_is_replayed Demo.client Demo.user (Demo.parse Demo.user)
           Demo.opts (Demo.context "query") Demo.answered Demo.hit
           "{user:{id:1,name:Ada}}" {[ "query" := "public, max-age=30" ]}).
  - evaluate.
  - reflexivity.
  - reflexivity.
  - reflexivity.
  - reflexivity.
  - reflexivity.
  - reflexivity.
  - evaluate.
  - reflexivity.
Defined.

Lemma answered_query_is_observable_witness :
  let w1 :=
    (run (_query Demo.client Demo.user (Demo.parse Demo.user) Demo.opts
            (Demo.context "query")) Demo.answered).2 in
  (run (getResponseCacheEntry (hashRequest Demo.user)) w1).1 =
    Done (Fulfilled (Some
      {| rce_cacheMetadata :=
           createCacheMetadata
             (Some (dehydrateCacheMetadata {[ "query" := "public, max-age=30" ]})) None;
         rce_data := "{user:{id:1,name:Ada}}" |})) /\
  (responses (stores Demo.answered) !! hashRequest Demo.user = None ->
   (run getResponseCacheSize w1).1 =
     Done (Fulfilled (S (size (responses (stores Demo.answered)))))) /\
  (forall entry, responses (stores Demo.answered) !! hashRequest Demo.user = Some entry ->
   (run getResponseCacheSize w1).1 =
     Done (Fulfilled (size (responses (stores Demo.answered))))).
Proof.
  apply (answered_query_is_observable Demo.client Demo.user (Demo.parse Demo.user)
           Demo.opts (Demo.context "query") Demo.answered Demo.hit
           "{user:{id:1,name:Ada}}" {[ "query" := "public, max-age=30" ]}).
  - evaluate.
  - reflexivity.
  - reflexivity.
  - reflexivity.
  - reflexivity.
  - reflexivity.
  - reflexivity.
Defined.

(** A client asked for in server mode, and one in default mode. *)
Lemma constructed_client_is_consistent_witness :
  (_requestExecutor Demo.server = GraphQLExecute "other schema" /\
   _requestSubscriber Demo.server = Some (GraphQLSubscribe "other schema") /\
   _subscriptionsEnabled Demo.server = true /\ _resourceKey Demo.server = "uuid") /\
  (_requestExecutor Demo.client = FetchManager "https://api.example.com/graphql" /\
   _resourceKey Demo.client = "id").
Proof.
  split.
  - destruct (constructed_client_is_consistent Demo.other_args Demo.server eq_refl)
      as [(_ & _ & _ & E & S & N) K].
    exact (conj E (conj S (conj N K))).
  - destruct (constructed_client_is_consistent Demo.args Demo.client eq_refl)
      as [(_ & (i & url & _ & _ & U & E) & _) K].
    injection U as <-. exact (conj E K).
Defined.

(** The subscriber answers with an async iterator, also for a caller that
    awaits the cache. *)
Lemma subscription_yields_iterator_witness :
  run (_request Demo.server (QueryString Demo.userAdded) (PlainOpts Demo.awaiting)
         (Demo.context ""))
    (Demo.start (Demo.subscribing (Fulfilled (AsyncIterable Demo.iterator)) Demo.quiet)) =
  (Done (Fulfilled (ResultIterator Demo.iterator)),
   logged (SubscriberResolve (up_query (Demo.updated Demo.userAdded))
             (hashRequest (up_query (Demo.updated Demo.userAdded)))
             (up_ast (Demo.updated Demo.userAdded)) Demo.awaiting)
     (logged (UpdateRequest Demo.userAdded Demo.awaiting (Demo.context ""))
        (Demo.start (Demo.subscribing (Fulfilled (AsyncIterable Demo.iterator)) Demo.quiet)))).
Proof.
  apply (subscription_yields_iterator Demo.server Demo.userAdded Demo.awaiting
           (Demo.context "")
           (Demo.start (Demo.subscribing (Fulfilled (AsyncIterable Demo.iterator)) Demo.quiet))
           (Demo.updated Demo.userAdded) (Demo.anonymous "subscription") Demo.iterator).
  - reflexivity.
  - reflexivity.
  - reflexivity.
  - reflexivity.
  - reflexivity.
  - reflexivity.
  - reflexivity.
Defined.

(** The subscriber rejects. *)
Lemma subscription_error_witness :
  run (_subscription Demo.server Demo.userAdded (Demo.parse Demo.userAdded) Demo.opts
         (Demo.context "subscription"))
    (Demo.start (Demo.subscribing (Rejected Demo.network_error) Demo.quiet)) =
  (Done (Rejected Demo.network_error),
   logged (SubscriberResolve Demo.userAdded (hashRequest Demo.userAdded)
             (Demo.parse Demo.userAdded) Demo.opts)
     (Demo.start (Demo.subscribing (Rejected Demo.network_error) Demo.quiet))).
Proof.
  apply (subscription_error Demo.server Demo.userAdded (Demo.parse Demo.userAdded)
           Demo.opts (Demo.context "subscription")
           (Demo.start (Demo.subscribing (Rejected Demo.network_error) Demo.quiet))
           (Rejected Demo.network_error) Demo.network_error).
  - reflexivity.
  - left. reflexivity.
Defined.

(** An entry at "query" that prints nothing gives way to the default. *)
Lemma response_cacheControl_not_empty_witness :
  response_cacheControl Demo.client {[ "query" := "" ]}
  = "public, max-age=60, s-maxage=60".
Proof.
  destruct (response_cacheControl_not_empty Demo.client {[ "query" := "" ]} eq_refl)
    as (_ & _ & H & _).
  exact (H "" eq_refl eq_refl).
Defined.

(** A message of a subscription whose writes are not acknowledged: the
    caller that awaits the cache stays suspended, the other is resolved. *)
Lemma subscriber_message_waits_for_cache_witness :
  (let (t, w') :=
     run (_resolveSubscriber Demo.server (Demo.parse Demo.userAdded)
            (PlainResult Demo.message) Demo.awaiting (Demo.context "subscription"))
       (Demo.start (Demo.unacknowledged Demo.quiet)) in
   (forall x, t <> Done x) /\ deferreds w' !! 0 = None) /\
  (let (t, w') :=
     run (_resolveSubscriber Demo.server (Demo.parse Demo.userAdded)
            (PlainResult Demo.message) Demo.opts (Demo.context "subscription"))
       (Demo.start (Demo.unacknowledged Demo.quiet)) in
   t = Done (Fulfilled
         {| rr_cacheMetadata :=
              Some (with_query Demo.server subscription (n_cacheMetadata Demo.notified));
            rr_data := Some (n_data Demo.notified);
            rr_cachePromise := None; rr_queryHash := None |}) /\
   deferreds w' !! 0 = None).
Proof.
  split.
  - generalize (subscriber_message_waits_for_cache Demo.server (Demo.parse Demo.userAdded)
                  Demo.message Demo.awaiting (Demo.context "subscription")
                  (Demo.start (Demo.unacknowledged Demo.quiet)) Demo.notified
                  eq_refl eq_refl).
    destruct (run _ _) as [t w']. intros H. cbv zeta in H.
    destruct H as (_ & _ & H). exact (H eq_refl eq_refl).
  - generalize (subscriber_message_waits_for_cache Demo.server (Demo.parse Demo.userAdded)
                  Demo.message Demo.opts (Demo.context "subscription")
                  (Demo.start (Demo.unacknowledged Demo.quiet)) Demo.notified
                  eq_refl eq_refl).
    destruct (run _ _) as [t w']. intros H. cbv zeta in H.
    destruct H as (_ & H & _). exact (H eq_refl eq_refl).
Defined.

(** A request for a mutation the executor answers. *)
Lemma mutation_request_resolves_witness :
  let (t, w') :=
    run (_request Demo.client (QueryString Demo.addUser) (PlainOpts Demo.opts)
           (Demo.context "")) Demo.executing in
  t = Done (Fulfilled (ResultObject
        {| rr_cacheMetadata :=
             Some (with_query Demo.client mutation (n_cacheMetadata Demo.normalised));
           rr_data := Some (n_data Demo.normalised);
           rr_cachePromise := None; rr_queryHash := None |})) /\
  requests w' = requests Demo.executing.
Proof.
  generalize (mutation_request_resolves Demo.client Demo.addUser Demo.opts
                (Demo.context "") Demo.executing (Demo.updated Demo.addUser)
                (Demo.anonymous "mutation") Demo.executed Demo.normalised
                eq_refl eq_refl eq_refl eq_refl eq_refl eq_refl eq_refl eq_refl).
  destruct (run _ _) as [t w']. intros H. cbv zeta in H.
  destruct H as (H & _ & R). exact (conj (H (or_introl eq_refl)) R).
Defined.

(** A query the executor answers: the registries are empty again. *)
Lemma fetched_query_leaves_no_entry_witness :
  let (t, w') :=
    run (_query Demo.client Demo.user (Demo.parse Demo.user) Demo.opts
           (Demo.context "query")) Demo.executing in
  t = Done (Fulfilled
        {| rr_cacheMetadata :=
             Some (with_query Demo.client query (n_cacheMetadata Demo.normalised));
           rr_data := Some (n_data Demo.normalised);
           rr_cachePromise := Some (deferredCount Demo.executing);
           rr_queryHash := Some (hashRequest Demo.user) |}) /\
  requests w' = requests Demo.executing /\
  calls is_executor_call w' =
    ExecutorResolve (updatedQuery Demo.partial) (updatedAST Demo.partial) Demo.opts
      :: calls is_executor_call Demo.executing.
Proof.
  assert (M : (run (_checkResponseCache (hashRequest Demo.user) (Demo.context "query"))
                 Demo.executing).1 = Done None) by evaluate.
  generalize (fetched_query_leaves_no_entry Demo.client Demo.user (Demo.parse Demo.user)
                Demo.opts (Demo.context "query") Demo.executing Demo.partial
                (Fulfilled Demo.executed) eq_refl M eq_refl eq_refl eq_refl eq_refl
                eq_refl).
  clear M. destruct (run _ _) as [t w']. intros [_ H].
  exact (H Demo.executed Demo.normalised eq_refl eq_refl eq_refl).
Defined.

(** A request whose query and options are both of the wrong kind. *)
Lemma request_rejects_invalid_arguments_witness :
  let (t, w') :=
    run (_request Demo.client QueryOther OptsOther (Demo.context ""))
      (Demo.start Demo.quiet) in
  t = Done (Rejected (Many [TypeError "Request expected query to be a string.";
                            TypeError "Request expected opts to be a plain object."]))
  /\ w' = Demo.start Demo.quiet.
Proof.
  generalize (request_rejects_invalid_arguments Demo.client QueryOther OptsOther
                (Demo.context "") (Demo.start Demo.quiet)).
  destruct (run _ _) as [t w']. intros (_ & _ & H & _).
  exact (H eq_refl eq_refl).
Defined.

(** The responses store cannot be read: the check answers [undefined]. *)
Lemma checkResponseCache_degrades_witness :
  let (t, w') :=
    run (_checkResponseCache (hashRequest Demo.user) (Demo.context "query"))
      Demo.unreadable in
  t = Done None /\ stores w' = stores Demo.unreadable.
Proof.
  generalize (checkResponseCache_degrades (hashRequest Demo.user) (Demo.context "query")
                Demo.unreadable).
  destruct (run _ _) as [t w']. intros (_ & S & _ & _ & H & _).
  exact (conj (H Demo.store_error eq_refl) S).
Defined.

(** A new instance is asked for and replaces the one at hand; arguments
    that are not an object leave it in place. *)
Lemma create_failure_keeps_instance_witness :
  (let (t, w') := run (create (PlainArgs Demo.fresh_args)) Demo.created in
   t = Done (Fulfilled Demo.fresh_server) /\ instance w' = Some Demo.fresh_server /\
   log w' = CacheManagerCreate Demo.fresh_server :: log Demo.created) /\
  instance (run (create ArgsOther) Demo.created).2 = instance Demo.created.
Proof.
  split.
  - generalize (create_failure_keeps_instance (PlainArgs Demo.fresh_args) Demo.created).
    destruct (run _ _) as [t w']. intros (_ & _ & H).
    exact (H Demo.fresh_args Demo.fresh_server eq_refl eq_refl eq_refl eq_refl).
  - pose proof (create_failure_keeps_instance ArgsOther Demo.created) as H.
    change (run (create ArgsOther) Demo.created)
      with (Done (Rejected (One (TypeError
                     "Constructor expected args to be a plain object.")))
              : Task (Outcome ClientHandl), Demo.created) in H.
    destruct H as (_ & H & _). exact (H _ eq_refl).
Defined.

(** A message with errors is rejected with them. *)
Lemma resolveSubscriber_refuses_witness :
  run (_resolveSubscriber Demo.server (Demo.parse Demo.userAdded)
         (PlainResult Demo.failed_message) Demo.opts (Demo.context "subscription"))
    (Demo.start Demo.quiet)
  = (Done (Rejected (Many [Demo.not_authorised])), Demo.start Demo.quiet).
Proof.
  exact (proj2 (resolveSubscriber_refuses Demo.server (Demo.parse Demo.userAdded)
                  Demo.opts (Demo.context "subscription") (Demo.start Demo.quiet))
           Demo.failed_message Demo.not_authorised [] eq_refl).
Defined.

(** Resolved with empty cacheMetadata, the result has an entry at "query". *)
Lemma resolved_metadata_has_query_witness :
  is_Some (with_query Demo.client query (∅ : CacheMetadata) !! "query").
Proof.
  generalize (resolved_metadata_has_query Demo.client Demo.resolution_args
                (Demo.start Demo.quiet)).
  rewrite run_resolve. intros (_ & _ & H).
  destruct (H _ _ eq_refl eq_refl) as [S _]. exact S.
Defined.

(** The cache manager rejects the answer for the request in flight: the
    two pending callers are left waiting. *)
Lemma cache_rejection_strands_callers_witness :
  let (t, w') :=
    run (_query_fetch Demo.client (hashRequest Demo.user) Demo.partial 0 Demo.opts
           (Demo.context "query")) Demo.stranded in
  t = Done (Rejected Demo.cache_error) /\
  requests w' = requests Demo.stranded /\ promises w' = promises Demo.stranded /\
  stores w' = stores Demo.stranded /\
  calls is_executor_call w' =
    ExecutorResolve (updatedQuery Demo.partial) (updatedAST Demo.partial) Demo.opts
      :: calls is_executor_call Demo.stranded.
Proof.
  apply (cache_rejection_strands_callers Demo.client (hashRequest Demo.user) Demo.partial
           0 Demo.opts (Demo.context "query") Demo.stranded Demo.executed
           Demo.cache_error).
  - reflexivity.
  - reflexivity.
  - reflexivity.
Defined.

Example stranded_callers :
  let w' :=
    (run (_query_fetch Demo.client (hashRequest Demo.user) Demo.partial 0 Demo.opts
            (Demo.context "query")) Demo.stranded).2 in
  active (requests w') !! hashRequest Demo.user = Some Demo.user /\
  pending (requests w') !! hashRequest Demo.user = Some [0; 1] /\
  promises w' !! 0 = None /\ promises w' !! 1 = None.
Proof. repeat split; evaluate. Qed.

End DemoFacts.
